(** * Spending trends of the personal finance tracker

    A shallow embedding of the spending-trend handler of the API server
    ([GetSpendingTrends], [calculateSpendingTrends], [getHistoricalAverage]
    and [calculatePrediction] in package [handlers]) together with the parts
    of package [models], of Go's package [time] and of the SQL store that the
    handler relies on, followed by the properties of the trend computation.

    Conventions of the embedding.
    - Go's [float64] is Rocq's primitive binary64 [float]: every operation is
      rounded on its own, to nearest even, as on the default amd64 target.
    - Go's [int] is [Z]; the handler does no arithmetic on identifiers that
      could wrap.
    - A [time.Time] is the number of seconds since 0001-01-01T00:00:00Z.
      Every time the handler builds is in UTC and has no nanoseconds; the
      process and the store run in UTC too.
    - A function returning [(T, error)] returns a pair whose second
      component is [None] for a nil error.
    - The handler runs in a state monad over a [World]: the store, the
      process clock, the package-level variables and the log. *)

From Stdlib Require Import ZArith Lia Bool List String Ascii Floats Uint63 DecimalString.
From Stdlib Require Import Sorted Permutation.
From stdpp Require Import base gmap.
Import ListNotations.

#[local] Open Scope Z_scope.
#[local] Set Warnings "-inexact-float".

(** Go's [x > y] on [float64]. *)
Notation "x >? y" := (PrimFloat.ltb y x) : float_scope.

(** ** Package [time] (the part the handler uses) *)

Module time.

Definition Time : Type := Z.

Definition secondsPerMinute : Z := Eval cbv in 60.
Definition secondsPerHour : Z := Eval cbv in 60 * secondsPerMinute.
Definition secondsPerDay : Z := Eval cbv in 24 * secondsPerHour.
Definition secondsPerWeek : Z := Eval cbv in 7 * secondsPerDay.
Definition daysPer400Years : Z := Eval cbv in 365 * 400 + 97.
Definition daysPer100Years : Z := Eval cbv in 365 * 100 + 24.
Definition daysPer4Years : Z := Eval cbv in 365 * 4 + 1.

Definition January : Z := 1.
Definition February : Z := 2.
Definition March : Z := 3.
Definition December : Z := 12.

Definition Sunday : Z := 0.
Definition Monday : Z := 1.

(** [daysBefore[m]] counts the days in a non-leap year before month [m+1]. *)
Definition daysBefore (i : Z) : Z :=
  match i with
  | 0 => 0
  | 1 => 31
  | 2 => 31 + 28
  | 3 => 31 + 28 + 31
  | 4 => 31 + 28 + 31 + 30
  | 5 => 31 + 28 + 31 + 30 + 31
  | 6 => 31 + 28 + 31 + 30 + 31 + 30
  | 7 => 31 + 28 + 31 + 30 + 31 + 30 + 31
  | 8 => 31 + 28 + 31 + 30 + 31 + 30 + 31 + 31
  | 9 => 31 + 28 + 31 + 30 + 31 + 30 + 31 + 31 + 30
  | 10 => 31 + 28 + 31 + 30 + 31 + 30 + 31 + 31 + 30 + 31
  | 11 => 31 + 28 + 31 + 30 + 31 + 30 + 31 + 31 + 30 + 31 + 30
  | 12 => 31 + 28 + 31 + 30 + 31 + 30 + 31 + 31 + 30 + 31 + 30 + 31
  | _ => 0
  end.

Definition isLeap (year : Z) : bool :=
  (year mod 4 =? 0) && (negb (year mod 100 =? 0) || (year mod 400 =? 0)).

Definition daysIn (m year : Z) : Z :=
  if (m =? February) && isLeap year then 29
  else daysBefore m - daysBefore (m - 1).

(** [norm hi lo base] moves the overflow of [lo] beyond [0, base) into [hi]. *)
Definition norm (hi lo base : Z) : Z * Z :=
  let '(hi, lo) :=
    if lo <? 0 then
      let n := (- lo - 1) / base + 1 in (hi - n, lo + n * base)
    else (hi, lo) in
  if base <=? lo then
    let n := lo / base in (hi + n, lo - n * base)
  else (hi, lo).

(** Days from the epoch to the first of January of [year]. *)
Definition daysSinceEpoch (year : Z) : Z :=
  let y := year - 1 in
  let n := y / 400 in
  let y := y - 400 * n in
  let d := daysPer400Years * n in
  let n := y / 100 in
  let y := y - 100 * n in
  let d := d + daysPer100Years * n in
  let n := y / 4 in
  let y := y - 4 * n in
  let d := d + daysPer4Years * n in
  let n := y in
  d + 365 * n.

(** [time.Date(year, month, day, hour, min, sec, 0, time.UTC)]: the month is
    normalised into the year; days and the clock are added linearly, which
    is what normalising them one into the other amounts to. *)
Definition Date (year month day hour min sec : Z) : Time :=
  let m := month - 1 in
  let '(year, m) := norm year m 12 in
  let month := m + 1 in
  let d := daysSinceEpoch year in
  let d := d + daysBefore (month - 1) in
  let d := if isLeap year && (March <=? month) then d + 1 else d in
  let d := d + (day - 1) in
  let abs := d * secondsPerDay in
  abs + (hour * secondsPerHour + min * secondsPerMinute + sec).

(** First half of [absDate]: a day number to its year and day of the year,
    cutting off 400-, 100-, 4- and 1-year cycles. *)
Definition absYear (d : Z) : Z * Z :=
  let n := d / daysPer400Years in
  let y := 400 * n in
  let d := d - daysPer400Years * n in
  let n := d / daysPer100Years in
  let n := n - Z.shiftr n 2 in
  let y := y + 100 * n in
  let d := d - daysPer100Years * n in
  let n := d / daysPer4Years in
  let y := y + 4 * n in
  let d := d - daysPer4Years * n in
  let n := d / 365 in
  let n := n - Z.shiftr n 2 in
  let y := y + n in
  let d := d - 365 * n in
  (y + 1, d).

(** Second half of [absDate]: a day of the year to its month and day. *)
Definition absMonthDay (leap : bool) (yday : Z) : Z * Z :=
  let day := yday in
  if leap && (day =? 31 + 29 - 1) then (February, 29)
  else
    let day := if leap && (31 + 29 - 1 <? day) then day - 1 else day in
    let month := day / 31 in
    let end_ := daysBefore (month + 1) in
    let '(month, begin) :=
      if end_ <=? day then (month + 1, end_) else (month, daysBefore month) in
    let month := month + 1 in
    let day := day - begin + 1 in
    (month, day).

Definition absDate (abs : Time) : Z * Z * Z :=
  let d := abs / secondsPerDay in
  let '(year, yday) := absYear d in
  let '(month, day) := absMonthDay (isLeap year) yday in
  (year, month, day).

Definition Year (t : Time) : Z := fst (fst (absDate t)).
Definition Month (t : Time) : Z := snd (fst (absDate t)).
Definition Day (t : Time) : Z := snd (absDate t).

Definition Clock (t : Time) : Z * Z * Z :=
  let sec := t mod secondsPerDay in
  let hour := sec / secondsPerHour in
  let sec := sec - hour * secondsPerHour in
  let min := sec / secondsPerMinute in
  let sec := sec - min * secondsPerMinute in
  (hour, min, sec).

Definition AddDate (t : Time) (years months days : Z) : Time :=
  let '(year, month, day) := absDate t in
  let '(hour, min, sec) := Clock t in
  Date (year + years) (month + months) (day + days) hour min sec.

(** The epoch, 1 January of year 1, is a Monday. *)
Definition Weekday (t : Time) : Z :=
  let sec := (t + Monday * secondsPerDay) mod secondsPerWeek in
  sec / secondsPerDay.

Definition isDigit (c : ascii) : bool :=
  (Ascii.leb "0" c && Ascii.leb c "9")%char.

Definition digitVal (c : ascii) : Z := Z.of_nat (nat_of_ascii c) - 48.

Inductive ParseError : Type :=
  | BadValue (value : string)
  | ExtraText (value : string)
  | OutOfRange (field : string).

(** Two decimal digits at the head of [s], as [getnum(s, true)] reads them:
    their value and the rest of [s]. *)
Definition getnum (s : string) : option (Z * string) :=
  match s with
  | String d1 (String d2 rest) =>
      if isDigit d1 && isDigit d2
      then Some (digitVal d1 * 10 + digitVal d2, rest)
      else None
  | _ => None
  end.

(** The literal dash of the layout at the head of [s]. *)
Definition skipDash (s : string) : option string :=
  match s with
  | String c rest => if Ascii.eqb c "-" then Some rest else None
  | EmptyString => None
  end.

(** [time.Parse("2006-01-02", value)], chunk by chunk as the layout is
    read: four year digits, a dash, two month digits (a month outside 1..12
    is out of range), a dash, two day digits, nothing more, and at the end
    the day of the month is checked against the calendar.  The result is
    midnight UTC of that day. *)
Definition Parse (value : string) : Time * option ParseError :=
  match value with
  | String y1 (String y2 (String y3 (String y4 rest))) =>
      if isDigit y1 && isDigit y2 && isDigit y3 && isDigit y4 then
        let year := ((digitVal y1 * 10 + digitVal y2) * 10 + digitVal y3) * 10
                    + digitVal y4 in
        match skipDash rest with
        | None => (0, Some (BadValue value))
        | Some rest =>
            match getnum rest with
            | None => (0, Some (BadValue value))
            | Some (month, rest) =>
                if (month <=? 0) || (12 <? month)
                then (0, Some (OutOfRange "month"))
                else
                  match skipDash rest with
                  | None => (0, Some (BadValue value))
                  | Some rest =>
                      match getnum rest with
                      | None => (0, Some (BadValue value))
                      | Some (day, rest) =>
                          match rest with
                          | String _ _ => (0, Some (ExtraText rest))
                          | EmptyString =>
                              if (day <? 1) || (daysIn month year <? day)
                              then (0, Some (OutOfRange "day"))
                              else (Date year month day 0 0 0, None)
                          end
                      end
                  end
            end
        end
      else (0, Some (BadValue value))
  | _ => (0, Some (BadValue value))
  end.

Definition decimal (n : Z) : string :=
  NilZero.string_of_uint (N.to_uint (Z.to_N n)).

Fixpoint zeros (n : nat) : string :=
  match n with
  | O => EmptyString
  | S k => String "0" (zeros k)
  end.

(** [appendInt]: a decimal of at least [width] digits, with its sign. *)
Definition appendInt (x : Z) (width : nat) : string :=
  let u := decimal (Z.abs x) in
  let padded := (zeros (width - String.length u) ++ u)%string in
  if x <? 0 then String "-" padded else padded.

(** [t.Format("2006-01-02")]. *)
Definition Format (t : Time) : string :=
  let '(year, month, day) := absDate t in
  (appendInt year 4 ++ "-" ++ appendInt month 2 ++ "-" ++ appendInt day 2)%string.

End time.

(** ** Package [models] *)

Module models.

Record TrendDirectionTypes : Type := {
  Up : string;
  Down : string;
  Stable : string;
  New : string
}.

Definition TrendDirections : TrendDirectionTypes :=
  {| Up := "up"; Down := "down"; Stable := "stable"; New := "new" |}.

Record PredictionWeights : Type := {
  Current : float;
  Trend : float;
  Historical : float
}.

Definition PredictionConfig : PredictionWeights :=
  {| Current := 0.4; Trend := 0.4; Historical := 0.2 |}.

Record TrendThresholds : Type := {
  UpThreshold : float;
  DownThreshold : float
}.

Definition TrendLimits : TrendThresholds :=
  {| UpThreshold := 10.0; DownThreshold := -10.0 |}.

Record HistoricalPeriods : Type := {
  DayLookback : Z;
  WeekLookback : Z;
  MonthLookback : Z
}.

Definition HistoricalDays : HistoricalPeriods :=
  {| DayLookback := 30; WeekLookback := 84; MonthLookback := 365 |}.

Record PredictionFactors : Type := {
  ConservativeEstimate : float
}.

Definition PredictionSettings : PredictionFactors :=
  {| ConservativeEstimate := 0.8 |}.

(** The package-level variables are assignable: a running program holds
    their current values, which start as declared above. *)
Record Vars : Type := {
  varTrendDirections : TrendDirectionTypes;
  varPredictionConfig : PredictionWeights;
  varTrendLimits : TrendThresholds;
  varHistoricalDays : HistoricalPeriods;
  varPredictionSettings : PredictionFactors
}.

Definition initVars : Vars :=
  {| varTrendDirections := TrendDirections;
     varPredictionConfig := PredictionConfig;
     varTrendLimits := TrendLimits;
     varHistoricalDays := HistoricalDays;
     varPredictionSettings := PredictionSettings |}.

(** The columns of [categories] and [transactions] that the queries read. *)
Record Category : Type := {
  cat_ID : Z;
  cat_UserID : Z;
  cat_Name : string;
  cat_Type : string
}.

Record Transaction : Type := {
  tx_ID : Z;
  tx_UserID : Z;
  tx_CategoryID : Z;
  tx_Amount : float;
  tx_Type : string;
  tx_Date : time.Time
}.

Record SpendingTrend : Type := {
  CategoryID : Z;
  CategoryName : string;
  CurrentSpend : float;
  PredictedSpend : float;
  TrendDirection : string;
  ChangePercent : float
}.

Record SpendingTrendsRequest : Type := {
  Period : string;
  Date : string
}.

Record SpendingTrendsResponse : Type := {
  resp_Period : string;
  resp_Date : string;
  resp_Trends : list SpendingTrend
}.

End models.

(** ** The store

    The three statements of the handler, evaluated over the two tables.
    The schema is not part of the sources; [amount] is taken to be double
    precision, as [models.Transaction.Amount] is a [float64], and an
    aggregate folds the rows in table order.  SQL leaves the order of rows
    with equal sort keys to the engine; here the sort is stable.  The store
    can fail a statement when it is issued, or while its rows are read. *)

Module sql.

Inductive Value : Type :=
  | VNull
  | VInt (n : Z)
  | VText (s : string)
  | VFloat (f : float).

Definition Row : Type := list Value.

(** The statements, with their arguments.

    [CurrentQuery $1 $2 $3]:
<<
    SELECT c.id, c.name, COALESCE(SUM(t.amount), 0) as amount
    FROM categories c
    LEFT JOIN transactions t ON c.id = t.category_id
        AND t.user_id = $1
        AND t.type = 'expense'
        AND t.date >= $2
        AND t.date < $3
    WHERE c.user_id = $1 AND c.type = 'expense'
    GROUP BY c.id, c.name
    ORDER BY amount DESC
>>
    [PrevQuery $1 $2 $3]: the same join and filter, selecting
    [c.id, COALESCE(SUM(t.amount), 0)], grouped by [c.id] and not ordered.

    [HistoricalQuery days $1 $2]:
<<
    SELECT COALESCE(AVG(amount), 0)
    FROM transactions
    WHERE user_id = $1
        AND category_id = $2
        AND type = 'expense'
        AND date >= NOW() - INTERVAL 'days days'
>> *)
Inductive Stmt : Type :=
  | CurrentQuery (userID : Z) (startDate endDate : time.Time)
  | PrevQuery (userID : Z) (prevStartDate prevEndDate : time.Time)
  | HistoricalQuery (days : Z) (userID categoryID : Z).

Inductive Error : Type :=
  | ErrDriver (q : Stmt)
  | ErrNoRows
  | ErrScan (row : Row).

(** How the store fails a statement.  [AtQuery true]: [db.Query] returns the
    error.  [AtQuery false]: the statement runs and all its rows are read.
    [AfterRows n]: [db.Query] returns rows, and after [n] of them
    [rows.Next()] returns false because the read broke; only [rows.Err()]
    tells this from the end of the rows. *)
Inductive Failing : Type :=
  | AtQuery (fails : bool)
  | AfterRows (n : nat).

Record DB : Type := {
  categories : list models.Category;
  transactions : list models.Transaction;
  (** the server clock, read by [NOW()] *)
  now : time.Time;
  (** the statements the store fails to run, and how: [failing d q = false]
      says that [q] runs to its end, [failing d q = true] that it fails at
      [db.Query] *)
  failing : Stmt -> Failing
}.

(** [SUM(x)]: null over no rows. *)
Definition SUM (xs : list float) : option float :=
  match xs with
  | [] => None
  | x :: rest => Some (fold_left PrimFloat.add rest x)
  end.

(** [AVG(x)]: null over no rows, else the sum over the count. *)
Definition AVG (xs : list float) : option float :=
  match SUM xs with
  | None => None
  | Some s =>
      let n := PrimFloat.of_uint63 (Uint63.of_Z (Z.of_nat (length xs))) in
      Some (s / n)%float
  end.

Definition COALESCE (x : option float) (d : float) : float :=
  match x with
  | Some v => v
  | None => d
  end.

(** The [ON] condition of both aggregation statements. *)
Definition joins (userID : Z) (startDate endDate : time.Time)
    (c : models.Category) (t : models.Transaction) : bool :=
  (models.cat_ID c =? models.tx_CategoryID t)
  && (models.tx_UserID t =? userID)
  && String.eqb (models.tx_Type t) "expense"
  && (startDate <=? models.tx_Date t)
  && (models.tx_Date t <? endDate).

(** [categories c LEFT JOIN transactions t ON ...]: a category without a
    matching transaction is kept once, with a null right side. *)
Definition leftJoin (d : DB) (userID : Z) (startDate endDate : time.Time)
    : list (models.Category * option models.Transaction) :=
  flat_map
    (fun c =>
       match List.filter (joins userID startDate endDate c) (transactions d) with
       | [] => [(c, None)]
       | ts => map (fun t => (c, Some t)) ts
       end)
    (categories d).

(** [WHERE c.user_id = $1 AND c.type = 'expense']. *)
Definition whereExpenseOf (userID : Z)
    (r : models.Category * option models.Transaction) : bool :=
  (models.cat_UserID (fst r) =? userID)
  && String.eqb (models.cat_Type (fst r)) "expense".

(** The non-null [t.amount] of the joined rows. *)
Definition amounts (rs : list (models.Category * option models.Transaction))
    : list float :=
  flat_map
    (fun r => match snd r with
              | Some t => [models.tx_Amount t]
              | None => []
              end)
    rs.

Definition sameKey (k1 k2 : Z * string) : bool :=
  (fst k1 =? fst k2) && String.eqb (snd k1) (snd k2).

(** The distinct keys of a list, in order of first appearance. *)
Fixpoint distinct {K : Type} (eqb : K -> K -> bool) (ks : list K) : list K :=
  match ks with
  | [] => []
  | k :: rest => k :: List.filter (fun k' => negb (eqb k k')) (distinct eqb rest)
  end.

(** [GROUP BY c.id, c.name] with [COALESCE(SUM(t.amount), 0)]. *)
Definition groupByIdName
    (rs : list (models.Category * option models.Transaction))
    : list (Z * string * float) :=
  let key r := (models.cat_ID (fst r), models.cat_Name (fst r)) in
  map
    (fun k =>
       (k, COALESCE (SUM (amounts (List.filter (fun r => sameKey k (key r)) rs))) 0))
    (distinct sameKey (map key rs)).

(** [GROUP BY c.id] with [COALESCE(SUM(t.amount), 0)]. *)
Definition groupById
    (rs : list (models.Category * option models.Transaction))
    : list (Z * float) :=
  let key r := models.cat_ID (fst r) in
  map
    (fun k =>
       (k, COALESCE (SUM (amounts (List.filter (fun r => k =? key r) rs))) 0))
    (distinct Z.eqb (map key rs)).

(** [ORDER BY amount DESC], as a stable insertion sort. *)
Fixpoint insertDesc (x : Z * string * float) (l : list (Z * string * float))
    : list (Z * string * float) :=
  match l with
  | [] => [x]
  | y :: rest =>
      if (snd y <? snd x)%float then x :: y :: rest
      else y :: insertDesc x rest
  end.

Definition orderByAmountDesc (l : list (Z * string * float))
    : list (Z * string * float) :=
  fold_left (fun sorted x => insertDesc x sorted) l [].

(** What each statement selects. *)
Definition eval (d : DB) (q : Stmt) : list Row :=
  match q with
  | CurrentQuery userID startDate endDate =>
      map (fun r => [VInt (fst (fst r)); VText (snd (fst r)); VFloat (snd r)])
        (orderByAmountDesc
           (groupByIdName
              (List.filter (whereExpenseOf userID)
                 (leftJoin d userID startDate endDate))))
  | PrevQuery userID prevStartDate prevEndDate =>
      map (fun r => [VInt (fst r); VFloat (snd r)])
        (groupById
           (List.filter (whereExpenseOf userID)
              (leftJoin d userID prevStartDate prevEndDate)))
  | HistoricalQuery days userID categoryID =>
      let since := now d - days * time.secondsPerDay in
      let matching :=
        List.filter
          (fun t =>
             (models.tx_UserID t =? userID)
             && (models.tx_CategoryID t =? categoryID)
             && String.eqb (models.tx_Type t) "expense"
             && (since <=? models.tx_Date t))
          (transactions d) in
      [[VFloat (COALESCE (AVG (map models.tx_Amount matching)) 0)]]
  end.

(** [db.Query] and the rows that [rows.Next()] then yields: the driver's
    error, or the rows up to the end or up to where the read breaks. *)
Definition Query (d : DB) (q : Stmt) : list Row * option Error :=
  match failing d q with
  | AtQuery fails =>
      if fails then ([], Some (ErrDriver q)) else (eval d q, None)
  | AfterRows n => (firstn n (eval d q), None)
  end.

(** [rows.Err()] once [rows.Next()] has returned false: the error of a
    read that broke before the last row. *)
Definition Err (d : DB) (q : Stmt) : option Error :=
  match failing d q with
  | AtQuery _ => None
  | AfterRows n =>
      if (n <? length (eval d q))%nat then Some (ErrDriver q) else None
  end.

(** [db.QueryRow] up to the first [rows.Next()] of its [Scan]: the rows,
    and the error of [db.Query] or, when there is no first row, of
    [rows.Err()]. *)
Definition QueryRow (d : DB) (q : Stmt) : list Row * option Error :=
  match Query d q with
  | ([], None) => ([], Err d q)
  | r => r
  end.

(** Conversions of [Scan] into an [*int], a [*string] and a [*float64], of
    a cell that has the type of its column: the statements above select an
    integer, a text and a double precision column.  The conversions of
    [Scan] between types (an integer or a numeric text read into a
    [*float64]) are not modelled; no row of [eval] needs them. *)
Definition asInt (v : Value) : option Z :=
  match v with
  | VInt n => Some n
  | _ => None
  end.

Definition asString (v : Value) : option string :=
  match v with
  | VText s => Some s
  | _ => None
  end.

Definition asFloat (v : Value) : option float :=
  match v with
  | VFloat f => Some f
  | _ => None
  end.

End sql.

(** A statement that runs, or that fails at [db.Query], is written [false]
    or [true]. *)
Coercion sql.AtQuery : bool >-> sql.Failing.

(** ** Package [handlers]

    [GetSpendingTrends], [calculateSpendingTrends], [getHistoricalAverage]
    and [calculatePrediction] keep their names.  The parts of
    [calculateSpendingTrends] are named after what they are in it:
    [dateRanges] is its switch on the period, [storePrev] the body of its
    loop over the previous rows, [trendsLoop] its loop over the current
    rows with [trendOf] as the body, and [trendDirection] the direction and
    change computed at the end of that body. *)

Module handlers.

#[local] Open Scope float_scope.

(** The values of Go's [error] that reach the handler. *)
Inductive error : Type :=
  | TimeError (e : time.ParseError)
  | Errorf (format arg : string)
  | SQLError (e : sql.Error)
  | BindError (field tag : string).

(** What a handler can read or change around it. *)
Record World : Type := {
  db : sql.DB;
  clock : time.Time;
  vars : models.Vars;
  log : list (string * error)
}.

Definition M (A : Type) : Type := World -> A * World.

#[export] Instance M_ret : MRet M := fun A a w => (a, w).

#[export] Instance M_bind : MBind M :=
  fun A B f m w => let '(a, w') := m w in f a w'.

(** [h.db.Query], with the rows its loop reads. *)
Definition dbQuery (q : sql.Stmt) : M (list sql.Row * option sql.Error) :=
  fun w => (sql.Query (db w) q, w).

(** [h.db.QueryRow], with what its [Scan] starts from. *)
Definition dbQueryRow (q : sql.Stmt) : M (list sql.Row * option sql.Error) :=
  fun w => (sql.QueryRow (db w) q, w).

(** [time.Now()]. *)
Definition timeNow : M time.Time := fun w => (clock w, w).

(** [log.Printf(format, err)]. *)
Definition logPrintf (format : string) (err : error) : M unit :=
  fun w =>
    (tt, {| db := db w; clock := clock w; vars := vars w;
            log := log w ++ [(format, err)] |}).

(** [calculatePrediction] uses simple trending algorithm. *)
Definition calculatePrediction (current previous historical : float)
    (period : string) : float :=
  (* Weight factors *)
  let currentWeight := 0.4 in
  let trendWeight := 0.4 in
  let historicalWeight := 0.2 in
  (* Calculate trend factor *)
  let trendFactor := if previous >? 0 then current - previous else 0 in
  (* Simple prediction: weighted average with trend *)
  let prediction :=
    (current * currentWeight) + (trendFactor * trendWeight)
    + (historical * historicalWeight) in
  (* Ensure prediction is not negative *)
  if prediction <? 0 then current * 0.8 (* conservative estimate *)
  else prediction.

(** [QueryRow(...).Scan(&avg)] on the single row of the average. *)
Definition scanAvg (r : list sql.Row * option sql.Error) : float * option error :=
  match r with
  | (_, Some e) => (0, Some (SQLError e))
  | ([], None) => (0, Some (SQLError sql.ErrNoRows))
  | (row :: _, None) =>
      match row with
      | [v] =>
          match sql.asFloat v with
          | Some avg => (avg, None)
          | None => (0, Some (SQLError (sql.ErrScan row)))
          end
      | _ => (0, Some (SQLError (sql.ErrScan row)))
      end
  end.

(** [getHistoricalAverage] calculates average spending for a category over
    last periods. *)
Definition getHistoricalAverage (userID categoryID : Z) (period : string)
    : M (float * option error) :=
  let days :=
    if String.eqb period "day" then 30%Z (* last 30 days *)
    else if String.eqb period "week" then 84%Z (* last 12 weeks *)
    else if String.eqb period "month" then 365%Z (* last 12 months *)
    else 0%Z in
  r ← dbQueryRow (sql.HistoricalQuery days userID categoryID);
  mret (scanAvg r).

(** The date ranges of [calculateSpendingTrends], by period:
    [(startDate, endDate, prevStartDate, prevEndDate)], or [None] for the
    default branch of the switch. *)
Definition dateRanges (period : string) (date : time.Time)
    : option (time.Time * time.Time * time.Time * time.Time) :=
  if String.eqb period "day" then
    let startDate :=
      time.Date (time.Year date) (time.Month date) (time.Day date) 0 0 0 in
    let endDate := time.AddDate startDate 0 0 1 in
    let prevStartDate := time.AddDate startDate 0 0 (-1) in
    let prevEndDate := startDate in
    Some (startDate, endDate, prevStartDate, prevEndDate)
  else if String.eqb period "week" then
    (* Start of week (Monday) *)
    let weekday := time.Weekday date in
    let weekday := if (weekday =? 0)%Z then 7%Z else weekday in (* Sunday = 7 *)
    let startDate := time.AddDate date 0 0 (- (weekday - 1)) in
    let startDate :=
      time.Date (time.Year startDate) (time.Month startDate)
        (time.Day startDate) 0 0 0 in
    let endDate := time.AddDate startDate 0 0 7 in
    let prevStartDate := time.AddDate startDate 0 0 (-7) in
    let prevEndDate := startDate in
    Some (startDate, endDate, prevStartDate, prevEndDate)
  else if String.eqb period "month" then
    let startDate := time.Date (time.Year date) (time.Month date) 1 0 0 0 in
    let endDate := time.AddDate startDate 0 1 0 in
    let prevStartDate := time.AddDate startDate 0 (-1) 0 in
    let prevEndDate := startDate in
    Some (startDate, endDate, prevStartDate, prevEndDate)
  else None.

(** [prevRows.Scan(&categoryID, &amount)]. *)
Definition scanPrev (row : sql.Row) : option (Z * float) :=
  match row with
  | [a; b] =>
      match sql.asInt a, sql.asFloat b with
      | Some categoryID, Some amount => Some (categoryID, amount)
      | _, _ => None
      end
  | _ => None
  end.

(** One turn of the loop over [prevRows]; a row that does not scan is
    skipped. *)
Definition storePrev (prevSpending : gmap Z float) (row : sql.Row)
    : gmap Z float :=
  match scanPrev row with
  | Some (categoryID, amount) => <[categoryID := amount]> prevSpending
  | None => prevSpending
  end.

(** [currentRows.Scan(&trend.CategoryID, &trend.CategoryName,
    &trend.CurrentSpend)]. *)
Definition scanCurrent (row : sql.Row) : option (Z * string * float) :=
  match row with
  | [a; b; c] =>
      match sql.asInt a, sql.asString b, sql.asFloat c with
      | Some id, Some name, Some amount => Some (id, name, amount)
      | _, _, _ => None
      end
  | _ => None
  end.

(** Trend direction and change of one category. *)
Definition trendDirection (currentSpend prevAmount : float) : string * float :=
  if prevAmount >? 0 then
    let change := ((currentSpend - prevAmount) / prevAmount) * 100 in
    if change >? 10 then ("up"%string, change)
    else if change <? -10 then ("down"%string, change)
    else ("stable"%string, change)
  else ("new"%string, 0).

(** The body of the loop over [currentRows], for a row that scanned. *)
Definition trendOf (userID : Z) (period : string) (prevSpending : gmap Z float)
    (categoryID : Z) (categoryName : string) (currentSpend : float)
    : M models.SpendingTrend :=
  (* Get historical average for prediction *)
  '(historicalAvg, err) ← getHistoricalAverage userID categoryID period;
  let historicalAvg :=
    match err with
    | Some _ => currentSpend (* fallback *)
    | None => historicalAvg
    end in
  (* Calculate prediction based on trend *)
  let prevAmount := default 0 (prevSpending !! categoryID) in
  let prediction := calculatePrediction currentSpend prevAmount historicalAvg period in
  (* Calculate trend direction and change *)
  let '(direction, change) := trendDirection currentSpend prevAmount in
  mret {| models.CategoryID := categoryID;
          models.CategoryName := categoryName;
          models.CurrentSpend := currentSpend;
          models.PredictedSpend := prediction;
          models.TrendDirection := direction;
          models.ChangePercent := change |}.

(** The loop over [currentRows], appending to [trends]. *)
Fixpoint trendsLoop (userID : Z) (period : string) (prevSpending : gmap Z float)
    (currentRows : list sql.Row) (trends : list models.SpendingTrend)
    : M (list models.SpendingTrend) :=
  match currentRows with
  | [] => mret trends
  | row :: rest =>
      match scanCurrent row with
      | None => trendsLoop userID period prevSpending rest trends
      | Some (categoryID, categoryName, currentSpend) =>
          trend ← trendOf userID period prevSpending categoryID categoryName
                    currentSpend;
          trendsLoop userID period prevSpending rest (trends ++ [trend])
      end
  end.

(** [calculateSpendingTrends] calculates current spending and predictions. *)
Definition calculateSpendingTrends (userID : Z) (period dateStr : string)
    : M (list models.SpendingTrend * option error) :=
  let '(date, err) := time.Parse dateStr in
  match err with
  | Some e => mret ([], Some (TimeError e))
  | None =>
      (* Calculate date ranges based on period *)
      match dateRanges period date with
      | None => mret ([], Some (Errorf "invalid period: %s" period))
      | Some (startDate, endDate, prevStartDate, prevEndDate) =>
          (* Get current period spending by category *)
          '(currentRows, err) ← dbQuery (sql.CurrentQuery userID startDate endDate);
          match err with
          | Some e => mret ([], Some (SQLError e))
          | None =>
              (* Get previous period spending for comparison *)
              '(prevRows, err) ←
                dbQuery (sql.PrevQuery userID prevStartDate prevEndDate);
              match err with
              | Some e => mret ([], Some (SQLError e))
              | None =>
                  (* Store previous period data *)
                  let prevSpending := fold_left storePrev prevRows ∅ in
                  (* Calculate trends and predictions *)
                  trends ← trendsLoop userID period prevSpending currentRows [];
                  mret (trends, None)
              end
          end
      end
  end.

(** The request as gin hands it over: the user the middleware stored and
    the parameters of the query string. *)
Record Context : Type := {
  user_id : Z;
  query : list (string * string)
}.

Fixpoint formValue (params : list (string * string)) (key : string) : string :=
  match params with
  | [] => EmptyString
  | (k, v) :: rest => if String.eqb k key then v else formValue rest key
  end.

(** [c.ShouldBindQuery(&req)]: [period] is required. *)
Definition ShouldBindQuery (c : Context)
    : models.SpendingTrendsRequest * option error :=
  let req := {| models.Period := formValue (query c) "period";
                models.Date := formValue (query c) "date" |} in
  if String.eqb (models.Period req) "" then
    (req, Some (BindError "Period" "required"))
  else (req, None).

Definition StatusOK : Z := 200.
Definition StatusBadRequest : Z := 400.
Definition StatusInternalServerError : Z := 500.

Inductive Body : Type :=
  | ErrorOf (err : error)
  | ErrorText (message : string)
  | Trends (response : models.SpendingTrendsResponse).

Record Response : Type := {
  status : Z;
  body : Body
}.

(** [c.JSON(code, obj)]. *)
Definition JSON (code : Z) (obj : Body) : Response :=
  {| status := code; body := obj |}.

(** [GetSpendingTrends] returns spending trends with predictions. *)
Definition GetSpendingTrends (c : Context) : M Response :=
  let userID := user_id c in
  let '(req, err) := ShouldBindQuery c in
  match err with
  | Some e => mret (JSON StatusBadRequest (ErrorOf e))
  | None =>
      (* Default to current date if not provided *)
      date ← (if String.eqb (models.Date req) "" then
                t ← timeNow; mret (time.Format t)
              else mret (models.Date req));
      '(trends, err) ← calculateSpendingTrends userID (models.Period req) date;
      match err with
      | Some e =>
          _ ← logPrintf "Error calculating spending trends: %v" e;
          mret (JSON StatusInternalServerError
                  (ErrorText "Failed to calculate spending trends"))
      | None =>
          mret (JSON StatusOK
                  (Trends {| models.resp_Period := models.Period req;
                             models.resp_Date := date;
                             models.resp_Trends := trends |}))
      end
  end.

End handlers.

(** ** Package [strings] (the part the middleware uses) *)

Module strings.

(** [strings.HasPrefix(s, prefix)]: [s] is at least as long as [prefix]
    and starts with its bytes. *)
Fixpoint HasPrefix (s prefix : string) {struct prefix} : bool :=
  match prefix, s with
  | EmptyString, _ => true
  | String p prefix', String c s' => Ascii.eqb c p && HasPrefix s' prefix'
  | String _ _, EmptyString => false
  end.

(** [s[n:]]. *)
Fixpoint from (n : nat) (s : string) : string :=
  match n, s with
  | O, _ => s
  | S k, String _ rest => from k rest
  | S _, EmptyString => EmptyString
  end.

(** [strings.TrimPrefix(s, prefix)]. *)
Definition TrimPrefix (s prefix : string) : string :=
  if HasPrefix s prefix then from (String.length prefix) s else s.

End strings.

(** ** [AuthMiddleware] of package [handlers]

    [auth.ValidateJWT] is not part of the sources: the middleware is
    modelled over any claims and any validation.  [authHeader] is what
    [c.GetHeader("Authorization")] gives, empty without the header. *)

Definition StatusUnauthorized : Z := 401.

(** How the middleware leaves the request: answered and aborted, or handed
    to the next handler with the claims stored in the context. *)
Inductive Passage (Claims : Type) : Type :=
  | Aborted (response : handlers.Response)
  | Next (claims : Claims).

Arguments Aborted {Claims} response.
Arguments Next {Claims} claims.

Section Auth.

Context {Claims AuthError : Type}.
Variable ValidateJWT : string -> Claims * option AuthError.

Definition AuthMiddleware (authHeader : string) : Passage Claims :=
  if String.eqb authHeader "" then
    Aborted (handlers.JSON StatusUnauthorized
               (handlers.ErrorText "Authorization header required"))
  else
    let tokenString := strings.TrimPrefix authHeader "Bearer " in
    let '(claims, err) := ValidateJWT tokenString in
    match err with
    | Some _ =>
        Aborted (handlers.JSON StatusUnauthorized (handlers.ErrorText "Invalid token"))
    | None => Next claims
    end.

End Auth.

(** ** The loops of [GetSpendingAnalytics] of package [handlers]

    The statement of [GetSpendingAnalytics] compares dates with the
    strings of the request, which the store reads, and [rows.Scan]
    converts what the driver hands over as [database/sql] has it; neither
    is part of the sources.  What is embedded is what the handler does
    with the rows of the statement, over any [Scan]. *)

Module analytics.

#[local] Open Scope float_scope.
#[local] Existing Instances handlers.M_ret handlers.M_bind.

Record SpendingByCategory : Type := {
  CategoryID : Z;
  CategoryName : string;
  Amount : float;
  Percentage : float
}.

Section Scan.

(** [rows.Scan(&spending.CategoryID, &spending.CategoryName,
    &spending.Amount)]: what it reads of a row, and its error. *)
Variable Scan : sql.Row -> Z * string * float * option handlers.error.

(** The loop over [rows]: a row that does not scan is logged and skipped,
    the others are appended and their amounts summed up. *)
Fixpoint rowsLoop (rows : list sql.Row) (analytics : list SpendingByCategory)
    (totalSpending : float) : handlers.M (list SpendingByCategory * float) :=
  match rows with
  | [] => mret (analytics, totalSpending)
  | row :: rest =>
      let '(categoryID, categoryName, amount, err) := Scan row in
      match err with
      | Some e =>
          _ ← handlers.logPrintf "Error scanning spending row: %v" e;
          rowsLoop rest analytics totalSpending
      | None =>
          let spending := {| CategoryID := categoryID;
                             CategoryName := categoryName;
                             Amount := amount;
                             Percentage := 0 |} in
          rowsLoop rest (analytics ++ [spending]) (totalSpending + amount)
      end
  end.

(** Calculate percentages. *)
Definition percentages (analytics : list SpendingByCategory)
    (totalSpending : float) : list SpendingByCategory :=
  map
    (fun spending =>
       {| CategoryID := CategoryID spending;
          CategoryName := CategoryName spending;
          Amount := Amount spending;
          Percentage :=
            if totalSpending >? 0 then (Amount spending / totalSpending) * 100
            else 0 |})
    analytics.

(** What [GetSpendingAnalytics] answers from the rows of its statement. *)
Definition spendingAnalytics (rows : list sql.Row)
    : handlers.M (list SpendingByCategory) :=
  '(analytics, totalSpending) ← rowsLoop rows [] 0;
  mret (percentages analytics totalSpending).

End Scan.

End analytics.

(** ** Definitions used by the statements and the proofs *)

(** *** Calendar *)

(** The start of the UTC day of [t]. *)
Definition midnight (t : time.Time) : time.Time :=
  time.secondsPerDay * (t / time.secondsPerDay).

(** A number of days as a duration in seconds. *)
Definition days (n : Z) : Z := n * time.secondsPerDay.

(** The first instant of month [m] of year [y]. *)
Definition monthStart (y m : Z) : time.Time := time.Date y m 1 0 0 0.

(** The calendar month after and before month [m] of year [y]. *)
Definition succMonth (y m : Z) : Z * Z :=
  if m =? time.December then (y + 1, time.January) else (y, m + 1).

Definition predMonth (y m : Z) : Z * Z :=
  if m =? time.January then (y - 1, time.December) else (y, m - 1).

(** The day of the week counted from Monday = 1 to Sunday = 7. *)
Definition isoWeekday (t : time.Time) : Z :=
  if time.Weekday t =? time.Sunday then 7 else time.Weekday t.

(** The days of a year, leap or not, and of year [y]. *)
Definition yearDays (leap : bool) : Z := if leap then 366 else 365.

Definition yearLen (y : Z) : Z := if time.isLeap y then 366 else 365.

(** The leap day, for the months after February of a leap year. *)
Definition leapAdj (leap : bool) (month : Z) : Z :=
  if leap && (time.March <=? month) then 1 else 0.

(** The day number of day [d] of month [m] of year [y], and the seconds
    of a clock reading. *)
Definition dayNumber (y m d : Z) : Z :=
  time.daysSinceEpoch y + time.daysBefore (m - 1) + leapAdj (time.isLeap y) m
  + (d - 1).

Definition clockSeconds (h mi s : Z) : Z :=
  h * time.secondsPerHour + mi * time.secondsPerMinute + s.

(** [time.daysIn] as a function of the month and of whether the year is a
    leap year. *)
Definition monthLen (leap : bool) (m : Z) : Z :=
  if (m =? time.February) && leap then 29
  else time.daysBefore m - time.daysBefore (m - 1).

(** Bounded universal quantification by enumeration. *)
Fixpoint forall_below (n : nat) (P : Z -> bool) : bool :=
  match n with
  | O => true
  | S k => P (Z.of_nat k) && forall_below k P
  end.

(** [absMonthDay] gives a day of a month, the one that is [yd] days into
    the year. *)
Definition absMonthDay_ok (leap : bool) (yd : Z) : bool :=
  let '(m, d) := time.absMonthDay leap yd in
  (1 <=? m) && (m <=? 12) && (1 <=? d) && (d <=? monthLen leap m)
  && (time.daysBefore (m - 1) + leapAdj leap m + (d - 1) =? yd).

(** [absMonthDay] gives back day [d] of month [m] from its place in the
    year. *)
Definition monthDay_inv_ok (leap : bool) (m d : Z) : bool :=
  if (1 <=? m) && (m <=? 12) && (1 <=? d) && (d <=? monthLen leap m) then
    let yd := time.daysBefore (m - 1) + leapAdj leap m + (d - 1) in
    let '(m', d') := time.absMonthDay leap yd in
    (m' =? m) && (d' =? d) && (yd <? yearDays leap)
  else true.

(** The table of months: a month has 28 to 31 days, and the days before
    the next month are the days before this one and its own. *)
Definition month_ok (leap : bool) (m : Z) : bool :=
  if (1 <=? m) && (m <=? 12) then
    (28 <=? monthLen leap m) && (monthLen leap m <=? 31)
    && (0 <=? time.daysBefore (m - 1))
    && (if m <=? 11 then
          time.daysBefore m + leapAdj leap (m + 1)
          =? time.daysBefore (m - 1) + leapAdj leap m + monthLen leap m
        else
          time.daysBefore (m - 1) + leapAdj leap m + monthLen leap m
          =? yearDays leap)
  else true.

Ltac unfold_consts :=
  unfold time.secondsPerWeek, time.secondsPerDay, time.secondsPerHour,
    time.secondsPerMinute, time.daysPer400Years, time.daysPer100Years,
    time.daysPer4Years, time.January, time.February, time.March, time.Sunday,
    time.Monday in *.

(** *** Requests, responses and the store *)

(** The lookback of the historical average, by period: 30 days for day,
    84 days for week, 365 days for month. *)
Definition lookbackDays (period : string) : Z :=
  if String.eqb period "day" then 30
  else if String.eqb period "week" then 84
  else if String.eqb period "month" then 365
  else 0.

(** The transactions the historical average of a category ranges over. *)
Definition inLookback (d : sql.DB) (userID categoryID : Z) (period : string)
    (t : models.Transaction) : bool :=
  (models.tx_UserID t =? userID)
  && (models.tx_CategoryID t =? categoryID)
  && String.eqb (models.tx_Type t) "expense"
  && (sql.now d - days (lookbackDays period) <=? models.tx_Date t).


(** The reference date a request is computed for: its [date] parameter, or
    the current date when there is none. *)
Definition referenceDate (c : handlers.Context) (w : handlers.World) : string :=
  if String.eqb (handlers.formValue (handlers.query c) "date") "" then
    time.Format (handlers.clock w)
  else handlers.formValue (handlers.query c) "date".




(** A world whose package-level variables have been reassigned. *)
Definition withVars (v : models.Vars) (w : handlers.World) : handlers.World :=
  {| handlers.db := handlers.db w;
     handlers.clock := handlers.clock w;
     handlers.vars := v;
     handlers.log := handlers.log w |}.

Ltac monad :=
  unfold mbind, mret, handlers.M_bind, handlers.M_ret, handlers.dbQuery,
    handlers.dbQueryRow,
    handlers.timeNow, handlers.logPrintf.

(** *** The configuration, had it been read *)

#[local] Open Scope float_scope.

(** The prediction and the classification as they would read the
    package-level configuration: the weights, the floor factor and the
    thresholds are those of the configuration values given. *)
Definition configuredPrediction (weights : models.PredictionWeights)
    (factors : models.PredictionFactors) (c p h : float) : float :=
  let d := if p >? 0 then c - p else 0 in
  let v := c * models.Current weights + d * models.Trend weights
           + h * models.Historical weights in
  if v <? 0 then c * models.ConservativeEstimate factors else v.

Definition configuredDirection (limits : models.TrendThresholds)
    (names : models.TrendDirectionTypes) (c p : float) : string * float :=
  if p >? 0 then
    let change := (c - p) / p * 100 in
    if change >? models.UpThreshold limits then (models.Up names, change)
    else if change <? models.DownThreshold limits then (models.Down names, change)
    else (models.Stable names, change)
  else (models.New names, 0).

#[local] Close Scope float_scope.

(** *** Classes of binary64 values *)

(** Classes of binary64 values, on their specification: finite, a number
    (not NaN), and not below zero. *)
Definition SFfin (x : spec_float) : bool :=
  match x with
  | S754_zero _ | S754_finite _ _ _ => true
  | _ => false
  end.

Definition SFnum (x : spec_float) : bool :=
  match x with
  | S754_nan => false
  | _ => true
  end.

Definition SFnonneg (x : spec_float) : bool :=
  match x with
  | S754_zero _ => true
  | S754_infinity s | S754_finite s _ _ => negb s
  | S754_nan => false
  end.

Inductive SFsigned (s : bool) : spec_float -> Prop :=
  | signed_zero : SFsigned s (S754_zero s)
  | signed_finite m e : SFsigned s (S754_finite s m e)
  | signed_infinity : SFsigned s (S754_infinity s).

(** *** An example store and requests *)

(** An example store: user 7 has the expense categories food, rent and
    fun and an income category; user 8 has one expense category.  Rent has
    no transaction at all. *)
Definition exampleDB : sql.DB :=
  {| sql.categories :=
       [ {| models.cat_ID := 1; models.cat_UserID := 7;
            models.cat_Name := "food"; models.cat_Type := "expense" |};
         {| models.cat_ID := 2; models.cat_UserID := 7;
            models.cat_Name := "rent"; models.cat_Type := "expense" |};
         {| models.cat_ID := 3; models.cat_UserID := 7;
            models.cat_Name := "pay"; models.cat_Type := "income" |};
         {| models.cat_ID := 4; models.cat_UserID := 8;
            models.cat_Name := "other"; models.cat_Type := "expense" |};
         {| models.cat_ID := 5; models.cat_UserID := 7;
            models.cat_Name := "fun"; models.cat_Type := "expense" |} ];
     sql.transactions :=
       [ {| models.tx_ID := 1; models.tx_UserID := 7; models.tx_CategoryID := 1;
            models.tx_Amount := 100%float; models.tx_Type := "expense";
            models.tx_Date := time.Date 2024 1 16 10 0 0 |};
         {| models.tx_ID := 2; models.tx_UserID := 7; models.tx_CategoryID := 1;
            models.tx_Amount := 80%float; models.tx_Type := "expense";
            models.tx_Date := time.Date 2024 1 10 10 0 0 |};
         {| models.tx_ID := 3; models.tx_UserID := 7; models.tx_CategoryID := 5;
            models.tx_Amount := 500%float; models.tx_Type := "expense";
            models.tx_Date := time.Date 2024 1 17 10 0 0 |} ];
     sql.now := time.Date 2024 1 20 9 30 0;
     sql.failing := fun _ => false |}.

Definition exampleWorld : handlers.World :=
  {| handlers.db := exampleDB;
     handlers.clock := time.Date 2024 1 20 9 30 0;
     handlers.vars := models.initVars;
     handlers.log := [] |}.

(** The same store seen later by a process that has logged and has
    reassigned a package-level variable. *)
Definition exampleWorldLater : handlers.World :=
  {| handlers.db := exampleDB;
     handlers.clock := time.Date 2024 1 21 0 0 0;
     handlers.vars :=
       {| models.varTrendDirections := models.TrendDirections;
          models.varPredictionConfig :=
            {| models.Current := 1%float; models.Trend := 0%float;
               models.Historical := 0%float |};
          models.varTrendLimits := models.TrendLimits;
          models.varHistoricalDays := models.HistoricalDays;
          models.varPredictionSettings := models.PredictionSettings |};
     handlers.log := [("Error calculating spending trends: %v"%string,
                       handlers.Errorf "invalid period: %s" "year")] |}.

(** The example store with its historical-average statement failing. *)
Definition exampleDBNoHistory : sql.DB :=
  {| sql.categories := sql.categories exampleDB;
     sql.transactions := sql.transactions exampleDB;
     sql.now := sql.now exampleDB;
     sql.failing := fun q => match q with
                             | sql.HistoricalQuery _ _ _ => true
                             | _ => false
                             end |}.

(** The example store with its current-period statement failing. *)
Definition exampleDBDown : sql.DB :=
  {| sql.categories := sql.categories exampleDB;
     sql.transactions := sql.transactions exampleDB;
     sql.now := sql.now exampleDB;
     sql.failing := fun q => match q with
                             | sql.CurrentQuery _ _ _ => true
                             | _ => false
                             end |}.

(** The example store with a read of the current-period rows that
    breaks after the first row. *)
Definition exampleDBBreaking : sql.DB :=
  {| sql.categories := sql.categories exampleDB;
     sql.transactions := sql.transactions exampleDB;
     sql.now := sql.now exampleDB;
     sql.failing := fun q => match q with
                             | sql.CurrentQuery _ _ _ => sql.AfterRows 1
                             | _ => false
                             end |}.

(** A fresh process in front of a store. *)
Definition worldOf (d : sql.DB) : handlers.World :=
  {| handlers.db := d;
     handlers.clock := sql.now d;
     handlers.vars := models.initVars;
     handlers.log := [] |}.

(** The week of Monday 2024-01-15 for user 7. *)
Definition requestWeek : handlers.Context :=
  {| handlers.user_id := 7;
     handlers.query := [("period", "week"); ("date", "2024-01-15")]%string |}.



(** *** The written form of a date *)

(** The decimal digit [n] as a character. *)
Definition digitChar (n : Z) : ascii := ascii_of_nat (Z.to_nat (48 + n)).

(** [appendInt y 4] is four decimal digits that read [y], and
    [appendInt n 2] two that read [n]. *)
Definition fourDigits_ok (y : Z) : bool :=
  match time.appendInt y 4 with
  | String a (String b (String c (String d EmptyString))) =>
      time.isDigit a && time.isDigit b && time.isDigit c && time.isDigit d
      && (((time.digitVal a * 10 + time.digitVal b) * 10 + time.digitVal c) * 10
          + time.digitVal d =? y)
  | _ => false
  end.

Definition twoDigits_ok (n : Z) : bool :=
  match time.appendInt n 2 with
  | String a (String b EmptyString) =>
      time.isDigit a && time.isDigit b
      && (time.digitVal a * 10 + time.digitVal b =? n)
  | _ => false
  end.

(** *** Weeks *)

(** The start of the week of [t], which begins on Monday. *)
Definition weekStart (t : time.Time) : time.Time :=
  time.secondsPerWeek * (t / time.secondsPerWeek).

(** *** The results of the statements *)

(** [WHERE c.user_id = $1 AND c.type = 'expense'], on the category. *)
Definition expenseCategoryOf (userID : Z) (c : models.Category) : bool :=
  (models.cat_UserID c =? userID) && String.eqb (models.cat_Type c) "expense".

(** The rows a category brings into the join: one for each of its
    transactions that satisfies the [ON] condition, or a single row with a
    null right side. *)
Definition joinedRows (d : sql.DB) (userID : Z) (startDate endDate : time.Time)
    (c : models.Category) : list (models.Category * option models.Transaction) :=
  match List.filter (sql.joins userID startDate endDate c) (sql.transactions d) with
  | [] => [(c, None)]
  | ts => map (fun t => (c, Some t)) ts
  end.

(** A row of the current-period result, from its group. *)
Definition rowOf (r : Z * string * float) : sql.Row :=
  [sql.VInt (fst (fst r)); sql.VText (snd (fst r)); sql.VFloat (snd r)].

(** A row of the previous-period result, from its group. *)
Definition prevRowOf (r : Z * float) : sql.Row :=
  [sql.VInt (fst r); sql.VFloat (snd r)].

(** The groups of the current-period statement, before they are ordered. *)
Definition currentGroups (d : sql.DB) (userID : Z) (startDate endDate : time.Time)
    : list (Z * string * float) :=
  sql.groupByIdName
    (List.filter (sql.whereExpenseOf userID)
       (sql.leftJoin d userID startDate endDate)).

(** The groups of the previous-period statement. *)
Definition prevGroups (d : sql.DB) (userID : Z)
    (prevStartDate prevEndDate : time.Time) : list (Z * float) :=
  sql.groupById
    (List.filter (sql.whereExpenseOf userID)
       (sql.leftJoin d userID prevStartDate prevEndDate)).

(** What user [userID] spent in category [c] from [startDate] up to
    [endDate], excluded: the sum of the amounts of its expense transactions
    in that window, in the order of the store, or zero without any. *)
Definition spentIn (d : sql.DB) (userID : Z) (startDate endDate : time.Time)
    (c : models.Category) : float :=
  sql.COALESCE
    (sql.SUM (map models.tx_Amount
                (List.filter (sql.joins userID startDate endDate c)
                   (sql.transactions d))))
    0.

(** The map of the previous period, as the loop over [prevRows] fills it. *)
Definition prevSpendingOf (d : sql.DB) (userID : Z)
    (prevStartDate prevEndDate : time.Time) : gmap Z float :=
  fold_left handlers.storePrev
    (sql.eval d (sql.PrevQuery userID prevStartDate prevEndDate)) ∅.

(** The historical average [trendOf] uses: the fallback to the current
    spend when the average cannot be read. *)
Definition historicalOrFallback (userID categoryID : Z) (period : string)
    (currentSpend : float) (w : handlers.World) : float :=
  let r := fst (handlers.getHistoricalAverage userID categoryID period w) in
  match snd r with
  | Some _ => currentSpend
  | None => fst r
  end.

(** The user a statement is run for. *)
Definition userOf (q : sql.Stmt) : Z :=
  match q with
  | sql.CurrentQuery userID _ _ => userID
  | sql.PrevQuery userID _ _ => userID
  | sql.HistoricalQuery _ userID _ => userID
  end.

(** Two stores hold the same for a user: the same categories and the same
    transactions of that user, in the same order, at the same time, and
    they fail the same statements of that user. *)
Definition sameDataOf (userID : Z) (d1 d2 : sql.DB) : Prop :=
  List.filter (fun c => models.cat_UserID c =? userID) (sql.categories d1)
  = List.filter (fun c => models.cat_UserID c =? userID) (sql.categories d2)
  /\ List.filter (fun t => models.tx_UserID t =? userID) (sql.transactions d1)
     = List.filter (fun t => models.tx_UserID t =? userID) (sql.transactions d2)
  /\ sql.now d1 = sql.now d2
  /\ forall q, userOf q = userID -> sql.failing d1 q = sql.failing d2 q.

(** *** The reported trends *)

(** The category a trend is about. *)
Definition trendKey (t : models.SpendingTrend) : Z * string :=
  (models.CategoryID t, models.CategoryName t).

(** One step down the order of the current-period result. *)
Definition descendingStep (a b : Z * string * float) : Prop :=
  PrimFloat.ltb (snd a) (snd b) = false.

(** No larger current spend follows directly. *)
Definition notBelowNext (a b : models.SpendingTrend) : Prop :=
  PrimFloat.ltb (models.CurrentSpend a) (models.CurrentSpend b) = false.

(** What a reported direction says about the reported change. *)
Definition directionAgrees (trend : models.SpendingTrend) : Prop :=
  let change := models.ChangePercent trend in
  (models.TrendDirection trend = "up"%string
   /\ PrimFloat.ltb 10 change = true)
  \/ (models.TrendDirection trend = "down"%string
      /\ PrimFloat.ltb 10 change = false /\ PrimFloat.ltb change (-10) = true)
  \/ (models.TrendDirection trend = "stable"%string
      /\ PrimFloat.ltb 10 change = false /\ PrimFloat.ltb change (-10) = false)
  \/ (models.TrendDirection trend = "new"%string /\ change = 0%float).

(** *** More examples *)

(** The example store without what belongs to other users than user 7. *)
Definition exampleDBOfUser7 : sql.DB :=
  {| sql.categories :=
       List.filter (fun c => models.cat_UserID c =? 7) (sql.categories exampleDB);
     sql.transactions := sql.transactions exampleDB;
     sql.now := sql.now exampleDB;
     sql.failing := sql.failing exampleDB |}.

(** A validation that knows one token, for user 7. *)
Definition exampleValidateJWT (tokenString : string) : Z * option unit :=
  if String.eqb tokenString "t0k3n" then (7, None) else (0, Some tt).

(** *** The rows of a result *)


(** A [Scan] of cells that have the types of their destinations. *)
Definition exampleScan (row : sql.Row)
    : Z * string * float * option handlers.error :=
  match handlers.scanCurrent row with
  | Some r => (r, None)
  | None => ((0, EmptyString, 0%float), Some (handlers.SQLError (sql.ErrScan row)))
  end.


(** Rows of a result with an amount below zero. *)
Definition exampleRowsBelowZero : list sql.Row :=
  [ [sql.VInt 1; sql.VText "a"; sql.VFloat (-5)%float];
    [sql.VInt 2; sql.VText "b"; sql.VFloat 10%float] ].

(** * Properties *)

(** ** The calendar of package [time] *)

Lemma isLeap_cases y :
  (time.isLeap y = true /\ y mod 4 = 0 /\ (y mod 100 <> 0 \/ y mod 400 = 0)) \/
  (time.isLeap y = false /\ (y mod 4 <> 0 \/ (y mod 100 = 0 /\ y mod 400 <> 0))).
Proof.
  unfold time.isLeap.
  destruct (Z.eqb_spec (y mod 4) 0), (Z.eqb_spec (y mod 100) 0),
    (Z.eqb_spec (y mod 400) 0); simpl; lia.
Qed.

Lemma absYear_fst_snd d :
  time.daysSinceEpoch (fst (time.absYear d)) + snd (time.absYear d) = d /\
  0 <= snd (time.absYear d) < yearLen (fst (time.absYear d)).
Proof.
  unfold yearLen.
  destruct (isLeap_cases (fst (time.absYear d))) as [[-> L]|[-> L]];
    revert L; unfold time.absYear, time.daysSinceEpoch; cbv zeta; cbn [fst snd];
    unfold_consts; rewrite !Z.shiftr_div_pow2 by lia; change (2 ^ 2) with 4;
    intros L; Z.div_mod_to_equations; lia.
Qed.

Lemma absYear_spec d y yd :
  time.absYear d = (y, yd) ->
  time.daysSinceEpoch y + yd = d /\ 0 <= yd < yearLen y.
Proof.
  intros H. pose proof (absYear_fst_snd d) as P. rewrite H in P. exact P.
Qed.

Lemma daysSinceEpoch_closed y :
  time.daysSinceEpoch y = 365 * (y - 1) + (y - 1) / 4 - (y - 1) / 100 + (y - 1) / 400.
Proof.
  unfold time.daysSinceEpoch. unfold_consts. Z.div_mod_to_equations. lia.
Qed.

Lemma div_pred y n :
  0 < n -> (y - 1) / n = y / n - (if y mod n =? 0 then 1 else 0).
Proof.
  intros Hn. destruct (Z.eqb_spec (y mod n) 0) as [E|E].
  - symmetry. apply Z.div_unique with (r := n - 1); [lia|].
    pose proof (Z.div_mod y n ltac:(lia)). lia.
  - symmetry. apply Z.div_unique with (r := y mod n - 1).
    + pose proof (Z.mod_pos_bound y n Hn). lia.
    + pose proof (Z.div_mod y n ltac:(lia)). lia.
Qed.

Lemma daysSinceEpoch_succ y :
  time.daysSinceEpoch (y + 1) = time.daysSinceEpoch y + yearLen y.
Proof.
  rewrite !daysSinceEpoch_closed. unfold yearLen, time.isLeap.
  replace (y + 1 - 1) with y by lia.
  rewrite (div_pred y 4), (div_pred y 100), (div_pred y 400) by lia.
  destruct (Z.eqb_spec (y mod 4) 0), (Z.eqb_spec (y mod 100) 0),
    (Z.eqb_spec (y mod 400) 0); cbn [andb orb negb]; try lia.
  - exfalso. Z.div_mod_to_equations. lia.
  - exfalso. Z.div_mod_to_equations. lia.
  - exfalso. Z.div_mod_to_equations. lia.
Qed.

Lemma yearLen_pos y : 365 <= yearLen y.
Proof. unfold yearLen; destruct (time.isLeap y); lia. Qed.

Lemma daysSinceEpoch_lt y k :
  0 <= k -> time.daysSinceEpoch y + yearLen y <= time.daysSinceEpoch (y + 1 + k).
Proof.
  intros Hk. pattern k. apply natlike_ind; [| |exact Hk].
  - rewrite Z.add_0_r, daysSinceEpoch_succ. lia.
  - intros x Hx IH. replace (y + 1 + Z.succ x) with ((y + 1 + x) + 1) by lia.
    rewrite daysSinceEpoch_succ. pose proof (yearLen_pos (y + 1 + x)). lia.
Qed.

Lemma year_day_unique y1 d1 y2 d2 :
  0 <= d1 < yearLen y1 -> 0 <= d2 < yearLen y2 ->
  time.daysSinceEpoch y1 + d1 = time.daysSinceEpoch y2 + d2 -> y1 = y2 /\ d1 = d2.
Proof.
  intros H1 H2 E.
  destruct (Z.lt_trichotomy y1 y2) as [L|[->|L]].
  - pose proof (daysSinceEpoch_lt y1 (y2 - y1 - 1) ltac:(lia)) as M.
    replace (y1 + 1 + (y2 - y1 - 1)) with y2 in M by lia. lia.
  - lia.
  - pose proof (daysSinceEpoch_lt y2 (y1 - y2 - 1) ltac:(lia)) as M.
    replace (y2 + 1 + (y1 - y2 - 1)) with y1 in M by lia. lia.
Qed.

Lemma absYear_daysSinceEpoch y yd :
  0 <= yd < yearLen y -> time.absYear (time.daysSinceEpoch y + yd) = (y, yd).
Proof.
  intros H. destruct (time.absYear (time.daysSinceEpoch y + yd)) as [y' yd'] eqn:E.
  apply absYear_spec in E. destruct E as [E R].
  destruct (year_day_unique y' yd' y yd R H E) as [-> ->]. reflexivity.
Qed.

Lemma forall_below_spec n P :
  forall_below n P = true -> forall z, 0 <= z < Z.of_nat n -> P z = true.
Proof.
  induction n as [|k IH]; intros H z Hz; [lia|].
  cbn [forall_below] in H. apply andb_true_iff in H. destruct H as [H1 H2].
  destruct (Z.eq_dec z (Z.of_nat k)) as [->|Hne]; [exact H1|].
  apply IH; [exact H2|lia].
Qed.

Lemma daysIn_monthLen m y : time.daysIn m y = monthLen (time.isLeap y) m.
Proof. reflexivity. Qed.

Lemma absMonthDay_spec leap yd m d :
  0 <= yd < yearDays leap ->
  time.absMonthDay leap yd = (m, d) ->
  1 <= m <= 12 /\ 1 <= d <= monthLen leap m /\
  time.daysBefore (m - 1) + leapAdj leap m + (d - 1) = yd.
Proof.
  intros R E.
  assert (H : absMonthDay_ok leap yd = true).
  { destruct leap.
    - apply (forall_below_spec 366); [vm_compute; reflexivity|exact R].
    - apply (forall_below_spec 365); [vm_compute; reflexivity|exact R]. }
  unfold absMonthDay_ok in H. rewrite E in H.
  rewrite !andb_true_iff in H. destruct H as [[[[H1 H2] H3] H4] H5].
  apply Z.leb_le in H1, H2, H3, H4. apply Z.eqb_eq in H5. lia.
Qed.

Lemma absMonthDay_inv leap m d :
  1 <= m <= 12 -> 1 <= d <= monthLen leap m ->
  time.absMonthDay leap (time.daysBefore (m - 1) + leapAdj leap m + (d - 1)) = (m, d) /\
  0 <= time.daysBefore (m - 1) + leapAdj leap m + (d - 1) < yearDays leap.
Proof.
  intros Hm Hd.
  assert (Hd31 : 0 <= d < 32).
  { assert (Hb : (monthLen leap m <=? 31) = true).
    { apply (forall_below_spec 13 (fun m => monthLen leap m <=? 31));
        [destruct leap; vm_compute; reflexivity|lia]. }
    apply Z.leb_le in Hb. lia. }
  assert (H : monthDay_inv_ok leap m d = true).
  { apply (forall_below_spec 32 (fun d => monthDay_inv_ok leap m d)); [|exact Hd31].
    apply (forall_below_spec 13
             (fun m => forall_below 32 (fun d => monthDay_inv_ok leap m d)));
      [destruct leap; vm_compute; reflexivity|lia]. }
  unfold monthDay_inv_ok in H.
  replace ((1 <=? m) && (m <=? 12) && (1 <=? d) && (d <=? monthLen leap m))
    with true in H
    by (symmetry; rewrite !andb_true_iff, !Z.leb_le; lia).
  destruct (time.absMonthDay leap _) as [m' d'].
  rewrite !andb_true_iff in H. destruct H as [[H1 H2] H3].
  apply Z.eqb_eq in H1, H2. apply Z.ltb_lt in H3. subst.
  split; [reflexivity|].
  split; [|exact H3].
  assert (Hb : (0 <=? time.daysBefore (m - 1)) = true).
  { apply (forall_below_spec 13 (fun m => 0 <=? time.daysBefore (m - 1)));
      [vm_compute; reflexivity|lia]. }
  apply Z.leb_le in Hb. unfold leapAdj. destruct (leap && _); lia.
Qed.

Lemma norm_spec hi lo : time.norm hi lo 12 = (hi + lo / 12, lo mod 12).
Proof.
  unfold time.norm.
  destruct (Z.ltb_spec lo 0) as [L|L].
  - destruct (Z.leb_spec 12 (lo + ((- lo - 1) / 12 + 1) * 12)) as [G|G];
      f_equal; Z.div_mod_to_equations; lia.
  - destruct (Z.leb_spec 12 lo) as [G|G]; f_equal; Z.div_mod_to_equations; lia.
Qed.

Lemma Date_in_range y m d h mi s :
  1 <= m <= 12 ->
  time.Date y m d h mi s
  = dayNumber y m d * time.secondsPerDay + clockSeconds h mi s.
Proof.
  intros Hm. unfold time.Date, dayNumber, clockSeconds. rewrite norm_spec.
  replace ((m - 1) / 12) with 0 by (Z.div_mod_to_equations; lia).
  replace ((m - 1) mod 12) with (m - 1) by (Z.div_mod_to_equations; lia).
  cbv zeta. replace (y + 0) with y by lia. replace (m - 1 + 1) with m by lia.
  unfold leapAdj. destruct (time.isLeap y && (time.March <=? m)); lia.
Qed.

Lemma Date_month_wrap y m d h mi s k :
  time.Date y (m + 12 * k) d h mi s = time.Date (y + k) m d h mi s.
Proof.
  unfold time.Date. rewrite !norm_spec.
  replace ((m + 12 * k - 1) / 12) with ((m - 1) / 12 + k)
    by (Z.div_mod_to_equations; lia).
  replace ((m + 12 * k - 1) mod 12) with ((m - 1) mod 12)
    by (Z.div_mod_to_equations; lia).
  replace (y + k + (m - 1) / 12) with (y + ((m - 1) / 12 + k)) by lia.
  reflexivity.
Qed.

Lemma Date_day_shift y m d h mi s k :
  time.Date y m (d + k) h mi s = time.Date y m d h mi s + k * time.secondsPerDay.
Proof.
  unfold time.Date. destruct (time.norm y (m - 1) 12) as [y' m']. cbv zeta.
  destruct (time.isLeap y' && _); lia.
Qed.

Lemma Date_clock y m d h mi s :
  time.Date y m d h mi s = time.Date y m d 0 0 0 + clockSeconds h mi s.
Proof.
  unfold time.Date, clockSeconds. destruct (time.norm y (m - 1) 12) as [y' m']. cbv zeta.
  destruct (time.isLeap y' && _); lia.
Qed.

Lemma Date_midnight y m d :
  time.Date y m d 0 0 0 mod time.secondsPerDay = 0.
Proof.
  unfold time.Date. destruct (time.norm y (m - 1) 12) as [y' m']. cbv zeta.
  rewrite Z.add_0_r. apply Z.mod_mul. unfold time.secondsPerDay. lia.
Qed.

Lemma absDate_spec t y m d :
  time.absDate t = (y, m, d) ->
  1 <= m <= 12 /\ 1 <= d <= time.daysIn m y /\
  time.Date y m d 0 0 0 = time.secondsPerDay * (t / time.secondsPerDay).
Proof.
  unfold time.absDate.
  destruct (time.absYear (t / time.secondsPerDay)) as [y' yd] eqn:EY.
  destruct (time.absMonthDay (time.isLeap y') yd) as [m' d'] eqn:EM.
  intros [= <- <- <-].
  apply absYear_spec in EY. destruct EY as [EY RY]. unfold yearLen in RY.
  apply absMonthDay_spec in EM; [|exact RY]. destruct EM as (Hm & Hd & EM).
  rewrite daysIn_monthLen. repeat split; try lia.
  rewrite Date_in_range by exact Hm. unfold dayNumber, clockSeconds. lia.
Qed.

Lemma absDate_Date y m d h mi s :
  1 <= m <= 12 -> 1 <= d <= time.daysIn m y ->
  0 <= clockSeconds h mi s < time.secondsPerDay ->
  time.absDate (time.Date y m d h mi s) = (y, m, d).
Proof.
  intros Hm Hd Hc. rewrite daysIn_monthLen in Hd.
  destruct (absMonthDay_inv (time.isLeap y) m d Hm Hd) as [EM RM].
  unfold time.absDate. rewrite Date_in_range by exact Hm.
  replace ((dayNumber y m d * time.secondsPerDay + clockSeconds h mi s)
           / time.secondsPerDay)
    with (time.daysSinceEpoch y
          + (time.daysBefore (m - 1) + leapAdj (time.isLeap y) m + (d - 1))).
  2:{ revert Hc. generalize (clockSeconds h mi s). intros c Hc.
      unfold dayNumber. unfold_consts. Z.div_mod_to_equations. lia. }
  rewrite absYear_daysSinceEpoch by exact RM.
  rewrite EM. reflexivity.
Qed.

Lemma month_facts leap m :
  1 <= m <= 12 ->
  28 <= monthLen leap m <= 31 /\ 0 <= time.daysBefore (m - 1) /\
  (m <= 11 ->
   time.daysBefore m + leapAdj leap (m + 1)
   = time.daysBefore (m - 1) + leapAdj leap m + monthLen leap m) /\
  (m = 12 ->
   time.daysBefore (m - 1) + leapAdj leap m + monthLen leap m = yearDays leap).
Proof.
  intros Hm.
  assert (H : month_ok leap m = true).
  { apply (forall_below_spec 13); [destruct leap; vm_compute; reflexivity|lia]. }
  unfold month_ok in H.
  destruct (Z.leb_spec 1 m) as [_|?]; [|lia].
  destruct (Z.leb_spec m 12) as [_|?]; [|lia].
  cbn [andb] in H. rewrite !andb_true_iff, !Z.leb_le in H.
  destruct H as [[[H1 H2] H3] H4].
  destruct (Z.leb_spec m 11) as [L|L]; apply Z.eqb_eq in H4; repeat split; lia.
Qed.

Lemma Clock_sum t :
  let '(h, mi, s) := time.Clock t in
  clockSeconds h mi s = t mod time.secondsPerDay.
Proof. unfold time.Clock, clockSeconds. cbv zeta. lia. Qed.

Lemma Date_of_absDate t :
  time.Date (time.Year t) (time.Month t) (time.Day t) 0 0 0 = midnight t.
Proof.
  unfold time.Year, time.Month, time.Day, midnight.
  destruct (time.absDate t) as [[y m] d] eqn:E. cbn [fst snd].
  apply absDate_spec in E. tauto.
Qed.

Lemma AddDate_days t k : time.AddDate t 0 0 k = t + days k.
Proof.
  unfold time.AddDate, days.
  destruct (time.absDate t) as [[y m] d] eqn:E.
  pose proof (Clock_sum t) as C. destruct (time.Clock t) as [[h mi] s].
  apply absDate_spec in E. destruct E as (_ & _ & E).
  rewrite !Z.add_0_r, Date_day_shift, Date_clock, E, C.
  pose proof (Z.div_mod t time.secondsPerDay ltac:(unfold_consts; lia)). lia.
Qed.

Lemma midnight_spec t :
  midnight t <= t < midnight t + days 1 /\ midnight t mod time.secondsPerDay = 0.
Proof.
  unfold midnight, days. unfold_consts. Z.div_mod_to_equations. lia.
Qed.

Lemma Weekday_day t :
  time.Weekday t = (t / time.secondsPerDay + 1) mod 7.
Proof.
  unfold time.Weekday. unfold_consts. Z.div_mod_to_equations. lia.
Qed.

Lemma Clock_midnight t :
  t mod time.secondsPerDay = 0 -> time.Clock t = (0, 0, 0).
Proof. intros H. unfold time.Clock. rewrite H. reflexivity. Qed.

Lemma absDate_monthStart y m :
  1 <= m <= 12 -> time.absDate (monthStart y m) = (y, m, 1).
Proof.
  intros Hm.
  apply absDate_Date; [exact Hm| |unfold clockSeconds; unfold_consts; lia].
  rewrite daysIn_monthLen. pose proof (month_facts (time.isLeap y) m Hm). lia.
Qed.

Lemma AddDate_months y m k :
  1 <= m <= 12 -> time.AddDate (monthStart y m) 0 k 0 = monthStart y (m + k).
Proof.
  intros Hm. unfold time.AddDate. rewrite absDate_monthStart by exact Hm.
  rewrite Clock_midnight by apply Date_midnight.
  rewrite !Z.add_0_r. reflexivity.
Qed.

Lemma monthStart_succMonth y m :
  1 <= m <= 12 ->
  monthStart (fst (succMonth y m)) (snd (succMonth y m)) = monthStart y (m + 1)
  /\ 1 <= snd (succMonth y m) <= 12.
Proof.
  intros Hm. unfold succMonth, time.December, time.January.
  destruct (Z.eqb_spec m 12) as [->|Hne]; cbn [fst snd].
  - split; [|lia]. unfold monthStart.
    rewrite <- (Date_month_wrap y 1 1 0 0 0 1). reflexivity.
  - split; [reflexivity|lia].
Qed.

Lemma monthStart_predMonth y m :
  1 <= m <= 12 ->
  monthStart (fst (predMonth y m)) (snd (predMonth y m)) = monthStart y (m - 1)
  /\ 1 <= snd (predMonth y m) <= 12
  /\ succMonth (fst (predMonth y m)) (snd (predMonth y m)) = (y, m).
Proof.
  intros Hm. unfold predMonth, succMonth, time.December, time.January.
  destruct (Z.eqb_spec m 1) as [->|Hne]; cbn [fst snd].
  - split; [|split; [lia|]].
    + unfold monthStart.
      transitivity (time.Date (y - 1 + 1) 0 1 0 0 0);
        [exact (Date_month_wrap (y - 1) 0 1 0 0 0 1)|].
      replace (y - 1 + 1) with y by lia. reflexivity.
    + rewrite Z.eqb_refl. f_equal. lia.
  - split; [reflexivity|split; [lia|]].
    destruct (Z.eqb_spec (m - 1) 12); [lia|]. f_equal. lia.
Qed.

(** A calendar month lasts as many days as the calendar gives it. *)
Lemma monthStart_next y m :
  1 <= m <= 12 ->
  monthStart (fst (succMonth y m)) (snd (succMonth y m))
  = monthStart y m + days (time.daysIn m y).
Proof.
  intros Hm. rewrite daysIn_monthLen.
  destruct (month_facts (time.isLeap y) m Hm) as (_ & _ & F11 & F12).
  unfold succMonth, time.December, time.January, monthStart, days.
  destruct (Z.eqb_spec m 12) as [->|Hne]; cbn [fst snd].
  - rewrite !Date_in_range by lia. unfold dayNumber.
    rewrite daysSinceEpoch_succ.
    specialize (F12 eq_refl). unfold yearLen. fold (yearDays (time.isLeap y)).
    change (time.daysBefore (1 - 1)) with 0.
    replace (leapAdj (time.isLeap (y + 1)) 1) with 0
      by (unfold leapAdj; rewrite andb_false_r; reflexivity).
    lia.
  - rewrite !Date_in_range by lia. unfold dayNumber.
    replace (m + 1 - 1) with m by lia. specialize (F11 ltac:(lia)). lia.
Qed.

(** A parsed reference date is the midnight that starts its day. *)
Lemma Parse_midnight value date :
  time.Parse value = (date, None) -> midnight date = date.
Proof.
  unfold time.Parse. intros H.
  repeat match type of H with
         | context [match ?x with _ => _ end] => destruct x; try discriminate H
         end.
  injection H as <-.
  match goal with
  | |- midnight (time.Date ?y ?m ?d 0 0 0) = _ =>
      pose proof (Date_midnight y m d) as M; revert M;
      generalize (time.Date y m d 0 0 0)
  end.
  intros t M.
  unfold midnight. pose proof (Z.div_mod t time.secondsPerDay ltac:(unfold_consts; lia)).
  lia.
Qed.

(** Known dates: the Unix epoch is a Thursday, 62135596800 seconds after
    the epoch of [time.Time]; 2024-01-15 is a Monday and 2024-01-21 a
    Sunday; February has 29 days in 2024 and in 2000, 28 in 2023 and in
    1900. *)
Example calendar_known_dates :
  time.Date 1970 1 1 0 0 0 = 62135596800
  /\ time.Weekday (time.Date 1970 1 1 0 0 0) = 4
  /\ time.Weekday (time.Date 2024 1 15 0 0 0) = time.Monday
  /\ time.Weekday (time.Date 2024 1 21 0 0 0) = time.Sunday
  /\ time.absDate (time.AddDate (time.Date 2024 3 31 0 0 0) 0 (-1) 0) = (2024, 3, 2)
  /\ time.absDate (time.AddDate (time.Date 2024 12 31 23 59 59) 0 0 1) = (2025, 1, 1)
  /\ (time.daysIn 2 2024, time.daysIn 2 2000, time.daysIn 2 2023, time.daysIn 2 1900)
     = (29, 29, 28, 28)
  /\ time.Format (time.Date 2024 1 5 17 0 0) = "2024-01-05"%string
  /\ time.Parse "2024-02-29" = (time.Date 2024 2 29 0 0 0, None)
  /\ snd (time.Parse "2023-02-29") = Some (time.OutOfRange "day")
  /\ snd (time.Parse "2024-13-01") = Some (time.OutOfRange "month")
  /\ snd (time.Parse "2024-1-15") = Some (time.BadValue "2024-1-15")
  /\ snd (time.Parse "2024-01-15T00:00") = Some (time.ExtraText "T00:00").
Proof. repeat split; vm_compute; reflexivity. Qed.

(** ** The date ranges of the three periods *)

Lemma dateRanges_day date :
  handlers.dateRanges "day" date
  = Some (midnight date, midnight date + days 1, midnight date - days 1,
          midnight date).
Proof.
  transitivity
    (let startDate :=
       time.Date (time.Year date) (time.Month date) (time.Day date) 0 0 0 in
     Some (startDate, time.AddDate startDate 0 0 1,
           time.AddDate startDate 0 0 (-1), startDate));
    [reflexivity|].
  cbv zeta. rewrite Date_of_absDate, !AddDate_days.
  replace (midnight date + days (-1)) with (midnight date - days 1)
    by (unfold days; lia).
  reflexivity.
Qed.

Lemma isoWeekday_range date : 1 <= isoWeekday date <= 7.
Proof.
  unfold isoWeekday, time.Sunday. rewrite Weekday_day.
  destruct (Z.eqb_spec ((date / time.secondsPerDay + 1) mod 7) 0) as [E|E];
    [lia|]. Z.div_mod_to_equations. lia.
Qed.

Lemma dateRanges_week date :
  let s := midnight date - days (isoWeekday date - 1) in
  handlers.dateRanges "week" date = Some (s, s + days 7, s - days 7, s).
Proof.
  transitivity
    (let weekday := isoWeekday date in
     let startDate := time.AddDate date 0 0 (- (weekday - 1)) in
     let startDate :=
       time.Date (time.Year startDate) (time.Month startDate)
         (time.Day startDate) 0 0 0 in
     Some (startDate, time.AddDate startDate 0 0 7,
           time.AddDate startDate 0 0 (-7), startDate));
    [reflexivity|].
  cbv zeta. rewrite !Date_of_absDate, !AddDate_days.
  assert (E : midnight (date + days (- (isoWeekday date - 1)))
              = midnight date - days (isoWeekday date - 1)).
  { generalize (isoWeekday date - 1). intros k.
    unfold midnight, days. unfold_consts. Z.div_mod_to_equations. lia. }
  rewrite E.
  replace (midnight date - days (isoWeekday date - 1) + days (-7))
    with (midnight date - days (isoWeekday date - 1) - days 7)
    by (unfold days; lia).
  reflexivity.
Qed.

Lemma dateRanges_month date :
  handlers.dateRanges "month" date
  = Some (monthStart (time.Year date) (time.Month date),
          monthStart (time.Year date) (time.Month date + 1),
          monthStart (time.Year date) (time.Month date - 1),
          monthStart (time.Year date) (time.Month date)).
Proof.
  assert (Hm : 1 <= time.Month date <= 12).
  { unfold time.Month. destruct (time.absDate date) as [[y m] d] eqn:E.
    apply absDate_spec in E. cbn [fst snd]. tauto. }
  transitivity
    (let startDate := monthStart (time.Year date) (time.Month date) in
     Some (startDate, time.AddDate startDate 0 1 0,
           time.AddDate startDate 0 (-1) 0, startDate));
    [reflexivity|].
  cbv zeta. rewrite !AddDate_months by exact Hm. reflexivity.
Qed.

Lemma monthStart_le_date date :
  monthStart (time.Year date) (time.Month date) <= date
  < monthStart (time.Year date) (time.Month date)
    + days (time.daysIn (time.Month date) (time.Year date)).
Proof.
  unfold time.Year, time.Month, monthStart.
  destruct (time.absDate date) as [[y m] d] eqn:E. cbn [fst snd].
  apply absDate_spec in E. destruct E as (Hm & Hd & E).
  pose proof (midnight_spec date) as [M _]. unfold midnight in M.
  rewrite <- E in M.
  replace d with (1 + (d - 1)) in M by lia. rewrite Date_day_shift in M.
  unfold days in *. unfold_consts. lia.
Qed.

(** C3. For each of the periods day, week and month and every reference
    date, the previous range ends where the current one starts and the two
    ranges have the same calendar length: one day each, seven days each, or
    one calendar month each, the month of the reference date (from its
    first day to the first day of the next month, as many days as that
    month has) and the month before it.  For the reference date 2024-01-15
    the current range is [2024-01-01, 2024-02-01) and the previous one
    [2023-12-01, 2024-01-01).  A reference date that was parsed is the
    midnight of its day, so its day range starts at the date itself. *)
Theorem date_ranges_adjacent_and_equal_length (date : time.Time) :
  (let s := midnight date in
   handlers.dateRanges "day" date = Some (s, s + days 1, s - days 1, s))
  /\
  (let s := midnight date - days (isoWeekday date - 1) in
   handlers.dateRanges "week" date = Some (s, s + days 7, s - days 7, s))
  /\
  (let y := time.Year date in
   let m := time.Month date in
   let next := succMonth y m in
   let prev := predMonth y m in
   1 <= m <= 12 /\ 1 <= snd next <= 12 /\ 1 <= snd prev <= 12 /\
   handlers.dateRanges "month" date
   = Some (monthStart y m, monthStart (fst next) (snd next),
           monthStart (fst prev) (snd prev), monthStart y m) /\
   monthStart (fst next) (snd next) = monthStart y m + days (time.daysIn m y) /\
   monthStart y m
   = monthStart (fst prev) (snd prev) + days (time.daysIn (snd prev) (fst prev)) /\
   monthStart y m <= date < monthStart (fst next) (snd next))
  /\
  (forall value, time.Parse value = (date, None) -> midnight date = date)
  /\
  (time.Parse "2024-01-15" = (time.Date 2024 1 15 0 0 0, None) /\
   handlers.dateRanges "month" (time.Date 2024 1 15 0 0 0)
   = Some (time.Date 2024 1 1 0 0 0, time.Date 2024 2 1 0 0 0,
           time.Date 2023 12 1 0 0 0, time.Date 2024 1 1 0 0 0)).
Proof.
  split; [exact (dateRanges_day date)|].
  split; [exact (dateRanges_week date)|].
  split; [|split; [intros value; apply Parse_midnight
                  |split; vm_compute; reflexivity]].
  cbv zeta.
  assert (Hm : 1 <= time.Month date <= 12).
  { unfold time.Month. destruct (time.absDate date) as [[y m] d] eqn:E.
    apply absDate_spec in E. cbn [fst snd]. tauto. }
  destruct (monthStart_succMonth (time.Year date) _ Hm) as [Sn Rn].
  destruct (monthStart_predMonth (time.Year date) _ Hm) as (Sp & Rp & Ep).
  pose proof (monthStart_next (time.Year date) _ Hm) as Ln.
  pose proof (monthStart_next (fst (predMonth (time.Year date) (time.Month date)))
                _ Rp) as Lp.
  rewrite Ep in Lp. cbn [fst snd] in Lp.
  pose proof (monthStart_le_date date) as Hd.
  repeat split; try lia.
  rewrite dateRanges_month, Sn, Sp. reflexivity.
Qed.

(** C4. For the period week and every reference date, the current range
    starts at midnight on the Monday of the week that contains the
    reference date and ends seven days later.  A Sunday counts as day 7 of
    its week, so a Sunday reference date gives the Monday six days before
    it. *)
Theorem week_range_starts_on_monday (date : time.Time) :
  let s := midnight date - days (isoWeekday date - 1) in
  handlers.dateRanges "week" date = Some (s, s + days 7, s - days 7, s)
  /\ time.Weekday s = time.Monday
  /\ s mod time.secondsPerDay = 0
  /\ s <= date < s + days 7
  /\ (time.Weekday date = time.Sunday -> s = midnight date - days 6).
Proof.
  cbv zeta. split; [exact (dateRanges_week date)|].
  pose proof (isoWeekday_range date) as R.
  assert (W : isoWeekday date mod 7 = (date / time.secondsPerDay + 1) mod 7).
  { unfold isoWeekday, time.Sunday. rewrite Weekday_day.
    destruct (Z.eqb_spec ((date / time.secondsPerDay + 1) mod 7) 0) as [E|E].
    - rewrite E. reflexivity.
    - apply Z.mod_mod. lia. }
  split; [|split; [|split]].
  - rewrite Weekday_day. unfold time.Monday.
    revert R W. generalize (isoWeekday date). intros k R W.
    unfold midnight, days. unfold_consts. Z.div_mod_to_equations. lia.
  - revert R. generalize (isoWeekday date). intros k R.
    unfold midnight, days. unfold_consts. Z.div_mod_to_equations. lia.
  - revert R. generalize (isoWeekday date). intros k R.
    unfold midnight, days. unfold_consts. Z.div_mod_to_equations. lia.
  - intros Hs. unfold isoWeekday. rewrite Hs. reflexivity.
Qed.

(** ** Prediction and trend direction *)

#[local] Open Scope float_scope.

Lemma Prim2SF_zero : Prim2SF 0 = S754_zero false.
Proof. reflexivity. Qed.

(** A float equal to zero is not above zero. *)
Lemma eqb_zero_not_gt (p : float) : (p =? 0) = true -> (p >? 0) = false.
Proof.
  rewrite FloatAxioms.eqb_spec, FloatAxioms.ltb_spec, Prim2SF_zero. unfold SFeqb, SFltb.
  destruct (Prim2SF p) as [[|]|[|]| |[|] m e]; cbn; congruence.
Qed.

(** C1. For every current spend c, previous spend p and historical average
    h, the predicted spend is c*0.4 + d*0.4 + h*0.2, where d = c - p if
    p > 0 and d = 0 otherwise, unless that value is negative, in which case
    it is c*0.8.  For c=100, p=80, h=90 it is 66; for c=10, p=1000, h=0 it
    is 8. *)
Theorem prediction_is_weighted_sum_with_floor (c p h : float) (period : string) :
  (let d := if p >? 0 then c - p else 0 in
   let v := c * 0.4 + d * 0.4 + h * 0.2 in
   handlers.calculatePrediction c p h period = if v <? 0 then c * 0.8 else v)
  /\ handlers.calculatePrediction 100 80 90 period = 66
  /\ handlers.calculatePrediction 10 1000 0 period = 8.
Proof.
  split; [|split].
  - unfold handlers.calculatePrediction. cbv zeta. reflexivity.
  - reflexivity.
  - reflexivity.
Qed.

Lemma trendOf_direction userID period (prevSpending : gmap Z float)
    categoryID categoryName currentSpend w :
  let trend :=
    fst (handlers.trendOf userID period prevSpending categoryID categoryName
           currentSpend w) in
  let prevAmount := default 0 (prevSpending !! categoryID) in
  (models.TrendDirection trend, models.ChangePercent trend)
  = handlers.trendDirection currentSpend prevAmount.
Proof.
  cbv zeta. unfold handlers.trendOf, handlers.getHistoricalAverage.
  unfold mbind, mret, handlers.M_bind, handlers.M_ret, handlers.dbQueryRow.
  destruct (handlers.scanAvg _) as [avg err].
  destruct (handlers.trendDirection _ _) as [direction change].
  reflexivity.
Qed.

(** C2. For every current spend c and previous spend p: if p > 0, the
    change is (c - p)/p*100 and the direction is "up" when the change is
    above 10, "down" when it is below -10 and "stable" otherwise; if p = 0,
    the direction is "new" and the change is 0, whatever c is.  For c=100
    and p=80 the change is 25 and the direction "up".  These are the
    direction and change of the trend the handler builds for a category
    whose previous spend is p. *)
Theorem trend_direction_classification (c p : float) :
  ((p >? 0) = true ->
   let change := (c - p) / p * 100 in
   handlers.trendDirection c p
   = (if change >? 10 then "up"%string
      else if change <? -10 then "down"%string
      else "stable"%string, change))
  /\ ((p =? 0) = true -> handlers.trendDirection c p = ("new"%string, 0))
  /\ handlers.trendDirection 100 80 = ("up"%string, 25)
  /\ (forall userID period (prevSpending : gmap Z float) categoryID categoryName w,
        default 0 (prevSpending !! categoryID) = p ->
        let trend :=
          fst (handlers.trendOf userID period prevSpending categoryID
                 categoryName c w) in
        (models.TrendDirection trend, models.ChangePercent trend)
        = handlers.trendDirection c p).
Proof.
  split; [|split; [|split]].
  - intros Hp. cbv zeta. unfold handlers.trendDirection. rewrite Hp.
    destruct ((c - p) / p * 100 >? 10); [reflexivity|].
    destruct ((c - p) / p * 100 <? -10); reflexivity.
  - intros Hp. unfold handlers.trendDirection.
    rewrite (eqb_zero_not_gt p Hp). reflexivity.
  - reflexivity.
  - intros userID period prevSpending categoryID categoryName w <-.
    apply trendOf_direction.
Qed.

(** ** The aggregation statements *)

#[local] Close Scope float_scope.

Lemma sameKey_eq k1 k2 : sql.sameKey k1 k2 = true <-> k1 = k2.
Proof.
  unfold sql.sameKey. destruct k1 as [i1 n1], k2 as [i2 n2]. cbn [fst snd].
  rewrite andb_true_iff, Z.eqb_eq, String.eqb_eq. split.
  - intros [-> ->]. reflexivity.
  - intros [= -> ->]. split; reflexivity.
Qed.

Section Distinct.
Context {K : Type} (eqb : K -> K -> bool).
Hypothesis eqb_eq : forall a b, eqb a b = true <-> a = b.

Lemma In_distinct k ks : In k (sql.distinct eqb ks) <-> In k ks.
Proof.
  induction ks as [|a rest IH]; [reflexivity|].
  cbn [sql.distinct In]. rewrite List.filter_In, IH. split.
  - intros [->|[H _]]; [left; reflexivity|right; exact H].
  - intros [->|H]; [left; reflexivity|].
    destruct (eqb a k) eqn:E.
    + left. apply eqb_eq. exact E.
    + right. split; [exact H|reflexivity].
Qed.
End Distinct.

Lemma In_insertDesc x y l : In y (sql.insertDesc x l) <-> y = x \/ In y l.
Proof.
  induction l as [|a rest IH]; cbn [sql.insertDesc In].
  - intuition congruence.
  - destruct (PrimFloat.ltb (snd a) (snd x)); cbn [In]; rewrite ?IH;
      intuition congruence.
Qed.

Lemma In_orderByAmountDesc y l : In y (sql.orderByAmountDesc l) <-> In y l.
Proof.
  unfold sql.orderByAmountDesc.
  assert (G : forall acc, In y (fold_left (fun sorted x => sql.insertDesc x sorted) l acc)
                          <-> In y l \/ In y acc).
  { induction l as [|a rest IH]; intros acc; cbn [fold_left In].
    - tauto.
    - rewrite IH, In_insertDesc. intuition congruence. }
  rewrite G. cbn [In]. tauto.
Qed.

(** What the left join holds: every category, with each of its matching
    transactions or, when it has none, with a null right side. *)
Lemma In_leftJoin d userID startDate endDate c ot :
  In (c, ot) (sql.leftJoin d userID startDate endDate) <->
  In c (sql.categories d) /\
  match ot with
  | Some t => In t (sql.transactions d)
              /\ sql.joins userID startDate endDate c t = true
  | None => forall t, In t (sql.transactions d) ->
                      sql.joins userID startDate endDate c t = false
  end.
Proof.
  unfold sql.leftJoin. rewrite List.in_flat_map. split.
  - intros (c' & Hc & Hin).
    destruct (List.filter _ (sql.transactions d)) as [|t0 ts] eqn:F.
    + destruct Hin as [[= -> <-]|[]]. split; [exact Hc|].
      intros t Ht. destruct (sql.joins userID startDate endDate c t) eqn:J;
        [|reflexivity].
      assert (In t []) as []. rewrite <- F. apply List.filter_In. auto.
    + apply List.in_map_iff in Hin. destruct Hin as (t & [= -> <-] & Ht).
      split; [exact Hc|]. rewrite <- F in Ht. apply List.filter_In in Ht. exact Ht.
  - intros [Hc H]. exists c. split; [exact Hc|].
    destruct (List.filter _ (sql.transactions d)) as [|t0 ts] eqn:F.
    + destruct ot as [t|]; [|left; reflexivity].
      assert (In t []) as []. rewrite <- F. apply List.filter_In. exact H.
    + destruct ot as [t|].
      * apply List.in_map_iff. exists t. split; [reflexivity|].
        rewrite <- F. apply List.filter_In. exact H.
      * assert (J : sql.joins userID startDate endDate c t0 = true).
        { assert (I : In t0 (t0 :: ts)) by (left; reflexivity).
          rewrite <- F in I. apply List.filter_In in I. tauto. }
        rewrite H in J; [discriminate|].
        assert (I : In t0 (t0 :: ts)) by (left; reflexivity).
        rewrite <- F in I. apply List.filter_In in I. tauto.
Qed.

Lemma joins_same_id userID startDate endDate c c' t :
  models.cat_ID c' = models.cat_ID c ->
  sql.joins userID startDate endDate c' t = sql.joins userID startDate endDate c t.
Proof. intros E. unfold sql.joins. rewrite E. reflexivity. Qed.

Lemma amounts_nil rs : (forall r, In r rs -> snd r = None) -> sql.amounts rs = [].
Proof.
  induction rs as [|r rest IH]; intros H; [reflexivity|].
  unfold sql.amounts. cbn [flat_map].
  rewrite (H r (or_introl eq_refl)). cbn [app].
  apply IH. intros r' Hr'. apply H. right. exact Hr'.
Qed.

(** Every expense category of the user has a row in the current-period
    result, and that row carries 0 when no transaction joins it. *)
Lemma currentQuery_outer_join d userID startDate endDate c :
  In c (sql.categories d) ->
  models.cat_UserID c = userID ->
  models.cat_Type c = "expense"%string ->
  exists amount,
    In [sql.VInt (models.cat_ID c); sql.VText (models.cat_Name c); sql.VFloat amount]
       (sql.eval d (sql.CurrentQuery userID startDate endDate))
    /\ ((forall t, In t (sql.transactions d) ->
                   sql.joins userID startDate endDate c t = false) ->
        amount = 0%float).
Proof.
  intros Hc Hu Ht.
  set (rs := List.filter (sql.whereExpenseOf userID)
               (sql.leftJoin d userID startDate endDate)).
  set (k := (models.cat_ID c, models.cat_Name c)).
  set (grp := List.filter
                (fun r => sql.sameKey k (models.cat_ID (fst r), models.cat_Name (fst r)))
                rs).
  exists (sql.COALESCE (sql.SUM (sql.amounts grp)) 0%float). split.
  - cbn [sql.eval]. apply List.in_map_iff.
    exists (k, sql.COALESCE (sql.SUM (sql.amounts grp)) 0%float).
    split; [reflexivity|].
    apply In_orderByAmountDesc. unfold sql.groupByIdName.
    apply List.in_map_iff. exists k. split; [reflexivity|].
    apply (In_distinct _ sameKey_eq).
    assert (Hex : exists ot, In (c, ot) (sql.leftJoin d userID startDate endDate)).
    { destruct (List.filter (sql.joins userID startDate endDate c) (sql.transactions d))
        as [|t0 ts] eqn:F.
      - exists None. apply In_leftJoin. split; [exact Hc|].
        intros t Hin. destruct (sql.joins userID startDate endDate c t) eqn:J;
          [|reflexivity].
        assert (In t []) as []. rewrite <- F. apply List.filter_In. auto.
      - exists (Some t0). apply In_leftJoin. split; [exact Hc|].
        assert (I : In t0 (t0 :: ts)) by (left; reflexivity).
        rewrite <- F in I. apply List.filter_In in I. exact I. }
    destruct Hex as [ot Hin].
    apply List.in_map_iff. exists (c, ot). split; [reflexivity|].
    apply List.filter_In. split; [exact Hin|].
    unfold sql.whereExpenseOf. cbn [fst]. rewrite Hu, Ht, Z.eqb_refl. reflexivity.
  - intros Hnone. rewrite amounts_nil; [reflexivity|].
    intros [c' ot] Hin. cbn [snd]. unfold grp, rs in Hin.
    apply List.filter_In in Hin. destruct Hin as [Hin Hk].
    apply List.filter_In in Hin. destruct Hin as [Hin _].
    apply sameKey_eq in Hk. cbn [fst] in Hk. injection Hk as Hid _.
    apply In_leftJoin in Hin. destruct Hin as [_ Hot].
    destruct ot as [t|]; [|reflexivity].
    destruct Hot as [Hin J].
    rewrite (joins_same_id _ _ _ c c' t (eq_sym Hid)) in J.
    rewrite (Hnone t Hin) in J. discriminate.
Qed.

(** ** The handler reads the store and writes nothing *)

Lemma getHistoricalAverage_run userID categoryID period w :
  handlers.getHistoricalAverage userID categoryID period w
  = (handlers.scanAvg
       (sql.QueryRow (handlers.db w)
          (sql.HistoricalQuery (lookbackDays period) userID categoryID)), w).
Proof. reflexivity. Qed.

Lemma trendOf_run userID period (prevSpending : gmap Z float)
    categoryID categoryName currentSpend w :
  handlers.trendOf userID period prevSpending categoryID categoryName
    currentSpend w
  = (let r := fst (handlers.getHistoricalAverage userID categoryID period w) in
     let historicalAvg :=
       match snd r with
       | Some _ => currentSpend
       | None => fst r
       end in
     let prevAmount := default 0%float (prevSpending !! categoryID) in
     {| models.CategoryID := categoryID;
        models.CategoryName := categoryName;
        models.CurrentSpend := currentSpend;
        models.PredictedSpend :=
          handlers.calculatePrediction currentSpend prevAmount historicalAvg period;
        models.TrendDirection :=
          fst (handlers.trendDirection currentSpend prevAmount);
        models.ChangePercent :=
          snd (handlers.trendDirection currentSpend prevAmount) |}, w).
Proof.
  unfold handlers.trendOf. monad. rewrite !getHistoricalAverage_run.
  cbn [fst snd]. destruct (handlers.scanAvg _) as [avg err]. cbn [fst snd].
  destruct (handlers.trendDirection _ _) as [direction change].
  reflexivity.
Qed.


Lemma trendOf_db userID period (prevSpending : gmap Z float)
    categoryID categoryName currentSpend w1 w2 :
  handlers.db w1 = handlers.db w2 ->
  fst (handlers.trendOf userID period prevSpending categoryID categoryName
         currentSpend w1)
  = fst (handlers.trendOf userID period prevSpending categoryID categoryName
           currentSpend w2).
Proof.
  intros E. rewrite !trendOf_run, !getHistoricalAverage_run, E. reflexivity.
Qed.

Lemma trendsLoop_skip userID period (prevSpending : gmap Z float) row rest trends w :
  handlers.scanCurrent row = None ->
  handlers.trendsLoop userID period prevSpending (row :: rest) trends w
  = handlers.trendsLoop userID period prevSpending rest trends w.
Proof. intros E. cbn [handlers.trendsLoop]. rewrite E. reflexivity. Qed.

Lemma trendsLoop_step userID period (prevSpending : gmap Z float) row rest trends w
    categoryID categoryName currentSpend :
  handlers.scanCurrent row = Some (categoryID, categoryName, currentSpend) ->
  handlers.trendsLoop userID period prevSpending (row :: rest) trends w
  = handlers.trendsLoop userID period prevSpending rest
      (trends ++ [fst (handlers.trendOf userID period prevSpending categoryID
                         categoryName currentSpend w)]) w.
Proof.
  intros E. cbn [handlers.trendsLoop]. rewrite E. monad.
  rewrite trendOf_run. reflexivity.
Qed.

Lemma trendsLoop_state userID period (prevSpending : gmap Z float) rows trends w :
  snd (handlers.trendsLoop userID period prevSpending rows trends w) = w.
Proof.
  revert trends. induction rows as [|row rest IH]; intros trends; [reflexivity|].
  destruct (handlers.scanCurrent row) as [[[id name] cur]|] eqn:E.
  - rewrite (trendsLoop_step _ _ _ _ _ _ _ _ _ _ E). apply IH.
  - rewrite (trendsLoop_skip _ _ _ _ _ _ _ E). apply IH.
Qed.

Lemma trendsLoop_db userID period (prevSpending : gmap Z float) rows trends w1 w2 :
  handlers.db w1 = handlers.db w2 ->
  fst (handlers.trendsLoop userID period prevSpending rows trends w1)
  = fst (handlers.trendsLoop userID period prevSpending rows trends w2).
Proof.
  intros D. revert trends.
  induction rows as [|row rest IH]; intros trends; [reflexivity|].
  destruct (handlers.scanCurrent row) as [[[id name] cur]|] eqn:E.
  - rewrite !(trendsLoop_step _ _ _ _ _ _ _ _ _ _ E).
    rewrite (trendOf_db _ _ _ _ _ _ w1 w2 D). apply IH.
  - rewrite !(trendsLoop_skip _ _ _ _ _ _ _ E). apply IH.
Qed.

(** The loop keeps what was appended before and appends one trend for
    each row that scans. *)
Lemma trendsLoop_In userID period (prevSpending : gmap Z float) rows trends w trend :
  In trend (fst (handlers.trendsLoop userID period prevSpending rows trends w))
  <-> In trend trends
      \/ exists row categoryID categoryName currentSpend,
           In row rows
           /\ handlers.scanCurrent row = Some (categoryID, categoryName, currentSpend)
           /\ trend = fst (handlers.trendOf userID period prevSpending categoryID
                             categoryName currentSpend w).
Proof.
  revert trends. induction rows as [|row rest IH]; intros trends.
  - cbn [handlers.trendsLoop In]. monad. cbn [fst]. split; [tauto|].
    intros [H|(row & _ & _ & _ & [] & _)]. exact H.
  - destruct (handlers.scanCurrent row) as [[[id name] cur]|] eqn:E.
    + rewrite (trendsLoop_step _ _ _ _ _ _ _ _ _ _ E), IH, List.in_app_iff.
      cbn [In]. split.
      * intros [[H|[<-|[]]]|(row' & id' & name' & cur' & Hin & Hs & Ht)].
        -- left. exact H.
        -- right. exists row, id, name, cur. auto.
        -- right. exists row', id', name', cur'. auto.
      * intros [H|(row' & id' & name' & cur' & [<-|Hin] & Hs & Ht)].
        -- left. left. exact H.
        -- rewrite E in Hs. injection Hs as <- <- <-. left. right. left.
           symmetry. exact Ht.
        -- right. exists row', id', name', cur'. auto.
    + rewrite (trendsLoop_skip _ _ _ _ _ _ _ E), IH. cbn [In]. split.
      * intros [H|(row' & id' & name' & cur' & Hin & Hs & Ht)]; [left; exact H|].
        right. exists row', id', name', cur'. auto.
      * intros [H|(row' & id' & name' & cur' & [<-|Hin] & Hs & Ht)].
        -- left. exact H.
        -- rewrite E in Hs. discriminate.
        -- right. exists row', id', name', cur'. auto.
Qed.


(** What [calculateSpendingTrends] returns, case by case; the world it
    leaves is the world it found. *)
Lemma calculateSpendingTrends_run userID period dateStr w :
  handlers.calculateSpendingTrends userID period dateStr w
  = (match snd (time.Parse dateStr) with
     | Some e => ([], Some (handlers.TimeError e))
     | None =>
         match handlers.dateRanges period (fst (time.Parse dateStr)) with
         | None => ([], Some (handlers.Errorf "invalid period: %s" period))
         | Some (startDate, endDate, prevStartDate, prevEndDate) =>
             let cur := sql.Query (handlers.db w)
                          (sql.CurrentQuery userID startDate endDate) in
             let prev := sql.Query (handlers.db w)
                           (sql.PrevQuery userID prevStartDate prevEndDate) in
             match snd cur with
             | Some e => ([], Some (handlers.SQLError e))
             | None =>
                 match snd prev with
                 | Some e => ([], Some (handlers.SQLError e))
                 | None =>
                     (fst (handlers.trendsLoop userID period
                             (fold_left handlers.storePrev (fst prev) ∅)
                             (fst cur) [] w), None)
                 end
             end
         end
     end, w).
Proof.
  unfold handlers.calculateSpendingTrends.
  destruct (time.Parse dateStr) as [date [e|]]; cbn [fst snd]; [reflexivity|].
  destruct (handlers.dateRanges period date) as [[[[s e] ps] pe]|]; [|reflexivity].
  monad. cbv zeta.
  destruct (sql.Query (handlers.db w) (sql.CurrentQuery userID s e))
    as [currentRows [err|]]; cbn [fst snd]; [reflexivity|].
  destruct (sql.Query (handlers.db w) (sql.PrevQuery userID ps pe))
    as [prevRows [err|]]; cbn [fst snd]; [reflexivity|].
  pose proof (trendsLoop_state userID period
                (fold_left handlers.storePrev prevRows ∅) currentRows [] w) as S.
  destruct (handlers.trendsLoop _ _ _ _ _ _) as [trends w']. cbn [fst snd] in *.
  rewrite S. reflexivity.
Qed.

Lemma GetSpendingTrends_run c w :
  fst (handlers.GetSpendingTrends c w)
  = if String.eqb (handlers.formValue (handlers.query c) "period") "" then
      handlers.JSON handlers.StatusBadRequest
        (handlers.ErrorOf (handlers.BindError "Period" "required"))
    else
      let r := fst (handlers.calculateSpendingTrends (handlers.user_id c)
                      (handlers.formValue (handlers.query c) "period")
                      (referenceDate c w) w) in
      match snd r with
      | Some _ =>
          handlers.JSON handlers.StatusInternalServerError
            (handlers.ErrorText "Failed to calculate spending trends")
      | None =>
          handlers.JSON handlers.StatusOK
            (handlers.Trends
               {| models.resp_Period := handlers.formValue (handlers.query c) "period";
                  models.resp_Date := referenceDate c w;
                  models.resp_Trends := fst r |})
      end.
Proof.
  unfold handlers.GetSpendingTrends, handlers.ShouldBindQuery, referenceDate.
  cbn [models.Period models.Date].
  destruct (String.eqb (handlers.formValue (handlers.query c) "period") "");
    [reflexivity|].
  monad. cbn [models.Period models.Date].
  destruct (String.eqb (handlers.formValue (handlers.query c) "date") "");
    cbv beta iota zeta;
    match goal with
    | |- context [handlers.calculateSpendingTrends ?u ?p ?d ?w] =>
        destruct (handlers.calculateSpendingTrends u p d w) as [[trends [e|]] w']
    end; reflexivity.
Qed.

(** ** Determinism *)

Lemma calculateSpendingTrends_db userID period dateStr w1 w2 :
  handlers.db w1 = handlers.db w2 ->
  fst (handlers.calculateSpendingTrends userID period dateStr w1)
  = fst (handlers.calculateSpendingTrends userID period dateStr w2).
Proof.
  intros D. rewrite !calculateSpendingTrends_run. cbn [fst snd]. rewrite D.
  destruct (snd (time.Parse dateStr)); [reflexivity|].
  destruct (handlers.dateRanges period _) as [[[[s e] ps] pe]|]; [|reflexivity].
  cbv zeta.
  destruct (snd (sql.Query (handlers.db w2) (sql.CurrentQuery userID s e)));
    [reflexivity|].
  destruct (snd (sql.Query (handlers.db w2) (sql.PrevQuery userID ps pe)));
    [reflexivity|].
  f_equal. apply trendsLoop_db. exact D.
Qed.

Lemma calculateSpendingTrends_state userID period dateStr w :
  snd (handlers.calculateSpendingTrends userID period dateStr w) = w.
Proof. rewrite calculateSpendingTrends_run. reflexivity. Qed.

(** C9. Two computations of the trends for the same user, period and
    reference date against the same store (its tables, its clock and the
    statements it fails) return the same result, whatever else differs
    around them; a computation leaves its world as it found it, so a
    second one right after the first returns the same result too. *)
Theorem trends_are_deterministic (userID : Z) (period dateStr : string)
    (w1 w2 : handlers.World) :
  handlers.db w1 = handlers.db w2 ->
  fst (handlers.calculateSpendingTrends userID period dateStr w1)
  = fst (handlers.calculateSpendingTrends userID period dateStr w2)
  /\ snd (handlers.calculateSpendingTrends userID period dateStr w1) = w1
  /\ fst (handlers.calculateSpendingTrends userID period dateStr
            (snd (handlers.calculateSpendingTrends userID period dateStr w1)))
     = fst (handlers.calculateSpendingTrends userID period dateStr w1).
Proof.
  intros D. split; [exact (calculateSpendingTrends_db _ _ _ _ _ D)|].
  rewrite calculateSpendingTrends_state. split; reflexivity.
Qed.

(** The example store gives the same trends to a fresh process and to a
    later one that has logged and reassigned a package-level variable. *)
Lemma trends_are_deterministic_example :
  fst (handlers.calculateSpendingTrends 7 "week" "2024-01-15" exampleWorld)
  = fst (handlers.calculateSpendingTrends 7 "week" "2024-01-15" exampleWorldLater)
  /\ snd (handlers.calculateSpendingTrends 7 "week" "2024-01-15" exampleWorld)
     = exampleWorld
  /\ fst (handlers.calculateSpendingTrends 7 "week" "2024-01-15"
            (snd (handlers.calculateSpendingTrends 7 "week" "2024-01-15"
                    exampleWorld)))
     = fst (handlers.calculateSpendingTrends 7 "week" "2024-01-15" exampleWorld).
Proof.
  apply (trends_are_deterministic 7 "week" "2024-01-15" exampleWorld
           exampleWorldLater).
  reflexivity.
Defined.

(** ** Outer join *)


(** C5. For every user and every current range [startDate, endDate) that
    a reference date and a period give, when the two aggregation
    statements run the computation returns trends, every expense category
    of the user appears in them, and a category with no expense
    transaction of the user dated inside the range appears with a current
    spend of 0. *)
Theorem every_expense_category_is_reported
    (w : handlers.World) (userID : Z) (period dateStr : string)
    (date startDate endDate prevStartDate prevEndDate : time.Time)
    (c : models.Category) :
  time.Parse dateStr = (date, None) ->
  handlers.dateRanges period date
  = Some (startDate, endDate, prevStartDate, prevEndDate) ->
  sql.failing (handlers.db w) (sql.CurrentQuery userID startDate endDate) = false ->
  sql.failing (handlers.db w) (sql.PrevQuery userID prevStartDate prevEndDate) = false ->
  In c (sql.categories (handlers.db w)) ->
  models.cat_UserID c = userID ->
  models.cat_Type c = "expense"%string ->
  exists trends trend,
    fst (handlers.calculateSpendingTrends userID period dateStr w) = (trends, None)
    /\ In trend trends
    /\ models.CategoryID trend = models.cat_ID c
    /\ models.CategoryName trend = models.cat_Name c
    /\ ((forall t, In t (sql.transactions (handlers.db w)) ->
                   models.tx_CategoryID t = models.cat_ID c ->
                   models.tx_UserID t = userID ->
                   models.tx_Type t = "expense"%string ->
                   ~ (startDate <= models.tx_Date t < endDate)) ->
        models.CurrentSpend trend = 0%float).
Proof.
  intros HP HR FC FP Hc Hu Ht.
  destruct (currentQuery_outer_join (handlers.db w) userID startDate endDate c
              Hc Hu Ht) as (amount & Hrow & Hzero).
  rewrite calculateSpendingTrends_run, HP. cbn [fst snd]. rewrite HR. cbv zeta.
  unfold sql.Query. rewrite FC, FP. cbn [fst snd].
  eexists. eexists. split; [reflexivity|].
  split; [|split; [|split]].
  - apply trendsLoop_In. right.
    exists [sql.VInt (models.cat_ID c); sql.VText (models.cat_Name c);
            sql.VFloat amount], (models.cat_ID c), (models.cat_Name c), amount.
    split; [exact Hrow|]. split; reflexivity.
  - rewrite trendOf_run. reflexivity.
  - rewrite trendOf_run. reflexivity.
  - intros Hnone. rewrite trendOf_run. cbn [fst models.CurrentSpend].
    apply Hzero. intros t Hin.
    unfold sql.joins.
    destruct (Z.eqb_spec (models.cat_ID c) (models.tx_CategoryID t)) as [E1|];
      [|reflexivity].
    destruct (Z.eqb_spec (models.tx_UserID t) userID) as [E2|]; [|reflexivity].
    destruct (String.eqb_spec (models.tx_Type t) "expense") as [E3|];
      [|reflexivity].
    destruct (Z.leb_spec startDate (models.tx_Date t)) as [E4|]; [|reflexivity].
    destruct (Z.ltb_spec (models.tx_Date t) endDate) as [E5|]; [|reflexivity].
    exfalso. apply (Hnone t Hin); [symmetry; exact E1|exact E2|exact E3|lia].
Qed.

(** On the example store, rent has no transaction and is reported with a
    current spend of 0 for the week of 2024-01-15. *)
Lemma rent_is_reported_with_zero :
  exists trends trend,
    fst (handlers.calculateSpendingTrends 7 "week" "2024-01-15" exampleWorld)
    = (trends, None)
    /\ In trend trends
    /\ models.CategoryID trend = 2
    /\ models.CategoryName trend = "rent"%string
    /\ models.CurrentSpend trend = 0%float.
Proof.
  destruct (every_expense_category_is_reported exampleWorld 7 "week" "2024-01-15"
              (time.Date 2024 1 15 0 0 0)
              (time.Date 2024 1 15 0 0 0) (time.Date 2024 1 22 0 0 0)
              (time.Date 2024 1 8 0 0 0) (time.Date 2024 1 15 0 0 0)
              {| models.cat_ID := 2; models.cat_UserID := 7;
                 models.cat_Name := "rent"; models.cat_Type := "expense" |})
    as (trends & trend & H1 & H2 & H3 & H4 & H5).
  - vm_compute. reflexivity.
  - vm_compute. reflexivity.
  - reflexivity.
  - reflexivity.
  - cbn. tauto.
  - reflexivity.
  - reflexivity.
  - exists trends, trend. repeat split; try assumption.
    apply H5. intros t Hin Hcat. cbn in Hin.
    destruct Hin as [<-|[<-|[<-|[]]]]; cbn in Hcat; discriminate.
Defined.

(** ** Errors *)




(** On the example store, a read of the current-period rows that breaks
    after the first row is answered with 200 and the one trend read, of
    the three there are, although [rows.Err()] holds the error. *)
Example broken_read_is_answered_with_partial_trends :
  length (fst (fst (handlers.calculateSpendingTrends 7 "week" "2024-01-15"
                      (worldOf exampleDB)))) = 3%nat
  /\ fst (handlers.calculateSpendingTrends 7 "week" "2024-01-15"
            (worldOf exampleDBBreaking))
     = (firstn 1 (fst (fst (handlers.calculateSpendingTrends 7 "week" "2024-01-15"
                              (worldOf exampleDB)))), None)
  /\ sql.Err exampleDBBreaking
       (sql.CurrentQuery 7 (time.Date 2024 1 15 0 0 0) (time.Date 2024 1 22 0 0 0))
     <> None
  /\ handlers.status (fst (handlers.GetSpendingTrends requestWeek
                             (worldOf exampleDBBreaking)))
     = handlers.StatusOK.
Proof.
  split; [vm_compute; reflexivity|].
  split; [vm_compute; reflexivity|].
  split; [vm_compute; discriminate|].
  vm_compute. reflexivity.
Qed.

(** ** The historical average *)

Lemma filter_none {A : Type} (f : A -> bool) (l : list A) :
  (forall x, In x l -> f x = false) -> List.filter f l = [].
Proof.
  induction l as [|a rest IH]; intros H; [reflexivity|].
  cbn [List.filter]. rewrite (H a (or_introl eq_refl)).
  apply IH. intros x Hx. apply H. right. exact Hx.
Qed.

(** C7. For every category: when the statement of the historical average
    fails, the category's current spend takes the place of the historical
    value in the prediction and the computation goes on: the category's
    trend is appended all the same, and no error is returned as long as
    the date, the period and the two aggregation statements are fine.
    When the statement succeeds and no transaction lies in the lookback,
    the historical average is 0. *)
Theorem historical_average_degrades (userID : Z) (period : string)
    (prevSpending : gmap Z float) (categoryID : Z) (categoryName : string)
    (currentSpend : float) (w : handlers.World) :
  let q := sql.HistoricalQuery (lookbackDays period) userID categoryID in
  let trend := fst (handlers.trendOf userID period prevSpending categoryID
                      categoryName currentSpend w) in
  let prevAmount := default 0%float (prevSpending !! categoryID) in
  (sql.failing (handlers.db w) q = true ->
   snd (fst (handlers.getHistoricalAverage userID categoryID period w)) <> None
   /\ models.PredictedSpend trend
      = handlers.calculatePrediction currentSpend prevAmount currentSpend period)
  /\ (sql.failing (handlers.db w) q = false ->
      (forall t, In t (sql.transactions (handlers.db w)) ->
                 inLookback (handlers.db w) userID categoryID period t = false) ->
      fst (handlers.getHistoricalAverage userID categoryID period w) = (0%float, None)
      /\ models.PredictedSpend trend
         = handlers.calculatePrediction currentSpend prevAmount 0%float period)
  /\ (forall dateStr date startDate endDate prevStartDate prevEndDate,
        time.Parse dateStr = (date, None) ->
        handlers.dateRanges period date
        = Some (startDate, endDate, prevStartDate, prevEndDate) ->
        sql.failing (handlers.db w)
          (sql.CurrentQuery userID startDate endDate) = false ->
        sql.failing (handlers.db w)
          (sql.PrevQuery userID prevStartDate prevEndDate) = false ->
        snd (fst (handlers.calculateSpendingTrends userID period dateStr w)) = None)
  /\ (forall currentRows trends row,
        In row currentRows ->
        handlers.scanCurrent row = Some (categoryID, categoryName, currentSpend) ->
        In trend (fst (handlers.trendsLoop userID period prevSpending currentRows
                         trends w))).
Proof.
  cbv zeta. split; [|split; [|split]].
  - intros F. rewrite trendOf_run, getHistoricalAverage_run. cbn [fst snd].
    unfold sql.QueryRow, sql.Query. rewrite F. cbn.
    split; [discriminate|reflexivity].
  - intros F Hnone. rewrite trendOf_run, getHistoricalAverage_run. cbn [fst snd].
    unfold sql.QueryRow, sql.Query. rewrite F. cbn [sql.eval].
    rewrite filter_none; [cbn; split; reflexivity|].
    intros t Hin. exact (Hnone t Hin).
  - intros dateStr date s e ps pe HP HR FC FP.
    rewrite calculateSpendingTrends_run, HP. cbn [fst snd]. rewrite HR.
    cbv zeta. unfold sql.Query. rewrite FC, FP. reflexivity.
  - intros currentRows trends row Hin Hscan. apply trendsLoop_In. right.
    exists row, categoryID, categoryName, currentSpend. auto.
Qed.

(** ** The example store, run *)

#[local] Open Scope float_scope.

(** The week of Monday 2024-01-15 on the example store: fun and food were
    spent on, rent was not; food went from 80 to 100 and its transactions
    average 90. *)
Example week_of_2024_01_15 :
  fst (handlers.GetSpendingTrends requestWeek exampleWorld)
  = handlers.JSON 200
      (handlers.Trends
         {| models.resp_Period := "week";
            models.resp_Date := "2024-01-15";
            models.resp_Trends :=
              [ {| models.CategoryID := 5; models.CategoryName := "fun";
                   models.CurrentSpend := 500; models.PredictedSpend := 300;
                   models.TrendDirection := "new"; models.ChangePercent := 0 |};
                {| models.CategoryID := 1; models.CategoryName := "food";
                   models.CurrentSpend := 100; models.PredictedSpend := 66;
                   models.TrendDirection := "up"; models.ChangePercent := 25 |};
                {| models.CategoryID := 2; models.CategoryName := "rent";
                   models.CurrentSpend := 0; models.PredictedSpend := 0;
                   models.TrendDirection := "new"; models.ChangePercent := 0 |} ] |}).
Proof. vm_compute. reflexivity. Qed.

(** The same week when the statement of the historical average fails:
    the trends are still returned, food predicted from its current spend in
    place of its average (100*0.4 + 20*0.4 + 100*0.2 = 68). *)
Example week_without_history :
  fst (handlers.GetSpendingTrends requestWeek (worldOf exampleDBNoHistory))
  = handlers.JSON 200
      (handlers.Trends
         {| models.resp_Period := "week";
            models.resp_Date := "2024-01-15";
            models.resp_Trends :=
              [ {| models.CategoryID := 5; models.CategoryName := "fun";
                   models.CurrentSpend := 500; models.PredictedSpend := 300;
                   models.TrendDirection := "new"; models.ChangePercent := 0 |};
                {| models.CategoryID := 1; models.CategoryName := "food";
                   models.CurrentSpend := 100; models.PredictedSpend := 68;
                   models.TrendDirection := "up"; models.ChangePercent := 25 |};
                {| models.CategoryID := 2; models.CategoryName := "rent";
                   models.CurrentSpend := 0; models.PredictedSpend := 0;
                   models.TrendDirection := "new"; models.ChangePercent := 0 |} ] |}).
Proof. vm_compute. reflexivity. Qed.

(** The same week when the current-period statement fails: status 500,
    the fixed message, and the error in the log. *)
Example week_with_store_down :
  handlers.GetSpendingTrends requestWeek (worldOf exampleDBDown)
  = (handlers.JSON 500 (handlers.ErrorText "Failed to calculate spending trends"),
     {| handlers.db := exampleDBDown;
        handlers.clock := sql.now exampleDBDown;
        handlers.vars := models.initVars;
        handlers.log :=
          [("Error calculating spending trends: %v"%string,
            handlers.SQLError
              (sql.ErrDriver
                 (sql.CurrentQuery 7 (time.Date 2024 1 15 0 0 0)
                    (time.Date 2024 1 22 0 0 0))))] |}).
Proof. vm_compute. reflexivity. Qed.

#[local] Close Scope float_scope.

(** ** Configuration *)

#[local] Open Scope float_scope.

(** With other weights assigned to [models.PredictionConfig] the
    prediction is still the one of the literals 0.4, 0.4 and 0.2. *)
Lemma prediction_ignores_assigned_weights :
  ~ (forall (v : models.Vars) (c p h : float) (period : string),
       handlers.calculatePrediction c p h period
       = configuredPrediction (models.varPredictionConfig v)
           (models.varPredictionSettings v) c p h).
Proof.
  intros H.
  specialize (H (handlers.vars exampleWorldLater) 100 80 90 "week"%string).
  pose proof (f_equal (fun x => PrimFloat.ltb x 70) H) as E.
  vm_compute in E. discriminate.
Qed.

(** C8, as the code has it. The weights 0.4/0.4/0.2, the floor factor 0.8
    and the thresholds 10 and -10 are literals of the prediction and of the
    classification.  They equal the declared values of
    [models.PredictionConfig], [models.PredictionSettings] and
    [models.TrendLimits], and the handler reads none of the package-level
    variables: whatever is assigned to them, it computes the same trend. *)
Theorem constants_are_the_declared_defaults (c p h : float) (period : string) :
  handlers.calculatePrediction c p h period
  = configuredPrediction models.PredictionConfig models.PredictionSettings c p h
  /\ handlers.trendDirection c p
     = configuredDirection models.TrendLimits models.TrendDirections c p
  /\ (forall (v : models.Vars) userID (prevSpending : gmap Z float)
             categoryID categoryName w,
        fst (handlers.trendOf userID period prevSpending categoryID categoryName
               c (withVars v w))
        = fst (handlers.trendOf userID period prevSpending categoryID categoryName
                 c w))
  /\ (forall (v : models.Vars) userID dateStr w,
        fst (handlers.calculateSpendingTrends userID period dateStr (withVars v w))
        = fst (handlers.calculateSpendingTrends userID period dateStr w)).
Proof.
  split; [reflexivity|]. split; [reflexivity|]. split.
  - intros v userID prevSpending categoryID categoryName w.
    apply trendOf_db. reflexivity.
  - intros v userID dateStr w.
    apply calculateSpendingTrends_db. reflexivity.
Qed.

(** ** The prediction is not negative *)

#[local] Close Scope float_scope.

Lemma shr_1_div2 mrs : 0 <= shr_m mrs -> shr_m (shr_1 mrs) = shr_m mrs / 2.
Proof.
  destruct mrs as [m r s]. cbn [shr_m]. intros Hm.
  destruct m as [|[p|p|]|p]; cbn [shr_1 shr_m].
  - reflexivity.
  - rewrite Pos2Z.inj_xI. apply Z.div_unique with (r := 1); lia.
  - rewrite Pos2Z.inj_xO. apply Z.div_unique with (r := 0); lia.
  - reflexivity.
  - lia.
Qed.

Lemma iter_shr_1 n mrs :
  0 <= shr_m mrs ->
  shr_m (SpecFloat.iter_pos shr_1 n mrs) = shr_m mrs / 2 ^ Zpos n.
Proof.
  revert mrs. induction n as [n IH|n IH|]; intros mrs Hm; cbn [SpecFloat.iter_pos].
  - assert (H1 : 0 <= shr_m (shr_1 mrs)).
    { rewrite shr_1_div2 by exact Hm. apply Z.div_pos; lia. }
    assert (H2 : 0 <= shr_m (SpecFloat.iter_pos shr_1 n (shr_1 mrs))).
    { rewrite IH by exact H1. apply Z.div_pos; lia. }
    rewrite IH by exact H2. rewrite IH by exact H1. rewrite shr_1_div2 by exact Hm.
    rewrite !Z.div_div by lia. f_equal.
    rewrite (Pos2Z.inj_xI n), Z.pow_add_r, Z.pow_twice_r by lia.
    change (2 ^ 1) with 2. lia.
  - assert (H2 : 0 <= shr_m (SpecFloat.iter_pos shr_1 n mrs)).
    { rewrite IH by exact Hm. apply Z.div_pos; lia. }
    rewrite IH by exact H2. rewrite IH by exact Hm.
    rewrite !Z.div_div by lia. f_equal.
    rewrite (Pos2Z.inj_xO n), Z.pow_twice_r. reflexivity.
  - rewrite shr_1_div2 by exact Hm. reflexivity.
Qed.

Lemma shr_spec mrs e n :
  0 <= shr_m mrs ->
  shr_m (fst (shr mrs e n)) = (if 0 <? n then shr_m mrs / 2 ^ n else shr_m mrs)
  /\ snd (shr mrs e n) = (if 0 <? n then e + n else e).
Proof.
  intros Hm. unfold shr. destruct n as [|p|p]; cbn [fst snd]; try (split; reflexivity).
  split; [|reflexivity]. change (0 <? Z.pos p) with true. cbv iota.
  apply iter_shr_1. exact Hm.
Qed.

Lemma shr_m_of_loc m l : shr_m (shr_record_of_loc m l) = m.
Proof. destruct l as [|[| |]]; reflexivity. Qed.

Lemma digits2_pos_size p : digits2_pos p = Pos.size p.
Proof. induction p as [p IH|p IH|]; cbn; congruence. Qed.

(** [Zdigits2 m] is the number of binary digits of [m]. *)
Lemma Zdigits2_bounds m :
  0 < m -> 2 ^ (Zdigits2 m - 1) <= m < 2 ^ Zdigits2 m.
Proof.
  intros Hm. destruct m as [|p|p]; try lia. cbn [Zdigits2].
  rewrite digits2_pos_size.
  assert (E : Z.pos (Pos.size p) = Z.log2 (Z.pos p) + 1).
  { destruct p; cbn; lia. }
  rewrite E. replace (Z.log2 (Z.pos p) + 1 - 1) with (Z.log2 (Z.pos p)) by lia.
  pose proof (Z.log2_spec (Z.pos p) ltac:(lia)) as S.
  replace (Z.log2 (Z.pos p) + 1) with (Z.succ (Z.log2 (Z.pos p))) by lia.
  exact S.
Qed.

Lemma Zdigits2_nonneg m : 0 <= Zdigits2 m.
Proof. destruct m; cbn; lia. Qed.

Lemma Zdigits2_le m k : 0 <= m -> 0 <= k -> m < 2 ^ k -> Zdigits2 m <= k.
Proof.
  intros Hm Hk Hlt. destruct (Z.eq_dec m 0) as [->|Hne]; [cbn; lia|].
  pose proof (Zdigits2_bounds m ltac:(lia)) as [L _].
  destruct (Z.le_gt_cases (Zdigits2 m) k) as [|G]; [assumption|].
  assert (2 ^ k <= 2 ^ (Zdigits2 m - 1)) by (apply Z.pow_le_mono_r; lia).
  lia.
Qed.

Lemma round_nearest_even_bounds m l : m <= round_nearest_even m l <= m + 1.
Proof.
  unfold round_nearest_even. destruct l as [|[| |]]; try lia.
  destruct (Z.even m); lia.
Qed.

Section Round.
Variables prec emax : Z.
Hypothesis prec_pos : 0 < prec.
Hypothesis emax_big : 3 <= 2 * emax.

Lemma shr_fexp_spec m e l :
  0 <= m ->
  let r := shr_fexp prec emax m e l in
  0 <= shr_m (fst r) <= m
  /\ shr_m (fst r) < 2 ^ prec
  /\ snd r = Z.max e (fexp prec emax (Zdigits2 m + e)).
Proof.
  intros Hm. cbv zeta. unfold shr_fexp.
  set (n := fexp prec emax (Zdigits2 m + e) - e).
  destruct (shr_spec (shr_record_of_loc m l) e n) as [S1 S2];
    [rewrite shr_m_of_loc; exact Hm|].
  rewrite shr_m_of_loc in S1. rewrite S1, S2.
  assert (Hf : Zdigits2 m + e - prec <= fexp prec emax (Zdigits2 m + e))
    by (unfold fexp; lia).
  assert (Hd : m < 2 ^ Zdigits2 m).
  { destruct (Z.eq_dec m 0) as [->|]; [cbn; lia|].
    apply Zdigits2_bounds. lia. }
  pose proof (Zdigits2_nonneg m) as Hdn.
  destruct (Z.ltb_spec 0 n) as [Hn|Hn].
  - assert (0 < 2 ^ n) by (apply Z.pow_pos_nonneg; lia).
    split; [split|split].
    + apply Z.div_pos; lia.
    + apply Z.div_le_upper_bound; [lia|]. nia.
    + apply Z.div_lt_upper_bound; [lia|].
      rewrite <- Z.pow_add_r by lia.
      assert (2 ^ Zdigits2 m <= 2 ^ (n + prec)) by (apply Z.pow_le_mono_r; lia).
      lia.
    + unfold n in *. lia.
  - split; [lia|split].
    + assert (2 ^ Zdigits2 m <= 2 ^ prec) by (apply Z.pow_le_mono_r; unfold n in *; lia).
      lia.
    + unfold n in *. lia.
Qed.

Lemma binary_round_aux_signed s m e l :
  0 <= m -> SFsigned s (binary_round_aux prec emax s m e l).
Proof.
  intros Hm. unfold binary_round_aux.
  pose proof (shr_fexp_spec m e l Hm) as (H1 & _ & _).
  destruct (shr_fexp prec emax m e l) as [mrs' e']. cbn [fst snd] in H1.
  pose proof (round_nearest_even_bounds (shr_m mrs') (loc_of_shr_record mrs')) as R.
  pose proof (shr_fexp_spec (round_nearest_even (shr_m mrs') (loc_of_shr_record mrs'))
                e' loc_Exact ltac:(lia)) as (H2 & _ & _).
  destruct (shr_fexp prec emax _ e' loc_Exact) as [mrs'' e'']. cbn [fst snd] in H2.
  destruct (shr_m mrs'') as [|p|p]; [constructor| |lia].
  destruct (e'' <=? emax - prec); constructor.
Qed.

Lemma binary_round_aux_finite s m e l :
  0 <= m -> e < emax - prec -> Zdigits2 m + e < emax ->
  SFfin (binary_round_aux prec emax s m e l) = true.
Proof.
  intros Hm He Hd. unfold binary_round_aux.
  pose proof (shr_fexp_spec m e l Hm) as (H1 & H1' & E1).
  destruct (shr_fexp prec emax m e l) as [mrs' e']. cbn [fst snd] in H1, H1', E1.
  pose proof (round_nearest_even_bounds (shr_m mrs') (loc_of_shr_record mrs')) as R.
  set (m2 := round_nearest_even (shr_m mrs') (loc_of_shr_record mrs')) in *.
  pose proof (shr_fexp_spec m2 e' loc_Exact ltac:(lia)) as (H2 & _ & E2).
  destruct (shr_fexp prec emax m2 e' loc_Exact) as [mrs'' e'']. cbn [fst snd] in H2, E2.
  assert (D2 : Zdigits2 m2 <= prec + 1).
  { apply Zdigits2_le; [lia|lia|].
    rewrite Z.pow_add_r by lia. change (2 ^ 1) with 2. lia. }
  assert (Hle : e'' <= emax - prec).
  { rewrite E2, E1. unfold fexp, emin. lia. }
  destruct (shr_m mrs'') as [|p|p]; [reflexivity| |lia].
  apply Z.leb_le in Hle. rewrite Hle. reflexivity.
Qed.
End Round.

Lemma prec_emax_ok : 0 < prec /\ 3 <= 2 * emax.
Proof. unfold prec, emax. lia. Qed.

Lemma signed_num s x : SFsigned s x -> SFnum x = true.
Proof. intros []; reflexivity. Qed.

Lemma signed_nonneg x : SFsigned false x -> SFnonneg x = true.
Proof. intros []; reflexivity. Qed.

Lemma binary_round_num s m e : SFnum (binary_round prec emax s m e) = true.
Proof.
  unfold binary_round. destruct (shl_align _ _ _) as [mz ez].
  apply (signed_num s).
  apply binary_round_aux_signed; [apply prec_emax_ok..|lia].
Qed.

Lemma binary_normalize_num m e sz :
  SFnum (binary_normalize prec emax m e sz) = true.
Proof.
  unfold binary_normalize. destruct m; [reflexivity|apply binary_round_num..].
Qed.

Lemma SF64add_num_l x y :
  SFfin x = true -> SFnum y = true -> SFnum (SF64add x y) = true.
Proof.
  unfold SF64add, SFadd.
  destruct x as [sx|sx| |sx mx ex], y as [sy|sy| |sy my ey];
    try discriminate; intros _ _; try reflexivity.
  - destruct sx, sy; reflexivity.
  - apply binary_normalize_num.
Qed.

Lemma SF64add_num_r x y :
  SFnum x = true -> SFfin y = true -> SFnum (SF64add x y) = true.
Proof.
  unfold SF64add, SFadd.
  destruct x as [sx|sx| |sx mx ex], y as [sy|sy| |sy my ey];
    try discriminate; intros _ _; try reflexivity.
  - destruct sx, sy; reflexivity.
  - apply binary_normalize_num.
Qed.

Lemma SF64sub_num x y :
  SFfin x = true -> SFnum y = true -> SFnum (SF64sub x y) = true.
Proof.
  unfold SF64sub, SFsub.
  destruct x as [sx|sx| |sx mx ex], y as [sy|sy| |sy my ey];
    try discriminate; intros _ _; try reflexivity.
  - destruct sx, sy; reflexivity.
  - apply binary_normalize_num.
Qed.

Lemma SF64mul_num x sk mk ek :
  SFnum x = true -> SFnum (SF64mul x (S754_finite sk mk ek)) = true.
Proof.
  unfold SF64mul, SFmul.
  destruct x as [sx|sx| |sx mx ex]; try discriminate; intros _; try reflexivity.
  apply (signed_num (xorb sx sk)).
  apply binary_round_aux_signed; [apply prec_emax_ok..|lia].
Qed.

Lemma SF64mul_nonneg x mk ek :
  SFnonneg x = true -> SFnonneg (SF64mul x (S754_finite false mk ek)) = true.
Proof.
  unfold SF64mul, SFmul.
  destruct x as [sx|sx| |sx mx ex]; try discriminate; cbn [SFnonneg];
    rewrite ?xorb_false_r; try (intros H; exact H); try reflexivity.
  intros H. apply negb_true_iff in H. subst sx.
  apply signed_nonneg.
  apply binary_round_aux_signed; [apply prec_emax_ok..|lia].
Qed.

(** A finite binary64 times a constant below 1/2 in magnitude is finite. *)
Lemma SF64mul_fin x sk mk ek :
  valid_binary x = true -> SFfin x = true ->
  Zdigits2 (Zpos mk) <= prec -> ek < - prec ->
  SFfin (SF64mul x (S754_finite sk mk ek)) = true.
Proof.
  unfold SF64mul, SFmul.
  destruct x as [sx|sx| |sx mx ex]; try discriminate; intros V _ Dk Ek;
    [reflexivity|].
  cbn [SpecFloat.valid_binary] in V. unfold bounded, canonical_mantissa in V.
  apply andb_true_iff in V. destruct V as [C B].
  apply Z.eqb_eq in C. apply Z.leb_le in B.
  assert (Dx : Zdigits2 (Zpos mx) <= prec).
  { cbn [Zdigits2]. unfold fexp in C. lia. }
  assert (Dp : Zdigits2 (Zpos (mx * mk)) <= Zdigits2 (Zpos mx) + Zdigits2 (Zpos mk)).
  { pose proof (Zdigits2_bounds (Zpos mx) ltac:(lia)) as [_ Bx].
    pose proof (Zdigits2_bounds (Zpos mk) ltac:(lia)) as [_ Bk].
    pose proof (Zdigits2_nonneg (Zpos mx)). pose proof (Zdigits2_nonneg (Zpos mk)).
    apply Zdigits2_le; [lia|lia|].
    rewrite Z.pow_add_r by lia. rewrite Pos2Z.inj_mul. nia. }
  apply binary_round_aux_finite; [apply prec_emax_ok..|lia| |];
    unfold prec, emax in *; lia.
Qed.

#[local] Open Scope float_scope.

Lemma is_finite_SF x : is_finite x = true -> SFfin (Prim2SF x) = true.
Proof.
  unfold is_finite, is_nan, is_infinity.
  rewrite !FloatAxioms.eqb_spec, FloatAxioms.abs_spec.
  change (Prim2SF infinity) with (S754_infinity false).
  destruct (Prim2SF x) as [s|s| |s m e]; cbn; try reflexivity; try discriminate.
  destruct s; cbn; discriminate.
Qed.

Lemma leb_zero_SF x : (0 <=? x) = SFnonneg (Prim2SF x).
Proof.
  rewrite FloatAxioms.leb_spec. change (Prim2SF 0) with (S754_zero false).
  destruct (Prim2SF x) as [s|[|]| |[|] m e]; reflexivity.
Qed.

Lemma ltb_zero_SF x :
  SFnum (Prim2SF x) = true -> (x <? 0) = false -> SFnonneg (Prim2SF x) = true.
Proof.
  rewrite FloatAxioms.ltb_spec. change (Prim2SF 0) with (S754_zero false).
  destruct (Prim2SF x) as [s|[|]| |[|] m e]; cbn; congruence.
Qed.

Lemma gt_zero_num p : (0 <? p) = true -> SFnum (Prim2SF p) = true.
Proof.
  rewrite FloatAxioms.ltb_spec. change (Prim2SF 0) with (S754_zero false).
  destruct (Prim2SF p) as [s|[|]| |[|] m e]; cbn; congruence.
Qed.



Lemma nonneg_not_below_zero x :
  SFnonneg (Prim2SF x) = true -> (x <? 0) = false.
Proof.
  rewrite FloatAxioms.ltb_spec. change (Prim2SF 0) with (S754_zero false).
  destruct (Prim2SF x) as [s|[|]| |[|] m e]; cbn; congruence.
Qed.

(** C10. For every non-negative current spend, every previous spend and
    every historical average, the predicted spend is non-negative: a
    negative weighted sum is replaced by current*0.8, which is non-negative
    when current is.  Over binary64: the prediction never compares below
    zero, and it compares at or above zero when the current spend and the
    historical average are numbers, that is finite; the previous spend is
    any value. *)
Theorem prediction_is_nonnegative (c p h : float) (period : string) :
  (0 <=? c) = true ->
  (handlers.calculatePrediction c p h period <? 0) = false
  /\ (0 <=? c * 0.8) = true
  /\ (is_finite c = true -> is_finite h = true ->
      (0 <=? handlers.calculatePrediction c p h period) = true).
Proof.
  intros Nc. rewrite leb_zero_SF in Nc.
  assert (N8 : SFnonneg (Prim2SF (c * 0.8)) = true).
  { rewrite FloatAxioms.mul_spec.
    change (Prim2SF 0.8) with (S754_finite false 7205759403792794 (-53)).
    apply SF64mul_nonneg. exact Nc. }
  split; [|split; [rewrite leb_zero_SF; exact N8|]].
  - unfold handlers.calculatePrediction. cbv zeta.
    match goal with
    | |- ((if ?v <? 0 then _ else _) <? 0) = false => destruct (v <? 0) eqn:L
    end.
    + apply nonneg_not_below_zero. exact N8.
    + exact L.
  - intros Fc Fh. apply is_finite_SF in Fc, Fh.
    unfold handlers.calculatePrediction. cbv zeta.
    set (d := if p >? 0 then c - p else 0).
    assert (Nd : SFnum (Prim2SF d) = true).
    { unfold d. destruct (p >? 0) eqn:Hp; [|reflexivity].
      rewrite FloatAxioms.sub_spec.
      apply SF64sub_num; [exact Fc|apply gt_zero_num; exact Hp]. }
    set (a := c * _). set (b := d * _). set (e := h * _).
    assert (Fa : SFfin (Prim2SF a) = true).
    { unfold a. rewrite FloatAxioms.mul_spec.
      change (Prim2SF 0.4) with (S754_finite false 7205759403792794 (-54)).
      apply SF64mul_fin;
        [apply FloatAxioms.Prim2SF_valid|exact Fc|vm_compute; discriminate
        |reflexivity]. }
    assert (Nb : SFnum (Prim2SF b) = true).
    { unfold b. rewrite FloatAxioms.mul_spec.
      change (Prim2SF 0.4) with (S754_finite false 7205759403792794 (-54)).
      apply SF64mul_num. exact Nd. }
    assert (Fe : SFfin (Prim2SF e) = true).
    { unfold e. rewrite FloatAxioms.mul_spec.
      change (Prim2SF 0.2) with (S754_finite false 7205759403792794 (-55)).
      apply SF64mul_fin;
        [apply FloatAxioms.Prim2SF_valid|exact Fh|vm_compute; discriminate
        |reflexivity]. }
    assert (Np : SFnum (Prim2SF (a + b + e)) = true).
    { rewrite FloatAxioms.add_spec. apply SF64add_num_r; [|exact Fe].
      rewrite FloatAxioms.add_spec. apply SF64add_num_l; [exact Fa|exact Nb]. }
    destruct (a + b + e <? 0) eqn:L.
    + rewrite leb_zero_SF. exact N8.
    + rewrite leb_zero_SF. apply ltb_zero_SF; assumption.
Qed.

(** Without a number for the historical average there is none for the
    prediction: not-a-number passes the guard [prediction < 0]. *)
Example prediction_of_not_a_number :
  is_nan (handlers.calculatePrediction 10 5 nan "week") = true
  /\ (0 <=? handlers.calculatePrediction 10 5 nan "week") = false.
Proof. split; reflexivity. Qed.

(** The clamped example: current 10, previous 1000, historical 0. *)
Lemma prediction_is_nonnegative_example :
  (handlers.calculatePrediction 10 1000 0 "week" <? 0) = false
  /\ (0 <=? 10 * 0.8) = true
  /\ (is_finite 10 = true -> is_finite 0 = true ->
      (0 <=? handlers.calculatePrediction 10 1000 0 "week") = true).
Proof.
  apply (prediction_is_nonnegative 10 1000 0 "week"). reflexivity.
Defined.

#[local] Close Scope float_scope.

(** ** The written form of a date *)

Lemma fourDigits_all : forall_below (Z.to_nat 10000) fourDigits_ok = true.
Proof. vm_compute. reflexivity. Qed.

Lemma twoDigits_all : forall_below (Z.to_nat 100) twoDigits_ok = true.
Proof. vm_compute. reflexivity. Qed.

Lemma isDigit_digitChar a :
  time.isDigit a = true -> 0 <= time.digitVal a <= 9 /\ a = digitChar (time.digitVal a).
Proof.
  destruct a as [[] [] [] [] [] [] [] []]; vm_compute; intros H;
    try discriminate H; repeat split; discriminate.
Qed.

Lemma fourDigits_spec y :
  0 <= y <= 9999 ->
  exists a b c d,
    time.appendInt y 4 = String a (String b (String c (String d EmptyString)))
    /\ time.isDigit a = true /\ time.isDigit b = true
    /\ time.isDigit c = true /\ time.isDigit d = true
    /\ ((time.digitVal a * 10 + time.digitVal b) * 10 + time.digitVal c) * 10
       + time.digitVal d = y.
Proof.
  intros Hy.
  pose proof (forall_below_spec _ _ fourDigits_all y ltac:(lia)) as H.
  unfold fourDigits_ok in H.
  destruct (time.appendInt y 4) as [|a [|b [|c [|d [|]]]]]; try discriminate H.
  rewrite !andb_true_iff, Z.eqb_eq in H.
  exists a, b, c, d. tauto.
Qed.

Lemma twoDigits_spec n :
  0 <= n <= 99 ->
  exists a b,
    time.appendInt n 2 = String a (String b EmptyString)
    /\ time.isDigit a = true /\ time.isDigit b = true
    /\ time.digitVal a * 10 + time.digitVal b = n.
Proof.
  intros Hn.
  pose proof (forall_below_spec _ _ twoDigits_all n ltac:(lia)) as H.
  unfold twoDigits_ok in H.
  destruct (time.appendInt n 2) as [|a [|b [|]]]; try discriminate H.
  rewrite !andb_true_iff, Z.eqb_eq in H.
  exists a, b. tauto.
Qed.

Lemma appendInt_four a b c d :
  time.isDigit a = true -> time.isDigit b = true ->
  time.isDigit c = true -> time.isDigit d = true ->
  time.appendInt
    (((time.digitVal a * 10 + time.digitVal b) * 10 + time.digitVal c) * 10
     + time.digitVal d) 4
  = String a (String b (String c (String d EmptyString))).
Proof.
  intros Ha Hb Hc Hd.
  destruct (isDigit_digitChar a Ha) as [Ra Ea], (isDigit_digitChar b Hb) as [Rb Eb],
    (isDigit_digitChar c Hc) as [Rc Ec], (isDigit_digitChar d Hd) as [Rd Ed].
  destruct (fourDigits_spec
              (((time.digitVal a * 10 + time.digitVal b) * 10 + time.digitVal c) * 10
               + time.digitVal d) ltac:(lia))
    as (a' & b' & c' & d' & -> & Ha' & Hb' & Hc' & Hd' & V).
  destruct (isDigit_digitChar a' Ha') as [Ra' Ea'], (isDigit_digitChar b' Hb') as [Rb' Eb'],
    (isDigit_digitChar c' Hc') as [Rc' Ec'], (isDigit_digitChar d' Hd') as [Rd' Ed'].
  rewrite Ea, Eb, Ec, Ed, Ea', Eb', Ec', Ed'.
  replace (time.digitVal a') with (time.digitVal a) by lia.
  replace (time.digitVal b') with (time.digitVal b) by lia.
  replace (time.digitVal c') with (time.digitVal c) by lia.
  replace (time.digitVal d') with (time.digitVal d) by lia.
  reflexivity.
Qed.

Lemma appendInt_two a b :
  time.isDigit a = true -> time.isDigit b = true ->
  time.appendInt (time.digitVal a * 10 + time.digitVal b) 2
  = String a (String b EmptyString).
Proof.
  intros Ha Hb.
  destruct (isDigit_digitChar a Ha) as [Ra Ea], (isDigit_digitChar b Hb) as [Rb Eb].
  destruct (twoDigits_spec (time.digitVal a * 10 + time.digitVal b) ltac:(lia))
    as (a' & b' & -> & Ha' & Hb' & V).
  destruct (isDigit_digitChar a' Ha') as [Ra' Ea'], (isDigit_digitChar b' Hb') as [Rb' Eb'].
  rewrite Ea, Eb, Ea', Eb'.
  replace (time.digitVal a') with (time.digitVal a) by lia.
  replace (time.digitVal b') with (time.digitVal b) by lia.
  reflexivity.
Qed.

Lemma daysIn_le_31 m y : 1 <= m <= 12 -> time.daysIn m y <= 31.
Proof.
  intros Hm. rewrite daysIn_monthLen.
  destruct (month_facts (time.isLeap y) m Hm) as (H & _). lia.
Qed.

(** The shape of a value that parses. *)
Lemma Parse_inv value date :
  time.Parse value = (date, None) ->
  exists y1 y2 y3 y4 m1 m2 d1 d2,
    value = String y1 (String y2 (String y3 (String y4 (String "-"
              (String m1 (String m2 (String "-"
                 (String d1 (String d2 EmptyString)))))))))
    /\ (time.isDigit y1 = true /\ time.isDigit y2 = true
        /\ time.isDigit y3 = true /\ time.isDigit y4 = true)
    /\ (time.isDigit m1 = true /\ time.isDigit m2 = true)
    /\ (time.isDigit d1 = true /\ time.isDigit d2 = true)
    /\ 1 <= time.digitVal m1 * 10 + time.digitVal m2 <= 12
    /\ 1 <= time.digitVal d1 * 10 + time.digitVal d2
       <= time.daysIn (time.digitVal m1 * 10 + time.digitVal m2)
            (((time.digitVal y1 * 10 + time.digitVal y2) * 10 + time.digitVal y3) * 10
             + time.digitVal y4)
    /\ date = time.Date
                (((time.digitVal y1 * 10 + time.digitVal y2) * 10 + time.digitVal y3) * 10
                 + time.digitVal y4)
                (time.digitVal m1 * 10 + time.digitVal m2)
                (time.digitVal d1 * 10 + time.digitVal d2) 0 0 0.
Proof.
  intros H.
  destruct value as [|y1 [|y2 [|y3 [|y4 rest]]]]; try discriminate H.
  unfold time.Parse in H.
  destruct (time.isDigit y1 && time.isDigit y2 && time.isDigit y3 && time.isDigit y4)
    eqn:DY; [|discriminate H].
  destruct rest as [|c1 rest]; [discriminate H|]. cbn [time.skipDash] in H.
  destruct (Ascii.eqb_spec c1 "-") as [->|]; [|discriminate H].
  destruct rest as [|m1 [|m2 rest]]; try discriminate H. cbn [time.getnum] in H.
  destruct (time.isDigit m1 && time.isDigit m2) eqn:DM; [|discriminate H].
  destruct ((_ <=? 0) || (12 <? _)) eqn:RM in H; [discriminate H|].
  destruct rest as [|c2 rest]; [discriminate H|]. cbn [time.skipDash] in H.
  destruct (Ascii.eqb_spec c2 "-") as [->|]; [|discriminate H].
  destruct rest as [|d1 [|d2 rest]]; try discriminate H. cbn [time.getnum] in H.
  destruct (time.isDigit d1 && time.isDigit d2) eqn:DD; [|discriminate H].
  destruct rest; [|discriminate H].
  destruct ((_ <? 1) || (_ <? _)) eqn:RD in H; [discriminate H|].
  injection H as <-.
  rewrite !andb_true_iff in DY. rewrite andb_true_iff in DM, DD.
  apply orb_false_iff in RM as [RM1 RM2], RD as [RD1 RD2].
  apply Z.leb_gt in RM1. apply Z.ltb_ge in RM2, RD1, RD2.
  exists y1, y2, y3, y4, m1, m2, d1, d2.
  repeat split; first [tauto | lia].
Qed.

(** X1. The date a request without a [date] is computed for always
    parses: for a clock in the years 0 to 9999, formatting it and parsing
    the result gives the midnight that starts the clock's day. *)
Theorem formatted_clock_parses_to_its_day (t : time.Time) :
  0 <= time.Year t <= 9999 ->
  time.Parse (time.Format t) = (midnight t, None).
Proof.
  unfold time.Year, time.Format. intros Hy.
  destruct (time.absDate t) as [[y m] d] eqn:E. cbn [fst snd] in Hy.
  apply absDate_spec in E. destruct E as (Hm & Hd & E).
  pose proof (daysIn_le_31 m y Hm) as H31.
  destruct (fourDigits_spec y Hy) as (a & b & c & e & -> & Ha & Hb & Hc & He & Vy).
  destruct (twoDigits_spec m ltac:(lia)) as (m1 & m2 & -> & Hm1 & Hm2 & Vm).
  destruct (twoDigits_spec d ltac:(lia)) as (d1 & d2 & -> & Hd1 & Hd2 & Vd).
  cbv [String.append]. unfold time.Parse.
  rewrite Ha, Hb, Hc, He. cbn [andb time.skipDash Ascii.eqb Bool.eqb].
  cbn [time.getnum]. rewrite Hm1, Hm2. cbn [andb]. rewrite Vy, Vm.
  destruct (Z.leb_spec m 0); [lia|]. destruct (Z.ltb_spec 12 m); [lia|].
  cbn [orb time.skipDash Ascii.eqb Bool.eqb time.getnum].
  rewrite Hd1, Hd2. cbn [andb]. rewrite Vd.
  destruct (Z.ltb_spec d 1); [lia|].
  destruct (Z.ltb_spec (time.daysIn m y) d); [lia|].
  cbn [orb]. rewrite E. reflexivity.
Qed.

(** The clock of the example, 2024-01-20 09:30, is written and read back
    as the start of its day. *)
Lemma clock_of_the_example_parses :
  time.Parse (time.Format (time.Date 2024 1 20 9 30 0))
  = (midnight (time.Date 2024 1 20 9 30 0), None).
Proof.
  apply (formatted_clock_parses_to_its_day (time.Date 2024 1 20 9 30 0)).
  vm_compute. split; discriminate.
Defined.

(** X2. A date that parses is written the one way [Format] writes it:
    formatting the parsed date gives the value back. *)
Theorem parsed_date_formats_to_its_value (value : string) (date : time.Time) :
  time.Parse value = (date, None) -> time.Format date = value.
Proof.
  intros H.
  destruct (Parse_inv value date H)
    as (y1 & y2 & y3 & y4 & m1 & m2 & d1 & d2 & -> & (Y1 & Y2 & Y3 & Y4)
        & (M1 & M2) & (D1 & D2) & Hm & Hd & ->).
  unfold time.Format. rewrite absDate_Date; [|exact Hm|exact Hd|].
  - rewrite appendInt_four, !appendInt_two by assumption. reflexivity.
  - unfold clockSeconds. unfold_consts. lia.
Qed.

(** The leap day of 2024 is written as it was read. *)
Lemma leap_day_formats_to_its_value :
  time.Format (time.Date 2024 2 29 0 0 0) = "2024-02-29"%string.
Proof.
  apply (parsed_date_formats_to_its_value "2024-02-29" (time.Date 2024 2 29 0 0 0)).
  vm_compute. reflexivity.
Defined.

(** ** The dates of a range *)

Lemma weekStart_spec date :
  midnight date - days (isoWeekday date - 1) = weekStart date.
Proof.
  unfold weekStart, isoWeekday, time.Sunday, midnight, days. rewrite Weekday_day.
  destruct (Z.eqb_spec ((date / time.secondsPerDay + 1) mod 7) 0) as [E|E];
    unfold_consts; Z.div_mod_to_equations; lia.
Qed.

Lemma dateRanges_week_start date :
  handlers.dateRanges "week" date
  = Some (weekStart date, weekStart date + days 7, weekStart date - days 7,
          weekStart date).
Proof. rewrite <- weekStart_spec. apply dateRanges_week. Qed.

Lemma absDate_in_month y m t :
  1 <= m <= 12 ->
  monthStart y m <= t < monthStart y m + days (time.daysIn m y) ->
  time.Year t = y /\ time.Month t = m.
Proof.
  intros Hm Ht.
  remember (t - monthStart y m) as r eqn:Er.
  assert (E : t = time.Date y m (1 + r / time.secondsPerDay) 0 0
                    (r mod time.secondsPerDay)).
  { rewrite Date_clock, Date_day_shift. unfold clockSeconds.
    fold (monthStart y m).
    pose proof (Z.div_mod r time.secondsPerDay ltac:(unfold_consts; lia)). lia. }
  unfold time.Year, time.Month. rewrite E.
  rewrite absDate_Date; [split; reflexivity|exact Hm| |].
  - unfold days in *. unfold_consts. Z.div_mod_to_equations. nia.
  - unfold clockSeconds. unfold_consts. Z.div_mod_to_equations. lia.
Qed.

Lemma monthStart_succ y m :
  1 <= m <= 12 -> monthStart y (m + 1) = monthStart y m + days (time.daysIn m y).
Proof.
  intros Hm. rewrite <- monthStart_next by exact Hm.
  symmetry. apply monthStart_succMonth, Hm.
Qed.

Lemma dateRanges_month_of y m t :
  1 <= m <= 12 ->
  monthStart y m <= t < monthStart y (m + 1) ->
  handlers.dateRanges "month" t
  = Some (monthStart y m, monthStart y (m + 1), monthStart y (m - 1), monthStart y m).
Proof.
  intros Hm Ht. rewrite monthStart_succ in Ht by exact Hm.
  destruct (absDate_in_month y m t Hm Ht) as [Ey Em].
  rewrite dateRanges_month, Ey, Em. reflexivity.
Qed.

Lemma Month_range date : 1 <= time.Month date <= 12.
Proof.
  unfold time.Month. destruct (time.absDate date) as [[y m] d] eqn:E.
  apply absDate_spec in E. cbn [fst snd]. tauto.
Qed.

(** X3. The ranges depend only on the day, week or month the reference
    date lies in: the current range holds the reference date, every date
    in it has the same ranges, and every date in the previous range has
    that range as its current one, followed by the current range of the
    reference date. *)
Theorem ranges_are_those_of_the_enclosing_range
    (period : string) (date date' : time.Time)
    (startDate endDate prevStartDate prevEndDate : time.Time) :
  handlers.dateRanges period date
  = Some (startDate, endDate, prevStartDate, prevEndDate) ->
  startDate <= date < endDate
  /\ (startDate <= date' < endDate ->
      handlers.dateRanges period date'
      = Some (startDate, endDate, prevStartDate, prevEndDate))
  /\ (prevStartDate <= date' < prevEndDate ->
      exists before,
        handlers.dateRanges period date'
        = Some (prevStartDate, prevEndDate, before, prevStartDate)
        /\ prevEndDate = startDate).
Proof.
  intros H.
  destruct (String.eqb_spec period "day") as [->|Nd];
    [|destruct (String.eqb_spec period "week") as [->|Nw];
      [|destruct (String.eqb_spec period "month") as [->|Nm]]].
  - rewrite dateRanges_day in H. injection H as <- <- <- <-.
    split; [|split].
    + unfold midnight, days. unfold_consts. Z.div_mod_to_equations. lia.
    + intros Hd. rewrite dateRanges_day.
      replace (midnight date') with (midnight date); [reflexivity|].
      unfold midnight, days in *. unfold_consts. Z.div_mod_to_equations. lia.
    + intros Hd. exists (midnight date - days 1 - days 1).
      split; [|reflexivity]. rewrite dateRanges_day.
      replace (midnight date') with (midnight date - days 1).
      * repeat f_equal. unfold days; lia.
      * unfold midnight, days in *. unfold_consts. Z.div_mod_to_equations. lia.
  - rewrite dateRanges_week_start in H. injection H as <- <- <- <-.
    split; [|split].
    + unfold weekStart, days. unfold_consts. Z.div_mod_to_equations. lia.
    + intros Hd. rewrite dateRanges_week_start.
      replace (weekStart date') with (weekStart date); [reflexivity|].
      unfold weekStart, days in *. unfold_consts. Z.div_mod_to_equations. lia.
    + intros Hd. exists (weekStart date - days 7 - days 7).
      split; [|reflexivity]. rewrite dateRanges_week_start.
      replace (weekStart date') with (weekStart date - days 7).
      * repeat f_equal. unfold days; lia.
      * unfold weekStart, days in *. unfold_consts. Z.div_mod_to_equations. lia.
  - rewrite dateRanges_month in H. injection H as <- <- <- <-.
    pose proof (Month_range date) as Hm.
    set (y := time.Year date) in *. set (m := time.Month date) in *.
    split; [|split].
    + rewrite monthStart_succ by exact Hm. apply monthStart_le_date.
    + intros Hd. apply dateRanges_month_of; assumption.
    + intros Hd.
      destruct (monthStart_predMonth y m Hm) as (Ep & Hp & Es).
      set (y' := fst (predMonth y m)) in *. set (m' := snd (predMonth y m)) in *.
      destruct (monthStart_succMonth y' m' Hp) as (En & _).
      rewrite Es in En. cbn [fst snd] in En.
      exists (monthStart y' (m' - 1)). split; [|reflexivity].
      rewrite <- Ep in *. rewrite En in *.
      apply dateRanges_month_of; [exact Hp|exact Hd].
  - exfalso. unfold handlers.dateRanges in H.
    apply String.eqb_neq in Nd, Nw, Nm. rewrite Nd, Nw, Nm in H. discriminate.
Qed.

(** The ranges of 2024-03-15 by month, and 2024-02-29 in the range before
    them. *)
Lemma ranges_around_march_2024 :
  time.Date 2024 3 1 0 0 0 <= time.Date 2024 3 15 12 0 0 < time.Date 2024 4 1 0 0 0
  /\ (time.Date 2024 3 1 0 0 0 <= time.Date 2024 2 29 23 59 59
      < time.Date 2024 4 1 0 0 0 ->
      handlers.dateRanges "month" (time.Date 2024 2 29 23 59 59)
      = Some (time.Date 2024 3 1 0 0 0, time.Date 2024 4 1 0 0 0,
              time.Date 2024 2 1 0 0 0, time.Date 2024 3 1 0 0 0))
  /\ (time.Date 2024 2 1 0 0 0 <= time.Date 2024 2 29 23 59 59
      < time.Date 2024 3 1 0 0 0 ->
      exists before,
        handlers.dateRanges "month" (time.Date 2024 2 29 23 59 59)
        = Some (time.Date 2024 2 1 0 0 0, time.Date 2024 3 1 0 0 0, before,
                time.Date 2024 2 1 0 0 0)
        /\ time.Date 2024 3 1 0 0 0 = time.Date 2024 3 1 0 0 0).
Proof.
  apply (ranges_are_those_of_the_enclosing_range "month"
           (time.Date 2024 3 15 12 0 0) (time.Date 2024 2 29 23 59 59)
           (time.Date 2024 3 1 0 0 0) (time.Date 2024 4 1 0 0 0)
           (time.Date 2024 2 1 0 0 0) (time.Date 2024 3 1 0 0 0)).
  vm_compute. reflexivity.
Defined.

(** ** The trends, from the results of the statements *)

Lemma eval_current d userID startDate endDate :
  sql.eval d (sql.CurrentQuery userID startDate endDate)
  = map rowOf (sql.orderByAmountDesc (currentGroups d userID startDate endDate)).
Proof. reflexivity. Qed.

Lemma trendsLoop_rows userID period (prevSpending : gmap Z float) l trends w :
  fst (handlers.trendsLoop userID period prevSpending (map rowOf l) trends w)
  = trends
    ++ map (fun r => fst (handlers.trendOf userID period prevSpending
                            (fst (fst r)) (snd (fst r)) (snd r) w)) l.
Proof.
  revert trends. induction l as [|[[id name] amount] rest IH]; intros trends.
  - cbn [map handlers.trendsLoop]. monad. cbn [fst]. rewrite app_nil_r. reflexivity.
  - cbn [map].
    rewrite (trendsLoop_step userID period prevSpending (rowOf (id, name, amount))
               (map rowOf rest) trends w id name amount eq_refl).
    rewrite IH, <- app_assoc. reflexivity.
Qed.

(** The rows the loop reads of the current-period statement are the
    first of its groups, in their order: all of them when the statement
    runs to its end. *)
Lemma Query_current d userID startDate endDate :
  exists k,
    fst (sql.Query d (sql.CurrentQuery userID startDate endDate))
    = map rowOf
        (firstn k (sql.orderByAmountDesc (currentGroups d userID startDate endDate))).
Proof.
  unfold sql.Query. rewrite eval_current.
  destruct (sql.failing d _) as [[|]|n]; cbn [fst].
  - exists 0%nat. reflexivity.
  - exists (length (sql.orderByAmountDesc (currentGroups d userID startDate endDate))).
    rewrite firstn_all. reflexivity.
  - exists n. apply firstn_map.
Qed.

(** The trends of a computation: none, or one for each row read of the
    current-period statement, in the order of the result. *)
Lemma trends_shape userID period dateStr w :
  fst (fst (handlers.calculateSpendingTrends userID period dateStr w)) = []
  \/ exists startDate endDate (prevSpending : gmap Z float) k,
       fst (fst (handlers.calculateSpendingTrends userID period dateStr w))
       = map (fun r => fst (handlers.trendOf userID period prevSpending
                              (fst (fst r)) (snd (fst r)) (snd r) w))
           (firstn k
              (sql.orderByAmountDesc
                 (currentGroups (handlers.db w) userID startDate endDate))).
Proof.
  rewrite calculateSpendingTrends_run. cbn [fst].
  destruct (snd (time.Parse dateStr)); [left; reflexivity|].
  destruct (handlers.dateRanges period _) as [[[[s e] ps] pe]|];
    [|left; reflexivity].
  cbv zeta.
  destruct (Query_current (handlers.db w) userID s e) as [k Hk].
  destruct (snd (sql.Query (handlers.db w) (sql.CurrentQuery userID s e)));
    [left; reflexivity|].
  destruct (snd (sql.Query (handlers.db w) (sql.PrevQuery userID ps pe)));
    [left; reflexivity|].
  right. exists s, e. eexists. exists k. cbn [fst].
  rewrite Hk, trendsLoop_rows. reflexivity.
Qed.

Lemma In_firstn {A : Type} (x : A) k l : In x (firstn k l) -> In x l.
Proof.
  revert l. induction k as [|k IH]; intros [|y l]; cbn; try tauto.
  intros [H|H]; [left; exact H|right; apply IH, H].
Qed.

Lemma NoDup_firstn {A : Type} k (l : list A) :
  List.NoDup l -> List.NoDup (firstn k l).
Proof.
  revert l. induction k as [|k IH]; intros l ND; [constructor|].
  destruct ND as [|x l Hn ND]; [constructor|]. cbn [firstn].
  constructor; [|apply IH, ND].
  intros H. apply Hn, (In_firstn _ k), H.
Qed.

Lemma Sorted_firstn {A : Type} (R : A -> A -> Prop) k (l : list A) :
  Sorted R l -> Sorted R (firstn k l).
Proof.
  revert l. induction k as [|k IH]; intros l S; [constructor|].
  destruct S as [|x l S Hd]; [constructor|]. cbn [firstn].
  constructor; [apply IH, S|].
  destruct Hd as [|y l' Hxy]; [destruct k; constructor|].
  destruct k; constructor. exact Hxy.
Qed.

Lemma calculateSpendingTrends_ok userID period dateStr w date s e ps pe :
  time.Parse dateStr = (date, None) ->
  handlers.dateRanges period date = Some (s, e, ps, pe) ->
  sql.failing (handlers.db w) (sql.CurrentQuery userID s e) = false ->
  sql.failing (handlers.db w) (sql.PrevQuery userID ps pe) = false ->
  fst (handlers.calculateSpendingTrends userID period dateStr w)
  = (map (fun r => fst (handlers.trendOf userID period
                          (prevSpendingOf (handlers.db w) userID ps pe)
                          (fst (fst r)) (snd (fst r)) (snd r) w))
       (sql.orderByAmountDesc (currentGroups (handlers.db w) userID s e)), None).
Proof.
  intros HP HR FC FP. rewrite calculateSpendingTrends_run, HP. cbn [fst snd].
  rewrite HR. cbv zeta. unfold sql.Query. rewrite FC, FP. cbn [fst snd].
  rewrite eval_current, trendsLoop_rows. reflexivity.
Qed.

Lemma ltb_asym (x y : float) : PrimFloat.ltb x y = true -> PrimFloat.ltb y x = false.
Proof.
  rewrite !FloatAxioms.ltb_spec. unfold SFltb.
  destruct (Prim2SF x) as [[]|[]| |[] m1 e1], (Prim2SF y) as [[]|[]| |[] m2 e2];
    cbn; try congruence.
  - rewrite (Z.compare_antisym e1 e2).
    destruct (e1 ?= e2); cbn; try congruence.
    change (PosDef.Pos.compare_cont Eq m2 m1)
      with (Pos.compare_cont (CompOpp Eq) m2 m1).
    rewrite <- Pos.compare_cont_antisym.
    destruct (Pos.compare_cont Eq m1 m2); cbn; congruence.
  - rewrite (Z.compare_antisym e1 e2).
    destruct (e1 ?= e2); cbn; try congruence.
    change (PosDef.Pos.compare_cont Eq m2 m1)
      with (Pos.compare_cont (CompOpp Eq) m2 m1).
    rewrite <- Pos.compare_cont_antisym.
    destruct (Pos.compare_cont Eq m1 m2); cbn; congruence.
Qed.

Lemma insertDesc_perm x l : Permutation (sql.insertDesc x l) (x :: l).
Proof.
  induction l as [|y rest IH]; cbn [sql.insertDesc]; [reflexivity|].
  destruct (PrimFloat.ltb (snd y) (snd x)); [reflexivity|].
  rewrite IH. apply perm_swap.
Qed.

Lemma orderByAmountDesc_perm l : Permutation (sql.orderByAmountDesc l) l.
Proof.
  unfold sql.orderByAmountDesc.
  enough (forall acc, Permutation (fold_left (fun sorted x => sql.insertDesc x sorted) l acc)
                        (acc ++ l)) as H by apply (H []).
  induction l as [|x rest IH]; intros acc; cbn [fold_left].
  - rewrite app_nil_r. reflexivity.
  - rewrite IH, insertDesc_perm. apply Permutation_middle.
Qed.

Lemma insertDesc_sorted x l :
  Sorted descendingStep l -> Sorted descendingStep (sql.insertDesc x l).
Proof.
  induction l as [|y rest IH]; intros S; cbn [sql.insertDesc].
  - repeat constructor.
  - destruct (PrimFloat.ltb (snd y) (snd x)) eqn:E.
    + constructor; [exact S|]. constructor. unfold descendingStep.
      apply ltb_asym, E.
    + inversion S as [|? ? S' Hd]; subst. constructor; [apply IH, S'|].
      destruct rest as [|z rest']; cbn [sql.insertDesc].
      * constructor. exact E.
      * destruct (PrimFloat.ltb (snd z) (snd x)).
        -- constructor. exact E.
        -- constructor. inversion Hd; subst. assumption.
Qed.

Lemma orderByAmountDesc_sorted l : Sorted descendingStep (sql.orderByAmountDesc l).
Proof.
  unfold sql.orderByAmountDesc.
  enough (forall acc, Sorted descendingStep acc ->
            Sorted descendingStep
              (fold_left (fun sorted x => sql.insertDesc x sorted) l acc)) as H
    by (apply H; constructor).
  induction l as [|x rest IH]; intros acc S; cbn [fold_left]; [exact S|].
  apply IH, insertDesc_sorted, S.
Qed.

Lemma NoDup_distinct {K : Type} (eqb : K -> K -> bool) ks :
  (forall a, eqb a a = true) -> List.NoDup (sql.distinct eqb ks).
Proof.
  intros R. induction ks as [|k rest IH]; cbn [sql.distinct]; constructor.
  - rewrite filter_In, R. cbn. intros [_ ?]. discriminate.
  - apply List.NoDup_filter, IH.
Qed.

Lemma In_currentGroups d userID s e r :
  In r (currentGroups d userID s e) ->
  exists c, In c (sql.categories d)
            /\ expenseCategoryOf userID c = true
            /\ fst r = (models.cat_ID c, models.cat_Name c).
Proof.
  unfold currentGroups, sql.groupByIdName. rewrite in_map_iff.
  intros (k & <- & Hk). apply -> (In_distinct _ sameKey_eq) in Hk.
  apply in_map_iff in Hk as ([c ot] & <- & Hr).
  apply filter_In in Hr as [Hj Hw]. apply -> In_leftJoin in Hj. destruct Hj as [Hc _].
  exists c. repeat split; assumption.
Qed.

Lemma currentGroups_NoDup d userID s e :
  List.NoDup (map fst (currentGroups d userID s e)).
Proof.
  unfold currentGroups, sql.groupByIdName. rewrite map_map. cbn [fst].
  rewrite map_id. apply NoDup_distinct.
  intros k. apply sameKey_eq. reflexivity.
Qed.

Lemma Sorted_map {A B : Type} (R : A -> A -> Prop) (S : B -> B -> Prop) (f : A -> B) l :
  (forall a b, R a b -> S (f a) (f b)) -> Sorted R l -> Sorted S (map f l).
Proof.
  intros H. induction 1 as [|a l Sl IH Hd]; cbn [map]; constructor; [exact IH|].
  destruct Hd; cbn [map]; constructor. apply H. assumption.
Qed.

(** X4. Every trend that is reported is about an expense category of the
    user who asked: its id and name are those of a category of the store
    that belongs to that user and has type expense. *)
Theorem reported_trends_are_expense_categories_of_the_user
    (userID : Z) (period dateStr : string) (w : handlers.World) :
  Forall
    (fun trend =>
       exists c, In c (sql.categories (handlers.db w))
                 /\ models.cat_UserID c = userID
                 /\ models.cat_Type c = "expense"%string
                 /\ models.CategoryID trend = models.cat_ID c
                 /\ models.CategoryName trend = models.cat_Name c)
    (fst (fst (handlers.calculateSpendingTrends userID period dateStr w))).
Proof.
  destruct (trends_shape userID period dateStr w) as [->|(s & e & prev & k & ->)];
    [constructor|].
  apply List.Forall_forall. intros trend Hin.
  apply in_map_iff in Hin as (r & <- & Hr).
  apply In_firstn in Hr. apply -> In_orderByAmountDesc in Hr.
  destruct (In_currentGroups _ _ _ _ _ Hr) as (c & Hc & He & Hk).
  unfold expenseCategoryOf in He. apply andb_true_iff in He as [Hu Ht].
  apply Z.eqb_eq in Hu. apply String.eqb_eq in Ht.
  exists c. rewrite trendOf_run. cbn [fst models.CategoryID models.CategoryName].
  rewrite Hk. repeat split; assumption.
Qed.

(** X5. No category is reported twice: the pairs of category id and
    category name of the trends of one answer are pairwise different. *)
Theorem reported_categories_are_distinct
    (userID : Z) (period dateStr : string) (w : handlers.World) :
  List.NoDup
    (map trendKey
       (fst (fst (handlers.calculateSpendingTrends userID period dateStr w)))).
Proof.
  destruct (trends_shape userID period dateStr w) as [->|(s & e & prev & k & ->)];
    [constructor|].
  rewrite map_map.
  rewrite (map_ext _ fst).
  - rewrite <- firstn_map. apply NoDup_firstn.
    apply (Permutation_NoDup (l := map fst (currentGroups (handlers.db w) userID s e))).
    + apply Permutation_map. symmetry. apply orderByAmountDesc_perm.
    + apply currentGroups_NoDup.
  - intros [[id name] amount]. unfold trendKey. rewrite trendOf_run. reflexivity.
Qed.

(** X6. The trends come in the order of the current-period statement, by
    decreasing current spend: no trend is followed directly by one with a
    larger current spend. *)
Theorem trends_are_ordered_by_current_spend
    (userID : Z) (period dateStr : string) (w : handlers.World) :
  Sorted notBelowNext
    (fst (fst (handlers.calculateSpendingTrends userID period dateStr w))).
Proof.
  destruct (trends_shape userID period dateStr w) as [->|(s & e & prev & k & ->)];
    [constructor|].
  apply (Sorted_map descendingStep);
    [|apply Sorted_firstn, orderByAmountDesc_sorted].
  intros a b H. unfold notBelowNext. rewrite !trendOf_run. exact H.
Qed.

(** ** The trend of one category *)

Lemma leftJoin_joinedRows d userID s e :
  sql.leftJoin d userID s e = flat_map (joinedRows d userID s e) (sql.categories d).
Proof. reflexivity. Qed.

Lemma joinedRows_fst d userID s e c r :
  In r (joinedRows d userID s e c) -> fst r = c.
Proof.
  unfold joinedRows.
  destruct (List.filter _ _) as [|t ts].
  - intros [<-|[]]. reflexivity.
  - rewrite in_map_iff. intros (t' & <- & _). reflexivity.
Qed.

Lemma joinedRows_nonempty d userID s e c : joinedRows d userID s e c <> [].
Proof. unfold joinedRows. destruct (List.filter _ _); discriminate. Qed.

Lemma amounts_joinedRows d userID s e c :
  sql.amounts (joinedRows d userID s e c)
  = map models.tx_Amount
      (List.filter (sql.joins userID s e c) (sql.transactions d)).
Proof.
  unfold joinedRows.
  destruct (List.filter _ _) as [|t ts]; [reflexivity|].
  generalize (t :: ts). intros l. induction l as [|x l IH]; [reflexivity|].
  cbn. f_equal. exact IH.
Qed.

Lemma filter_all {A : Type} (f : A -> bool) (l : list A) :
  (forall x, In x l -> f x = true) -> List.filter f l = l.
Proof.
  induction l as [|x l IH]; intros H; [reflexivity|].
  cbn. rewrite (H x (or_introl eq_refl)). f_equal. apply IH.
  intros y Hy. apply H. right. exact Hy.
Qed.

(** Filtering the join on a property of the category keeps the rows of
    the categories that have it. *)
Lemma filter_joined d userID s e (P : models.Category -> bool) cs :
  List.filter (fun r => P (fst r)) (flat_map (joinedRows d userID s e) cs)
  = flat_map (joinedRows d userID s e) (List.filter P cs).
Proof.
  induction cs as [|c cs IH]; [reflexivity|].
  cbn [flat_map List.filter]. rewrite List.filter_app, IH.
  destruct (P c) eqn:E.
  - cbn [flat_map]. f_equal. apply filter_all.
    intros r Hr. rewrite (joinedRows_fst _ _ _ _ _ _ Hr). exact E.
  - rewrite filter_none; [reflexivity|].
    intros r Hr. rewrite (joinedRows_fst _ _ _ _ _ _ Hr). exact E.
Qed.

Lemma filter_only {A : Type} (P : A -> bool) (c : A) (cs : list A) :
  List.NoDup cs -> In c cs -> P c = true ->
  (forall c', In c' cs -> P c' = true -> c' = c) ->
  List.filter P cs = [c].
Proof.
  induction cs as [|c0 cs IH]; intros ND HI HP HU; [destruct HI|].
  inversion ND as [|? ? Hn ND']; subst. cbn [List.filter].
  destruct HI as [->|HI].
  - rewrite HP. f_equal. apply filter_none. intros x Hx.
    destruct (P x) eqn:E; [|reflexivity].
    exfalso. apply Hn. rewrite <- (HU x (or_intror Hx) E). exact Hx.
  - destruct (P c0) eqn:E.
    + exfalso. apply Hn. rewrite (HU c0 (or_introl eq_refl) E). exact HI.
    + apply IH; auto. intros c' Hc'. apply HU. right. exact Hc'.
Qed.

Lemma NoDup_map_inj {A B : Type} (f : A -> B) (l : list A) a b :
  List.NoDup (map f l) -> In a l -> In b l -> f a = f b -> a = b.
Proof.
  induction l as [|x l IH]; intros ND Ha Hb E; [destruct Ha|].
  cbn [map] in ND. inversion ND as [|? ? Hn ND']; subst.
  destruct Ha as [->|Ha], Hb as [->|Hb]; auto.
  - exfalso. apply Hn. rewrite E. apply in_map, Hb.
  - exfalso. apply Hn. rewrite <- E. apply in_map, Ha.
Qed.

Lemma NoDup_of_map {A B : Type} (f : A -> B) (l : list A) :
  List.NoDup (map f l) -> List.NoDup l.
Proof.
  induction l as [|x l IH]; intros ND; [constructor|].
  cbn [map] in ND. inversion ND as [|? ? Hn ND']; subst.
  constructor; [|apply IH, ND'].
  intros Hx. apply Hn, in_map, Hx.
Qed.

(** With unique category ids, the rows of the filtered join that fall into
    the group of an expense category of the user are the rows that category
    brought into the join. *)
Lemma rows_of_category d userID s e c (Q : models.Category -> bool) :
  List.NoDup (map models.cat_ID (sql.categories d)) ->
  In c (sql.categories d) ->
  expenseCategoryOf userID c = true ->
  Q c = true ->
  (forall c', Q c' = true -> models.cat_ID c' = models.cat_ID c) ->
  List.filter (fun r => Q (fst r))
    (List.filter (sql.whereExpenseOf userID) (sql.leftJoin d userID s e))
  = joinedRows d userID s e c.
Proof.
  intros ND HI HE HQ HU.
  change (sql.whereExpenseOf userID) with (fun r : models.Category * option models.Transaction =>
                                             expenseCategoryOf userID (fst r)).
  rewrite leftJoin_joinedRows, !filter_joined.
  rewrite (filter_only Q c).
  - cbn [flat_map]. apply app_nil_r.
  - apply List.NoDup_filter, (NoDup_of_map models.cat_ID), ND.
  - apply filter_In. split; assumption.
  - exact HQ.
  - intros c' Hc' HQ'. apply filter_In in Hc' as [Hc' _].
    apply (NoDup_map_inj models.cat_ID (sql.categories d)); auto.
Qed.

Lemma in_filtered_join d userID s e c :
  In c (sql.categories d) ->
  expenseCategoryOf userID c = true ->
  exists ot, In (c, ot) (List.filter (sql.whereExpenseOf userID)
                           (sql.leftJoin d userID s e)).
Proof.
  intros HI HE.
  destruct (joinedRows d userID s e c) as [|[c' ot] rest] eqn:E;
    [destruct (joinedRows_nonempty _ _ _ _ _ E)|].
  assert (In (c', ot) (joinedRows d userID s e c)) as Hin by (rewrite E; left; reflexivity).
  pose proof (joinedRows_fst _ _ _ _ _ _ Hin) as F. cbn in F. subst c'.
  exists ot. apply filter_In. split.
  - rewrite leftJoin_joinedRows. apply in_flat_map. exists c. split; assumption.
  - exact HE.
Qed.

Lemma current_group_of_category d userID s e c :
  List.NoDup (map models.cat_ID (sql.categories d)) ->
  In c (sql.categories d) ->
  expenseCategoryOf userID c = true ->
  In (models.cat_ID c, models.cat_Name c, spentIn d userID s e c)
     (currentGroups d userID s e).
Proof.
  intros ND HI HE. unfold currentGroups, sql.groupByIdName.
  apply in_map_iff. exists (models.cat_ID c, models.cat_Name c). split.
  - f_equal. unfold spentIn. do 2 f_equal.
    rewrite (rows_of_category d userID s e c
               (fun c' => sql.sameKey (models.cat_ID c, models.cat_Name c)
                            (models.cat_ID c', models.cat_Name c'))); auto.
    + apply amounts_joinedRows.
    + apply sameKey_eq. reflexivity.
    + intros c' H. apply sameKey_eq in H. congruence.
  - apply (In_distinct _ sameKey_eq).
    destruct (in_filtered_join d userID s e c HI HE) as [ot Hot].
    apply in_map_iff. exists (c, ot). split; [reflexivity|exact Hot].
Qed.

Lemma prev_group_of_category d userID s e c :
  List.NoDup (map models.cat_ID (sql.categories d)) ->
  In c (sql.categories d) ->
  expenseCategoryOf userID c = true ->
  In (models.cat_ID c, spentIn d userID s e c) (prevGroups d userID s e).
Proof.
  intros ND HI HE. unfold prevGroups, sql.groupById.
  apply in_map_iff. exists (models.cat_ID c). split.
  - f_equal. unfold spentIn. do 2 f_equal.
    rewrite (rows_of_category d userID s e c
               (fun c' => models.cat_ID c =? models.cat_ID c')); auto.
    + apply amounts_joinedRows.
    + apply Z.eqb_refl.
    + intros c' H. apply Z.eqb_eq in H. congruence.
  - apply (In_distinct _ Z.eqb_eq).
    destruct (in_filtered_join d userID s e c HI HE) as [ot Hot].
    apply in_map_iff. exists (c, ot). split; [reflexivity|exact Hot].
Qed.

Lemma storePrev_row (m : gmap Z float) r :
  handlers.storePrev m (prevRowOf r) = <[fst r := snd r]> m.
Proof. destruct r. reflexivity. Qed.

Lemma fold_storePrev_other l (m : gmap Z float) k :
  ~ In k (map fst l) ->
  fold_left handlers.storePrev (map prevRowOf l) m !! k = m !! k.
Proof.
  revert m. induction l as [|r l IH]; intros m Hn; [reflexivity|].
  cbn [map fold_left]. rewrite storePrev_row, IH.
  - apply lookup_insert_ne. intros E. apply Hn. left. exact E.
  - intros H. apply Hn. right. exact H.
Qed.

Lemma fold_storePrev_lookup l (m : gmap Z float) k v :
  List.NoDup (map fst l) -> In (k, v) l ->
  fold_left handlers.storePrev (map prevRowOf l) m !! k = Some v.
Proof.
  revert m. induction l as [|r l IH]; intros m ND HI; [destruct HI|].
  cbn [map] in ND. inversion ND as [|? ? Hn ND']; subst.
  cbn [map fold_left]. rewrite storePrev_row.
  destruct HI as [->|HI].
  - cbn [fst snd]. rewrite fold_storePrev_other by exact Hn.
    apply lookup_insert_eq.
  - apply IH; assumption.
Qed.

Lemma prevGroups_NoDup d userID s e : List.NoDup (map fst (prevGroups d userID s e)).
Proof.
  unfold prevGroups, sql.groupById. rewrite map_map. cbn [fst]. rewrite map_id.
  apply NoDup_distinct, Z.eqb_refl.
Qed.

Lemma prevSpendingOf_groups d userID ps pe :
  prevSpendingOf d userID ps pe
  = fold_left handlers.storePrev (map prevRowOf (prevGroups d userID ps pe)) ∅.
Proof. reflexivity. Qed.

Lemma prevSpendingOf_category d userID ps pe c :
  List.NoDup (map models.cat_ID (sql.categories d)) ->
  In c (sql.categories d) ->
  expenseCategoryOf userID c = true ->
  prevSpendingOf d userID ps pe !! models.cat_ID c = Some (spentIn d userID ps pe c).
Proof.
  intros ND HI HE. rewrite prevSpendingOf_groups.
  apply fold_storePrev_lookup; [apply prevGroups_NoDup|].
  apply prev_group_of_category; assumption.
Qed.

(** X7. With unique category ids, the trend of an expense category of the
    user is computed from that category's own transactions: its current
    spend is what the user spent in the category in the current range, the
    previous amount is what they spent in it in the previous range, and the
    prediction, the direction and the change are computed from these two
    and the historical average. *)
Theorem trend_of_category_is_computed_from_its_transactions
    (w : handlers.World) (userID : Z) (period dateStr : string)
    (date startDate endDate prevStartDate prevEndDate : time.Time)
    (c : models.Category) :
  List.NoDup (map models.cat_ID (sql.categories (handlers.db w))) ->
  time.Parse dateStr = (date, None) ->
  handlers.dateRanges period date
  = Some (startDate, endDate, prevStartDate, prevEndDate) ->
  sql.failing (handlers.db w) (sql.CurrentQuery userID startDate endDate) = false ->
  sql.failing (handlers.db w) (sql.PrevQuery userID prevStartDate prevEndDate) = false ->
  In c (sql.categories (handlers.db w)) ->
  models.cat_UserID c = userID ->
  models.cat_Type c = "expense"%string ->
  let current := spentIn (handlers.db w) userID startDate endDate c in
  let previous := spentIn (handlers.db w) userID prevStartDate prevEndDate c in
  In {| models.CategoryID := models.cat_ID c;
        models.CategoryName := models.cat_Name c;
        models.CurrentSpend := current;
        models.PredictedSpend :=
          handlers.calculatePrediction current previous
            (historicalOrFallback userID (models.cat_ID c) period current w) period;
        models.TrendDirection := fst (handlers.trendDirection current previous);
        models.ChangePercent := snd (handlers.trendDirection current previous) |}
     (fst (fst (handlers.calculateSpendingTrends userID period dateStr w))).
Proof.
  intros ND HP HR FC FP HI HU HT current previous.
  assert (expenseCategoryOf userID c = true) as HE.
  { unfold expenseCategoryOf. rewrite HU, HT, Z.eqb_refl. reflexivity. }
  rewrite (calculateSpendingTrends_ok _ _ _ _ _ _ _ _ _ HP HR FC FP). cbn [fst].
  apply in_map_iff.
  exists (models.cat_ID c, models.cat_Name c, current). split.
  - rewrite trendOf_run. cbn [fst snd].
    rewrite (prevSpendingOf_category _ _ _ _ _ ND HI HE). reflexivity.
  - apply In_orderByAmountDesc, current_group_of_category; assumption.
Qed.

(** On the example store, food is reported for the week of 2024-01-15
    with 100 spent, 80 before, an average of 90, a prediction of 66 and
    a change of 25 upwards. *)
Lemma trend_of_food_in_the_example_week :
  In {| models.CategoryID := 1;
        models.CategoryName := "food";
        models.CurrentSpend := 100;
        models.PredictedSpend := 66;
        models.TrendDirection := "up";
        models.ChangePercent := 25 |}
     (fst (fst (handlers.calculateSpendingTrends 7 "week" "2024-01-15" exampleWorld))).
Proof.
  apply (trend_of_category_is_computed_from_its_transactions
           exampleWorld 7 "week" "2024-01-15"
           (time.Date 2024 1 15 0 0 0)
           (time.Date 2024 1 15 0 0 0) (time.Date 2024 1 22 0 0 0)
           (time.Date 2024 1 8 0 0 0) (time.Date 2024 1 15 0 0 0)
           {| models.cat_ID := 1; models.cat_UserID := 7;
              models.cat_Name := "food"; models.cat_Type := "expense" |}).
  - cbn. repeat (constructor; [cbn; intuition lia|]). constructor.
  - vm_compute. reflexivity.
  - vm_compute. reflexivity.
  - reflexivity.
  - reflexivity.
  - cbn. tauto.
  - reflexivity.
  - reflexivity.
Defined.

(** ** Invariants of the reported trends *)

(** X8. In every reported trend the direction agrees with the change:
    up comes with a change above 10, down with one below -10, stable with
    one that is neither, and new with a change of 0. *)
Theorem reported_direction_agrees_with_change
    (userID : Z) (period dateStr : string) (w : handlers.World) :
  Forall directionAgrees
    (fst (fst (handlers.calculateSpendingTrends userID period dateStr w))).
Proof.
  destruct (trends_shape userID period dateStr w) as [->|(s & e & prev & k & ->)];
    [constructor|].
  apply List.Forall_forall. intros trend Hin.
  apply in_map_iff in Hin as (r & <- & _).
  rewrite trendOf_run. unfold directionAgrees.
  cbn [fst models.TrendDirection models.ChangePercent].
  unfold handlers.trendDirection.
  destruct (PrimFloat.ltb 0 _); cbn [fst snd]; [|tauto].
  match goal with
  | |- context [PrimFloat.ltb 10 ?c] =>
      destruct (PrimFloat.ltb 10 c) eqn:U; cbn [fst snd];
      [tauto|destruct (PrimFloat.ltb c (-10)) eqn:D; cbn [fst snd]; tauto]
  end.
Qed.

Lemma binary_round_nonneg m e : SFnonneg (binary_round prec emax false m e) = true.
Proof.
  unfold binary_round. destruct (shl_align _ _ _) as [mz ez].
  apply signed_nonneg.
  apply binary_round_aux_signed; [apply prec_emax_ok..|lia].
Qed.

Lemma SF64add_nonneg x y :
  SFnonneg x = true -> SFnonneg y = true -> SFnonneg (SF64add x y) = true.
Proof.
  unfold SF64add, SFadd.
  destruct x as [sx|sx| |sx mx ex], y as [sy|sy| |sy my ey]; cbn [SFnonneg];
    try discriminate; intros Hx Hy; try assumption; try reflexivity.
  - destruct sx, sy; reflexivity.
  - destruct sx, sy; try discriminate; reflexivity.
  - apply negb_true_iff in Hx, Hy. subst sx sy. cbn [cond_Zopp].
    apply binary_round_nonneg.
Qed.

Lemma add_nonneg (x y : float) :
  SFnonneg (Prim2SF x) = true -> SFnonneg (Prim2SF y) = true ->
  SFnonneg (Prim2SF (x + y)) = true.
Proof. rewrite FloatAxioms.add_spec. apply SF64add_nonneg. Qed.

Lemma SUM_nonneg xs :
  (forall x, In x xs -> SFnonneg (Prim2SF x) = true) ->
  SFnonneg (Prim2SF (sql.COALESCE (sql.SUM xs) 0)) = true.
Proof.
  destruct xs as [|x rest]; [reflexivity|]. cbn [sql.SUM sql.COALESCE].
  intros H. assert (Hx : SFnonneg (Prim2SF x) = true) by (apply H; left; reflexivity).
  assert (Hr : forall y, In y rest -> SFnonneg (Prim2SF y) = true)
    by (intros y Hy; apply H; right; exact Hy).
  clear H. revert x Hx. induction rest as [|y rest IH]; intros x Hx; [exact Hx|].
  cbn [fold_left]. apply IH.
  - intros z Hz. apply Hr. right. exact Hz.
  - apply add_nonneg; [exact Hx|]. apply Hr. left. reflexivity.
Qed.

Lemma In_amounts a rs :
  In a (sql.amounts rs) <-> exists c t, In (c, Some t) rs /\ a = models.tx_Amount t.
Proof.
  unfold sql.amounts. rewrite in_flat_map. split.
  - intros ([c [t|]] & Hr & Ha); cbn in Ha; [|destruct Ha].
    destruct Ha as [<-|[]]. exists c, t. auto.
  - intros (c & t & Hr & ->). exists (c, Some t). split; [exact Hr|left; reflexivity].
Qed.

Lemma currentGroups_nonneg d userID s e r :
  (forall t, In t (sql.transactions d) ->
             models.tx_UserID t = userID -> models.tx_Type t = "expense"%string ->
             PrimFloat.leb 0 (models.tx_Amount t) = true) ->
  In r (currentGroups d userID s e) ->
  SFnonneg (Prim2SF (snd r)) = true.
Proof.
  intros H. unfold currentGroups, sql.groupByIdName. rewrite in_map_iff.
  intros (k & <- & _). cbn [snd]. apply SUM_nonneg.
  intros a Ha. apply In_amounts in Ha as (c & t & Hr & ->).
  apply filter_In in Hr as [Hr _]. apply filter_In in Hr as [Hr _].
  apply -> In_leftJoin in Hr. destruct Hr as (_ & Ht & J).
  unfold sql.joins in J. rewrite !andb_true_iff in J.
  destruct J as ((((_ & Ju) & Jt) & _) & _).
  apply Z.eqb_eq in Ju. apply String.eqb_eq in Jt.
  rewrite <- leb_zero_SF. apply H; assumption.
Qed.

Lemma prediction_not_below_zero c p h period :
  SFnonneg (Prim2SF c) = true ->
  PrimFloat.ltb (handlers.calculatePrediction c p h period) 0 = false.
Proof.
  intros Nc. unfold handlers.calculatePrediction. cbv zeta.
  match goal with
  | |- PrimFloat.ltb (if PrimFloat.ltb ?v 0 then _ else _) 0 = false =>
      destruct (PrimFloat.ltb v 0) eqn:L
  end; [|exact L].
  apply nonneg_not_below_zero. rewrite FloatAxioms.mul_spec.
  change (Prim2SF 0.8) with (S754_finite false 7205759403792794 (-53)).
  apply SF64mul_nonneg. exact Nc.
Qed.

(** X9. When no expense of the user is stored with an amount below zero,
    no trend is reported with a current spend below zero, and none with a
    predicted spend below zero. *)
Theorem stored_amounts_keep_trends_nonnegative
    (userID : Z) (period dateStr : string) (w : handlers.World) :
  (forall t, In t (sql.transactions (handlers.db w)) ->
             models.tx_UserID t = userID ->
             models.tx_Type t = "expense"%string ->
             PrimFloat.leb 0 (models.tx_Amount t) = true) ->
  Forall
    (fun trend =>
       PrimFloat.leb 0 (models.CurrentSpend trend) = true
       /\ PrimFloat.ltb (models.PredictedSpend trend) 0 = false)
    (fst (fst (handlers.calculateSpendingTrends userID period dateStr w))).
Proof.
  intros H.
  destruct (trends_shape userID period dateStr w) as [->|(s & e & prev & k & ->)];
    [constructor|].
  apply List.Forall_forall. intros trend Hin.
  apply in_map_iff in Hin as (r & <- & Hr).
  apply In_firstn in Hr. apply -> In_orderByAmountDesc in Hr.
  pose proof (currentGroups_nonneg _ _ _ _ _ H Hr) as N.
  rewrite trendOf_run. cbn [fst models.CurrentSpend models.PredictedSpend].
  split; [rewrite leb_zero_SF; exact N|].
  apply prediction_not_below_zero. exact N.
Qed.

(** The example store holds no amount below zero. *)
Lemma example_trends_are_nonnegative :
  Forall
    (fun trend =>
       PrimFloat.leb 0 (models.CurrentSpend trend) = true
       /\ PrimFloat.ltb (models.PredictedSpend trend) 0 = false)
    (fst (fst (handlers.calculateSpendingTrends 7 "week" "2024-01-15" exampleWorld))).
Proof.
  apply (stored_amounts_keep_trends_nonnegative 7 "week" "2024-01-15" exampleWorld).
  intros t Hin _ _. cbn in Hin.
  destruct Hin as [<-|[<-|[<-|[]]]]; reflexivity.
Defined.

(** ** One user at a time *)

Lemma filter_filter_imp {A : Type} (f g : A -> bool) (l : list A) :
  (forall x, g x = true -> f x = true) ->
  List.filter g (List.filter f l) = List.filter g l.
Proof.
  intros H. induction l as [|x l IH]; [reflexivity|]. cbn [List.filter].
  destruct (f x) eqn:F.
  - cbn [List.filter]. rewrite IH. reflexivity.
  - destruct (g x) eqn:G; [rewrite (H x G) in F; discriminate|exact IH].
Qed.

Lemma joinedRows_sameData userID d1 d2 s e c :
  sameDataOf userID d1 d2 ->
  joinedRows d1 userID s e c = joinedRows d2 userID s e c.
Proof.
  intros (_ & HT & _ & _). unfold joinedRows.
  rewrite <- (filter_filter_imp (fun t => models.tx_UserID t =? userID)
                (sql.joins userID s e c) (sql.transactions d1)).
  - rewrite HT. rewrite filter_filter_imp; [reflexivity|].
    intros t H. unfold sql.joins in H. rewrite !andb_true_iff in H. tauto.
  - intros t H. unfold sql.joins in H. rewrite !andb_true_iff in H. tauto.
Qed.

Lemma filtered_join_sameData userID d1 d2 s e :
  sameDataOf userID d1 d2 ->
  List.filter (sql.whereExpenseOf userID) (sql.leftJoin d1 userID s e)
  = List.filter (sql.whereExpenseOf userID) (sql.leftJoin d2 userID s e).
Proof.
  intros S.
  change (sql.whereExpenseOf userID)
    with (fun r : models.Category * option models.Transaction =>
            expenseCategoryOf userID (fst r)).
  rewrite !leftJoin_joinedRows, !filter_joined.
  rewrite <- (filter_filter_imp (fun c => models.cat_UserID c =? userID)
                (expenseCategoryOf userID) (sql.categories d1)),
          <- (filter_filter_imp (fun c => models.cat_UserID c =? userID)
                (expenseCategoryOf userID) (sql.categories d2)).
  - pose proof S as (HC & _). rewrite HC.
    apply flat_map_ext. intros c. apply joinedRows_sameData. assumption.
  - intros c H. unfold expenseCategoryOf in H. apply andb_true_iff in H. tauto.
  - intros c H. unfold expenseCategoryOf in H. apply andb_true_iff in H. tauto.
Qed.

Lemma eval_sameData userID d1 d2 q :
  sameDataOf userID d1 d2 -> userOf q = userID -> sql.eval d1 q = sql.eval d2 q.
Proof.
  intros S U. destruct q as [u s e|u s e|n u cid]; cbn [userOf] in U; subst u;
    cbn [sql.eval].
  - rewrite (filtered_join_sameData userID d1 d2 s e S). reflexivity.
  - rewrite (filtered_join_sameData userID d1 d2 s e S). reflexivity.
  - destruct S as (_ & HT & HN & _). cbv zeta. rewrite HN.
    do 5 f_equal. f_equal.
    match goal with
    | |- List.filter ?g _ = _ =>
        rewrite <- (filter_filter_imp (fun t => models.tx_UserID t =? userID) g
                      (sql.transactions d1)),
                <- (filter_filter_imp (fun t => models.tx_UserID t =? userID) g
                      (sql.transactions d2))
    end.
    + rewrite HT. reflexivity.
    + intros t H. rewrite !andb_true_iff in H. tauto.
    + intros t H. rewrite !andb_true_iff in H. tauto.
Qed.

Lemma Query_sameData userID d1 d2 q :
  sameDataOf userID d1 d2 -> userOf q = userID -> sql.Query d1 q = sql.Query d2 q.
Proof.
  intros S U. unfold sql.Query.
  rewrite (eval_sameData userID d1 d2 q S U).
  destruct S as (_ & _ & _ & HF). rewrite (HF q U). reflexivity.
Qed.

Lemma QueryRow_sameData userID d1 d2 q :
  sameDataOf userID d1 d2 -> userOf q = userID ->
  sql.QueryRow d1 q = sql.QueryRow d2 q.
Proof.
  intros S U. unfold sql.QueryRow, sql.Err.
  rewrite (Query_sameData userID d1 d2 q S U), (eval_sameData userID d1 d2 q S U).
  destruct S as (_ & _ & _ & HF). rewrite (HF q U). reflexivity.
Qed.

Lemma trendOf_sameData userID period (prevSpending : gmap Z float)
    categoryID categoryName currentSpend w1 w2 :
  sameDataOf userID (handlers.db w1) (handlers.db w2) ->
  fst (handlers.trendOf userID period prevSpending categoryID categoryName
         currentSpend w1)
  = fst (handlers.trendOf userID period prevSpending categoryID categoryName
           currentSpend w2).
Proof.
  intros S. rewrite !trendOf_run, !getHistoricalAverage_run.
  rewrite (QueryRow_sameData userID _ _
             (sql.HistoricalQuery (lookbackDays period) userID categoryID) S eq_refl).
  reflexivity.
Qed.

Lemma trendsLoop_sameData userID period (prevSpending : gmap Z float) rows trends w1 w2 :
  sameDataOf userID (handlers.db w1) (handlers.db w2) ->
  fst (handlers.trendsLoop userID period prevSpending rows trends w1)
  = fst (handlers.trendsLoop userID period prevSpending rows trends w2).
Proof.
  intros S. revert trends.
  induction rows as [|row rest IH]; intros trends; [reflexivity|].
  destruct (handlers.scanCurrent row) as [[[id name] cur]|] eqn:E.
  - rewrite !(trendsLoop_step _ _ _ _ _ _ _ _ _ _ E).
    rewrite (trendOf_sameData _ _ _ _ _ _ w1 w2 S). apply IH.
  - rewrite !(trendsLoop_skip _ _ _ _ _ _ _ E). apply IH.
Qed.

Lemma calculateSpendingTrends_sameData userID period dateStr w1 w2 :
  sameDataOf userID (handlers.db w1) (handlers.db w2) ->
  fst (handlers.calculateSpendingTrends userID period dateStr w1)
  = fst (handlers.calculateSpendingTrends userID period dateStr w2).
Proof.
  intros S. rewrite !calculateSpendingTrends_run. cbn [fst snd].
  destruct (snd (time.Parse dateStr)); [reflexivity|].
  destruct (handlers.dateRanges period _) as [[[[s e] ps] pe]|]; [|reflexivity].
  cbv zeta.
  rewrite (Query_sameData userID _ _ (sql.CurrentQuery userID s e) S eq_refl).
  rewrite (Query_sameData userID _ _ (sql.PrevQuery userID ps pe) S eq_refl).
  destruct (snd (sql.Query (handlers.db w2) (sql.CurrentQuery userID s e)));
    [reflexivity|].
  destruct (snd (sql.Query (handlers.db w2) (sql.PrevQuery userID ps pe)));
    [reflexivity|].
  f_equal. apply trendsLoop_sameData. exact S.
Qed.

(** X10. What a user is answered depends on that user's data only: two
    stores that hold the same categories and transactions of the user, at
    the same time, failing the same statements of the user, give the same
    trends, and with the same process clock the same response, whatever
    they hold of other users. *)
Theorem trends_depend_on_the_data_of_the_user_only
    (userID : Z) (w1 w2 : handlers.World) :
  sameDataOf userID (handlers.db w1) (handlers.db w2) ->
  (forall period dateStr,
     fst (handlers.calculateSpendingTrends userID period dateStr w1)
     = fst (handlers.calculateSpendingTrends userID period dateStr w2))
  /\ (forall c,
        handlers.user_id c = userID ->
        handlers.clock w1 = handlers.clock w2 ->
        fst (handlers.GetSpendingTrends c w1) = fst (handlers.GetSpendingTrends c w2)).
Proof.
  intros S. split.
  - intros period dateStr. apply calculateSpendingTrends_sameData, S.
  - intros c U K. rewrite !GetSpendingTrends_run.
    destruct (String.eqb _ ""); [reflexivity|]. cbv zeta.
    assert (referenceDate c w1 = referenceDate c w2) as ->.
    { unfold referenceDate. rewrite K. reflexivity. }
    rewrite (calculateSpendingTrends_sameData (handlers.user_id c) _ _ w1 w2)
      by (rewrite U; exact S).
    reflexivity.
Qed.

(** User 7 is answered the same by the example store and by the store
    that holds nothing of other users. *)
Lemma example_store_without_other_users :
  (forall period dateStr,
     fst (handlers.calculateSpendingTrends 7 period dateStr (worldOf exampleDB))
     = fst (handlers.calculateSpendingTrends 7 period dateStr
              (worldOf exampleDBOfUser7)))
  /\ (forall c,
        handlers.user_id c = 7 ->
        handlers.clock (worldOf exampleDB) = handlers.clock (worldOf exampleDBOfUser7) ->
        fst (handlers.GetSpendingTrends c (worldOf exampleDB))
        = fst (handlers.GetSpendingTrends c (worldOf exampleDBOfUser7))).
Proof.
  apply (trends_depend_on_the_data_of_the_user_only 7
           (worldOf exampleDB) (worldOf exampleDBOfUser7)).
  repeat split; intros; reflexivity.
Defined.

(** ** The handler and the log *)

(** X11. The handler changes nothing but the log: the store, the clock and
    the package-level variables are as before; an answer with status 500
    comes with exactly one new log entry, which holds the error of the
    computation, and any other answer leaves the world as it was. *)
Theorem handler_logs_only_failed_computations
    (c : handlers.Context) (w : handlers.World) :
  let r := handlers.GetSpendingTrends c w in
  let result :=
    fst (handlers.calculateSpendingTrends (handlers.user_id c)
           (handlers.formValue (handlers.query c) "period") (referenceDate c w) w) in
  handlers.db (snd r) = handlers.db w
  /\ handlers.clock (snd r) = handlers.clock w
  /\ handlers.vars (snd r) = handlers.vars w
  /\ (handlers.status (fst r) = handlers.StatusInternalServerError ->
      exists e, snd result = Some e
                /\ handlers.log (snd r)
                   = handlers.log w
                     ++ [("Error calculating spending trends: %v"%string, e)])
  /\ (handlers.status (fst r) <> handlers.StatusInternalServerError -> snd r = w).
Proof.
  cbv zeta.
  unfold handlers.GetSpendingTrends, handlers.ShouldBindQuery, referenceDate.
  cbn [models.Period models.Date].
  destruct (String.eqb (handlers.formValue (handlers.query c) "period") "").
  { monad. cbn. repeat split; try reflexivity. intros H. discriminate H. }
  monad. cbn [models.Period models.Date].
  destruct (String.eqb (handlers.formValue (handlers.query c) "date") "");
    cbv beta iota zeta;
    match goal with
    | |- context [handlers.calculateSpendingTrends ?u ?p ?d ?w] =>
        pose proof (calculateSpendingTrends_state u p d w) as S;
        destruct (handlers.calculateSpendingTrends u p d w) as [[trends [e|]] w']
    end; cbn [fst snd] in *; subst w'; cbn;
    repeat split; try reflexivity;
    first [ intros _; exists e; split; reflexivity
          | intros H; exfalso; apply H; reflexivity
          | intros H; discriminate H ].
Qed.

(** ** The middleware *)

Lemma HasPrefix_app prefix s : strings.HasPrefix (prefix ++ s) prefix = true.
Proof.
  induction prefix as [|c prefix IH]; simpl; [reflexivity|].
  rewrite Ascii.eqb_refl. exact IH.
Qed.

Lemma from_app prefix s : strings.from (String.length prefix) (prefix ++ s) = s.
Proof. induction prefix as [|c prefix IH]; simpl; [reflexivity|exact IH]. Qed.

Lemma TrimPrefix_app prefix s : strings.TrimPrefix (prefix ++ s) prefix = s.
Proof. unfold strings.TrimPrefix. rewrite HasPrefix_app. apply from_app. Qed.

(** X12. The scheme of the Authorization header is optional: a token
    that does not itself start with the scheme is treated the same with
    and without [Bearer ] before it, whatever the validation is. *)
Theorem bearer_scheme_is_optional
    {Claims AuthError : Type} (ValidateJWT : string -> Claims * option AuthError)
    (token : string) :
  token <> ""%string ->
  strings.HasPrefix token "Bearer " = false ->
  AuthMiddleware ValidateJWT ("Bearer " ++ token) = AuthMiddleware ValidateJWT token.
Proof.
  intros Hn Hp. unfold AuthMiddleware.
  apply String.eqb_neq in Hn. rewrite Hn.
  change (String.eqb ("Bearer " ++ token) "") with false. cbv iota zeta.
  rewrite TrimPrefix_app. unfold strings.TrimPrefix. rewrite Hp. reflexivity.
Qed.

(** The token of the example passes with and without the scheme. *)
Lemma bare_token_passes_like_bearer_token :
  AuthMiddleware exampleValidateJWT ("Bearer " ++ "t0k3n")
  = AuthMiddleware exampleValidateJWT "t0k3n".
Proof.
  apply (bearer_scheme_is_optional exampleValidateJWT "t0k3n").
  - discriminate.
  - reflexivity.
Defined.

(** ** The analytics by category *)









(** An amount below zero is needed for a percentage below zero, and is
    enough: -5 and 10 are -100 and 200 percent of their sum. *)
Example amount_below_zero_gives_percentage_below_zero :
  map analytics.Percentage
    (fst (analytics.spendingAnalytics exampleScan exampleRowsBelowZero exampleWorld))
  = [(-100)%float; 200%float].
Proof. vm_compute. reflexivity. Qed.
